(** * P2Button firmware (Xiao ESP32-S3 Plus): state machine, BLE gateway,
      button classifier, UI monitor and watchdog

    A shallow embedding of [ESP32_s3PLUS_NewRECORDING.ino].  Every FreeRTOS
    task body is modelled as one loop iteration over an explicit [World]:
    the firmware's globals and queues ([Firmware]) plus what the scheduler
    and the radio decide ([Env]).  No other task runs inside an iteration;
    what the others do shows as a lock that cannot be taken or as a changed
    world at the next iteration.  The watchdog pass, whose verdict depends
    on what happens between two of its reads, has an explicit point where
    the other tasks run.  Serial logging is left out.  The legacy
    single-core sketch's write callback, command task and button task are
    embedded in [Module Legacy], the web app's command table and write path
    in [Module WebApp]. *)

From Stdlib Require Import ZArith List String Ascii Bool Lia.
Import ListNotations.
Local Open Scope string_scope.
Local Open Scope Z_scope.

(** ** Machine integers *)

(** [uint32_t] and [TickType_t] values are integers in [0, 2^32); the result
    of every C operation on them is reduced with [uint32]. *)
Definition UINT32_MOD : Z := 4294967296.
Definition uint32 (x : Z) : Z := x mod UINT32_MOD.
Definition TickType_t : Type := Z.

(** Modelled from the spec: the FreeRTOS tick rate [configTICK_RATE_HZ] is
    part of the board configuration, not of the repository; the spec counts
    every timeout in milliseconds, one tick per millisecond. *)
Definition configTICK_RATE_HZ : Z := 1000.

(** Modelled from the spec: the FreeRTOS macro that turns milliseconds into
    ticks, computed in [TickType_t]; it is not part of the repository. *)
Definition pdMS_TO_TICKS (xTimeInMs : Z) : TickType_t :=
  uint32 (uint32 (xTimeInMs * configTICK_RATE_HZ) / 1000).

(** ** Hardware configuration *)

Definition BUTTON_PIN : Z := 5.
Definition LED_BLUE_PIN : Z := 3.
Definition LED_GREEN_PIN : Z := 8.
Definition LED_RED_PIN : Z := 1.
Definition BUZZER_PIN : Z := 6.

Definition HIGH : bool := true.
Definition LOW : bool := false.

Definition SYSTEM_WATCHDOG_MS : Z := 30000.

(** Event-group bits. *)
Definition BLE_CONNECTED : Z := 2.
Definition UI_READY : Z := 4.

(** ** State machine definitions *)

(** [SystemState_t] is a C enumeration: a variable of that type holds 32
    bits, kept here as the unsigned value they encode.  [==], [!=] and
    [switch] look at the bits.  An ordering comparison promotes both
    operands to [int] and so reads the bits as a signed number
    ([enum_as_int]): the values from [2^31] on count as negative. *)
Definition SystemState_t : Type := Z.
Definition enum_as_int (state : SystemState_t) : Z :=
  if state <? 2147483648 then state else state - UINT32_MOD.
Definition STATE_STARTUP : SystemState_t := 0.
Definition STATE_LOGO : SystemState_t := 1.
Definition STATE_SETUP : SystemState_t := 2.
Definition STATE_LOGIN : SystemState_t := 3.
Definition STATE_UNLOCK : SystemState_t := 4.
Definition STATE_RECORDING : SystemState_t := 5.
Definition STATE_UPLOADING : SystemState_t := 6.
Definition STATE_ERROR : SystemState_t := 7.
Definition STATE_SHUTDOWN : SystemState_t := 8.
Definition STATE_MAX : SystemState_t := 9.

Inductive SystemEvent_t : Type :=
  | EVENT_STARTUP_COMPLETE
  | EVENT_BLE_CONNECTED
  | EVENT_BLE_DISCONNECTED
  | EVENT_APP_COMMAND
  | EVENT_BUTTON_SHORT_PRESS
  | EVENT_BUTTON_LONG_PRESS
  | EVENT_TIMEOUT
  | EVENT_ERROR
  | EVENT_UNPAIR_REQUEST.

Inductive UICommand_t : Type :=
  | UI_CMD_LOAD_SCREEN
  | UI_CMD_SHOW_MESSAGE
  | UI_CMD_START_ANIMATION
  | UI_CMD_STOP_ANIMATION
  | UI_CMD_UPDATE_PROGRESS
  | UI_CMD_CLEAR_SCREEN.

Inductive AnimationType_t : Type :=
  | ANIM_NONE
  | ANIM_PULSE
  | ANIM_ROTATE
  | ANIM_FADE
  | ANIM_SHAKE.

(** ** Data structures *)

Record SystemEventMsg_t : Type := mkSystemEventMsg {
  ev_event : SystemEvent_t;
  ev_targetState : SystemState_t;
  ev_param1 : Z;
  ev_param2 : Z;
  ev_data : string;
  ev_timestamp : TickType_t
}.

Record UIRenderMsg_t : Type := mkUIRenderMsg {
  ui_command : UICommand_t;
  ui_state : SystemState_t;
  ui_animation : AnimationType_t;
  ui_message : string;
  ui_duration : Z;
  ui_isError : bool;
  ui_progress : Z;
  ui_highPriority : bool;
  ui_forceRefresh : bool;
  ui_timestamp : TickType_t
}.

Record BLECommandMsg_t : Type := mkBLECommandMsg {
  cmd_command : string;
  cmd_data : string;
  cmd_timestamp : TickType_t
}.

Record ButtonEvent_t : Type := mkButtonEvent {
  btn_pressed : bool;
  btn_duration : Z;
  btn_timestamp : TickType_t;
  btn_isLongPress : bool
}.

(** A software timer: whether it is armed, with which period, and the tick at
    which it was last (re)started. *)
Record Timer : Type := mkTimer {
  tm_active : bool;
  tm_period : TickType_t;
  tm_started : TickType_t
}.

(** Screens of the generated LVGL project that [loadScreen] can show. *)
Inductive Screen : Type :=
  | ui_LOGO1
  | ui_LOGO2
  | ui_LOGIN
  | ui_HoldToUnlock
  | ui_Unlock
  | ui_HoldToUpload
  | ui_Recording
  | ui_Uploading.

(** What the UI task asks of the display. *)
Inductive DisplayOp : Type :=
  | ScrLoadAnim (s : Screen)
  | LabelShow (text : string) (isError : bool) (duration : Z)
  | LabelHide
  | AnimStart (a : AnimationType_t)
  | AnimDelAll.

(** The characteristic object of the BLE stack, as far as the sketch uses
    it: the bytes it holds. *)
Record BLECharacteristic : Type := mkBLECharacteristic {
  ch_value : string
}.

Definition PROPERTY_READ : Z := 1.
Definition PROPERTY_WRITE : Z := 2.
Definition PROPERTY_NOTIFY : Z := 4.
Definition PROPERTY_INDICATE : Z := 16.

Record BLECharDef : Type := mkBLECharDef {
  serviceUUID : string;
  charUUID : string;
  properties : Z;
  associatedState : SystemState_t;
  indicationMessage : string;
  characteristic : option BLECharacteristic  (* None is nullptr *)
}.

Record SystemStatus_t : Type := mkSystemStatus {
  currentState : SystemState_t;
  previousState : SystemState_t;
  stateEnterTime : TickType_t;
  lastActivityTime : TickType_t;
  stateTimeoutMs : Z;
  isConnected : bool;
  isUIReady : bool;
  (* a float in the source: its bit pattern, never computed with *)
  batteryLevel : Z;
  errorCount : Z;
  lastUIState : SystemState_t;
  lastUIUpdateTime : TickType_t;
  uiMissedUpdates : Z;
  forceUIRefresh : bool;
  isLoginFirstScreen : bool;
  isRecordingHoldToUpload : bool;
  isLogoAlt : bool;
  lastBurstState : SystemState_t;
  suppressAppCmdUntil : TickType_t;
  bleBurstActive : bool
}.

Definition set_currentState (v : SystemState_t)
    (x : SystemStatus_t) : SystemStatus_t :=
  mkSystemStatus v (previousState x) (stateEnterTime x) (lastActivityTime x)
    (stateTimeoutMs x) (isConnected x) (isUIReady x) (batteryLevel x)
    (errorCount x) (lastUIState x) (lastUIUpdateTime x) (uiMissedUpdates x)
    (forceUIRefresh x) (isLoginFirstScreen x) (isRecordingHoldToUpload x)
    (isLogoAlt x) (lastBurstState x) (suppressAppCmdUntil x)
    (bleBurstActive x).

Definition set_previousState (v : SystemState_t)
    (x : SystemStatus_t) : SystemStatus_t :=
  mkSystemStatus (currentState x) v (stateEnterTime x) (lastActivityTime x)
    (stateTimeoutMs x) (isConnected x) (isUIReady x) (batteryLevel x)
    (errorCount x) (lastUIState x) (lastUIUpdateTime x) (uiMissedUpdates x)
    (forceUIRefresh x) (isLoginFirstScreen x) (isRecordingHoldToUpload x)
    (isLogoAlt x) (lastBurstState x) (suppressAppCmdUntil x)
    (bleBurstActive x).

Definition set_stateEnterTime (v : TickType_t)
    (x : SystemStatus_t) : SystemStatus_t :=
  mkSystemStatus (currentState x) (previousState x) v (lastActivityTime x)
    (stateTimeoutMs x) (isConnected x) (isUIReady x) (batteryLevel x)
    (errorCount x) (lastUIState x) (lastUIUpdateTime x) (uiMissedUpdates x)
    (forceUIRefresh x) (isLoginFirstScreen x) (isRecordingHoldToUpload x)
    (isLogoAlt x) (lastBurstState x) (suppressAppCmdUntil x)
    (bleBurstActive x).

Definition set_lastActivityTime (v : TickType_t)
    (x : SystemStatus_t) : SystemStatus_t :=
  mkSystemStatus (currentState x) (previousState x) (stateEnterTime x) v
    (stateTimeoutMs x) (isConnected x) (isUIReady x) (batteryLevel x)
    (errorCount x) (lastUIState x) (lastUIUpdateTime x) (uiMissedUpdates x)
    (forceUIRefresh x) (isLoginFirstScreen x) (isRecordingHoldToUpload x)
    (isLogoAlt x) (lastBurstState x) (suppressAppCmdUntil x)
    (bleBurstActive x).

Definition set_stateTimeoutMs (v : Z)
    (x : SystemStatus_t) : SystemStatus_t :=
  mkSystemStatus (currentState x) (previousState x) (stateEnterTime x)
    (lastActivityTime x) v (isConnected x) (isUIReady x) (batteryLevel x)
    (errorCount x) (lastUIState x) (lastUIUpdateTime x) (uiMissedUpdates x)
    (forceUIRefresh x) (isLoginFirstScreen x) (isRecordingHoldToUpload x)
    (isLogoAlt x) (lastBurstState x) (suppressAppCmdUntil x)
    (bleBurstActive x).

Definition set_isUIReady (v : bool) (x : SystemStatus_t) : SystemStatus_t :=
  mkSystemStatus (currentState x) (previousState x) (stateEnterTime x)
    (lastActivityTime x) (stateTimeoutMs x) (isConnected x) v (batteryLevel x)
    (errorCount x) (lastUIState x) (lastUIUpdateTime x) (uiMissedUpdates x)
    (forceUIRefresh x) (isLoginFirstScreen x) (isRecordingHoldToUpload x)
    (isLogoAlt x) (lastBurstState x) (suppressAppCmdUntil x)
    (bleBurstActive x).

Definition set_errorCount (v : Z) (x : SystemStatus_t) : SystemStatus_t :=
  mkSystemStatus (currentState x) (previousState x) (stateEnterTime x)
    (lastActivityTime x) (stateTimeoutMs x) (isConnected x) (isUIReady x)
    (batteryLevel x) v (lastUIState x) (lastUIUpdateTime x)
    (uiMissedUpdates x) (forceUIRefresh x) (isLoginFirstScreen x)
    (isRecordingHoldToUpload x) (isLogoAlt x) (lastBurstState x)
    (suppressAppCmdUntil x) (bleBurstActive x).

Definition set_lastUIState (v : SystemState_t)
    (x : SystemStatus_t) : SystemStatus_t :=
  mkSystemStatus (currentState x) (previousState x) (stateEnterTime x)
    (lastActivityTime x) (stateTimeoutMs x) (isConnected x) (isUIReady x)
    (batteryLevel x) (errorCount x) v (lastUIUpdateTime x) (uiMissedUpdates x)
    (forceUIRefresh x) (isLoginFirstScreen x) (isRecordingHoldToUpload x)
    (isLogoAlt x) (lastBurstState x) (suppressAppCmdUntil x)
    (bleBurstActive x).

Definition set_lastUIUpdateTime (v : TickType_t)
    (x : SystemStatus_t) : SystemStatus_t :=
  mkSystemStatus (currentState x) (previousState x) (stateEnterTime x)
    (lastActivityTime x) (stateTimeoutMs x) (isConnected x) (isUIReady x)
    (batteryLevel x) (errorCount x) (lastUIState x) v (uiMissedUpdates x)
    (forceUIRefresh x) (isLoginFirstScreen x) (isRecordingHoldToUpload x)
    (isLogoAlt x) (lastBurstState x) (suppressAppCmdUntil x)
    (bleBurstActive x).

Definition set_uiMissedUpdates (v : Z)
    (x : SystemStatus_t) : SystemStatus_t :=
  mkSystemStatus (currentState x) (previousState x) (stateEnterTime x)
    (lastActivityTime x) (stateTimeoutMs x) (isConnected x) (isUIReady x)
    (batteryLevel x) (errorCount x) (lastUIState x) (lastUIUpdateTime x) v
    (forceUIRefresh x) (isLoginFirstScreen x) (isRecordingHoldToUpload x)
    (isLogoAlt x) (lastBurstState x) (suppressAppCmdUntil x)
    (bleBurstActive x).

Definition set_forceUIRefresh (v : bool)
    (x : SystemStatus_t) : SystemStatus_t :=
  mkSystemStatus (currentState x) (previousState x) (stateEnterTime x)
    (lastActivityTime x) (stateTimeoutMs x) (isConnected x) (isUIReady x)
    (batteryLevel x) (errorCount x) (lastUIState x) (lastUIUpdateTime x)
    (uiMissedUpdates x) v (isLoginFirstScreen x) (isRecordingHoldToUpload x)
    (isLogoAlt x) (lastBurstState x) (suppressAppCmdUntil x)
    (bleBurstActive x).

Definition set_isLoginFirstScreen (v : bool)
    (x : SystemStatus_t) : SystemStatus_t :=
  mkSystemStatus (currentState x) (previousState x) (stateEnterTime x)
    (lastActivityTime x) (stateTimeoutMs x) (isConnected x) (isUIReady x)
    (batteryLevel x) (errorCount x) (lastUIState x) (lastUIUpdateTime x)
    (uiMissedUpdates x) (forceUIRefresh x) v (isRecordingHoldToUpload x)
    (isLogoAlt x) (lastBurstState x) (suppressAppCmdUntil x)
    (bleBurstActive x).

Definition set_isRecordingHoldToUpload (v : bool)
    (x : SystemStatus_t) : SystemStatus_t :=
  mkSystemStatus (currentState x) (previousState x) (stateEnterTime x)
    (lastActivityTime x) (stateTimeoutMs x) (isConnected x) (isUIReady x)
    (batteryLevel x) (errorCount x) (lastUIState x) (lastUIUpdateTime x)
    (uiMissedUpdates x) (forceUIRefresh x) (isLoginFirstScreen x) v
    (isLogoAlt x) (lastBurstState x) (suppressAppCmdUntil x)
    (bleBurstActive x).

Definition set_isLogoAlt (v : bool) (x : SystemStatus_t) : SystemStatus_t :=
  mkSystemStatus (currentState x) (previousState x) (stateEnterTime x)
    (lastActivityTime x) (stateTimeoutMs x) (isConnected x) (isUIReady x)
    (batteryLevel x) (errorCount x) (lastUIState x) (lastUIUpdateTime x)
    (uiMissedUpdates x) (forceUIRefresh x) (isLoginFirstScreen x)
    (isRecordingHoldToUpload x) v (lastBurstState x) (suppressAppCmdUntil x)
    (bleBurstActive x).

Definition set_lastBurstState (v : SystemState_t)
    (x : SystemStatus_t) : SystemStatus_t :=
  mkSystemStatus (currentState x) (previousState x) (stateEnterTime x)
    (lastActivityTime x) (stateTimeoutMs x) (isConnected x) (isUIReady x)
    (batteryLevel x) (errorCount x) (lastUIState x) (lastUIUpdateTime x)
    (uiMissedUpdates x) (forceUIRefresh x) (isLoginFirstScreen x)
    (isRecordingHoldToUpload x) (isLogoAlt x) v (suppressAppCmdUntil x)
    (bleBurstActive x).

Definition set_suppressAppCmdUntil (v : TickType_t)
    (x : SystemStatus_t) : SystemStatus_t :=
  mkSystemStatus (currentState x) (previousState x) (stateEnterTime x)
    (lastActivityTime x) (stateTimeoutMs x) (isConnected x) (isUIReady x)
    (batteryLevel x) (errorCount x) (lastUIState x) (lastUIUpdateTime x)
    (uiMissedUpdates x) (forceUIRefresh x) (isLoginFirstScreen x)
    (isRecordingHoldToUpload x) (isLogoAlt x) (lastBurstState x) v
    (bleBurstActive x).

Definition set_bleBurstActive (v : bool)
    (x : SystemStatus_t) : SystemStatus_t :=
  mkSystemStatus (currentState x) (previousState x) (stateEnterTime x)
    (lastActivityTime x) (stateTimeoutMs x) (isConnected x) (isUIReady x)
    (batteryLevel x) (errorCount x) (lastUIState x) (lastUIUpdateTime x)
    (uiMissedUpdates x) (forceUIRefresh x) (isLoginFirstScreen x)
    (isRecordingHoldToUpload x) (isLogoAlt x) (lastBurstState x)
    (suppressAppCmdUntil x) v.

Record BLEConnectionHealth_t : Type := mkBLEHealth {
  (* isConnected *)
  ble_isConnected : bool;
  connectionTime : TickType_t;
  lastSuccessfulIndication : TickType_t;
  indicationFailureCount : Z;
  totalIndicationsSent : Z;
  connectionStable : bool
}.

Definition set_ble_isConnected (v : bool)
    (x : BLEConnectionHealth_t) : BLEConnectionHealth_t :=
  mkBLEHealth v (connectionTime x) (lastSuccessfulIndication x)
    (indicationFailureCount x) (totalIndicationsSent x) (connectionStable x).

Definition set_connectionTime (v : TickType_t)
    (x : BLEConnectionHealth_t) : BLEConnectionHealth_t :=
  mkBLEHealth (ble_isConnected x) v (lastSuccessfulIndication x)
    (indicationFailureCount x) (totalIndicationsSent x) (connectionStable x).

Definition set_lastSuccessfulIndication (v : TickType_t)
    (x : BLEConnectionHealth_t) : BLEConnectionHealth_t :=
  mkBLEHealth (ble_isConnected x) (connectionTime x) v
    (indicationFailureCount x) (totalIndicationsSent x) (connectionStable x).

Definition set_indicationFailureCount (v : Z)
    (x : BLEConnectionHealth_t) : BLEConnectionHealth_t :=
  mkBLEHealth (ble_isConnected x) (connectionTime x)
    (lastSuccessfulIndication x) v (totalIndicationsSent x)
    (connectionStable x).

Definition set_totalIndicationsSent (v : Z)
    (x : BLEConnectionHealth_t) : BLEConnectionHealth_t :=
  mkBLEHealth (ble_isConnected x) (connectionTime x)
    (lastSuccessfulIndication x) (indicationFailureCount x) v
    (connectionStable x).

Definition set_connectionStable (v : bool)
    (x : BLEConnectionHealth_t) : BLEConnectionHealth_t :=
  mkBLEHealth (ble_isConnected x) (connectionTime x)
    (lastSuccessfulIndication x) (indicationFailureCount x)
    (totalIndicationsSent x) v.

Record Firmware : Type := mkFirmware {
  systemStatus : SystemStatus_t;
  bleHealth : BLEConnectionHealth_t;
  (* event group bits *)
  systemEvents : Z;
  systemEventQueue : list SystemEventMsg_t;
  uiRenderQueue : list UIRenderMsg_t;
  bleCommandQueue : list BLECommandMsg_t;
  buttonEventQueue : list ButtonEvent_t;
  stateTimeoutTimer : Timer;
  loginScreenTimer : Timer;
  logoSwitchTimer : Timer;
  bleCharacteristics : list BLECharDef;
  (* the static local of updateLEDs *)
  blinkState : bool;
  (* digitalWrite calls, oldest first *)
  gpio : list (Z * bool);
  (* LVGL calls, oldest first *)
  display : list DisplayOp;
  (* indications that went through: table index, value *)
  indications : list (nat * string)
}.

Definition fw_set_systemStatus (v : SystemStatus_t)
    (x : Firmware) : Firmware :=
  mkFirmware v (bleHealth x) (systemEvents x) (systemEventQueue x)
    (uiRenderQueue x) (bleCommandQueue x) (buttonEventQueue x)
    (stateTimeoutTimer x) (loginScreenTimer x) (logoSwitchTimer x)
    (bleCharacteristics x) (blinkState x) (gpio x) (display x) (indications x).

Definition fw_set_bleHealth (v : BLEConnectionHealth_t)
    (x : Firmware) : Firmware :=
  mkFirmware (systemStatus x) v (systemEvents x) (systemEventQueue x)
    (uiRenderQueue x) (bleCommandQueue x) (buttonEventQueue x)
    (stateTimeoutTimer x) (loginScreenTimer x) (logoSwitchTimer x)
    (bleCharacteristics x) (blinkState x) (gpio x) (display x) (indications x).

Definition fw_set_systemEvents (v : Z) (x : Firmware) : Firmware :=
  mkFirmware (systemStatus x) (bleHealth x) v (systemEventQueue x)
    (uiRenderQueue x) (bleCommandQueue x) (buttonEventQueue x)
    (stateTimeoutTimer x) (loginScreenTimer x) (logoSwitchTimer x)
    (bleCharacteristics x) (blinkState x) (gpio x) (display x) (indications x).

Definition fw_set_systemEventQueue (v : list SystemEventMsg_t)
    (x : Firmware) : Firmware :=
  mkFirmware (systemStatus x) (bleHealth x) (systemEvents x) v
    (uiRenderQueue x) (bleCommandQueue x) (buttonEventQueue x)
    (stateTimeoutTimer x) (loginScreenTimer x) (logoSwitchTimer x)
    (bleCharacteristics x) (blinkState x) (gpio x) (display x) (indications x).

Definition fw_set_uiRenderQueue (v : list UIRenderMsg_t)
    (x : Firmware) : Firmware :=
  mkFirmware (systemStatus x) (bleHealth x) (systemEvents x)
    (systemEventQueue x) v (bleCommandQueue x) (buttonEventQueue x)
    (stateTimeoutTimer x) (loginScreenTimer x) (logoSwitchTimer x)
    (bleCharacteristics x) (blinkState x) (gpio x) (display x) (indications x).

Definition fw_set_bleCommandQueue (v : list BLECommandMsg_t)
    (x : Firmware) : Firmware :=
  mkFirmware (systemStatus x) (bleHealth x) (systemEvents x)
    (systemEventQueue x) (uiRenderQueue x) v (buttonEventQueue x)
    (stateTimeoutTimer x) (loginScreenTimer x) (logoSwitchTimer x)
    (bleCharacteristics x) (blinkState x) (gpio x) (display x) (indications x).


Definition fw_set_stateTimeoutTimer (v : Timer) (x : Firmware) : Firmware :=
  mkFirmware (systemStatus x) (bleHealth x) (systemEvents x)
    (systemEventQueue x) (uiRenderQueue x) (bleCommandQueue x)
    (buttonEventQueue x) v (loginScreenTimer x) (logoSwitchTimer x)
    (bleCharacteristics x) (blinkState x) (gpio x) (display x) (indications x).

Definition fw_set_loginScreenTimer (v : Timer) (x : Firmware) : Firmware :=
  mkFirmware (systemStatus x) (bleHealth x) (systemEvents x)
    (systemEventQueue x) (uiRenderQueue x) (bleCommandQueue x)
    (buttonEventQueue x) (stateTimeoutTimer x) v (logoSwitchTimer x)
    (bleCharacteristics x) (blinkState x) (gpio x) (display x) (indications x).

Definition fw_set_logoSwitchTimer (v : Timer) (x : Firmware) : Firmware :=
  mkFirmware (systemStatus x) (bleHealth x) (systemEvents x)
    (systemEventQueue x) (uiRenderQueue x) (bleCommandQueue x)
    (buttonEventQueue x) (stateTimeoutTimer x) (loginScreenTimer x) v
    (bleCharacteristics x) (blinkState x) (gpio x) (display x) (indications x).

Definition fw_set_bleCharacteristics (v : list BLECharDef)
    (x : Firmware) : Firmware :=
  mkFirmware (systemStatus x) (bleHealth x) (systemEvents x)
    (systemEventQueue x) (uiRenderQueue x) (bleCommandQueue x)
    (buttonEventQueue x) (stateTimeoutTimer x) (loginScreenTimer x)
    (logoSwitchTimer x) v (blinkState x) (gpio x) (display x) (indications x).

Definition fw_set_blinkState (v : bool) (x : Firmware) : Firmware :=
  mkFirmware (systemStatus x) (bleHealth x) (systemEvents x)
    (systemEventQueue x) (uiRenderQueue x) (bleCommandQueue x)
    (buttonEventQueue x) (stateTimeoutTimer x) (loginScreenTimer x)
    (logoSwitchTimer x) (bleCharacteristics x) v (gpio x) (display x)
    (indications x).

Definition fw_set_gpio (v : list (Z * bool)) (x : Firmware) : Firmware :=
  mkFirmware (systemStatus x) (bleHealth x) (systemEvents x)
    (systemEventQueue x) (uiRenderQueue x) (bleCommandQueue x)
    (buttonEventQueue x) (stateTimeoutTimer x) (loginScreenTimer x)
    (logoSwitchTimer x) (bleCharacteristics x) (blinkState x) v (display x)
    (indications x).

Definition fw_set_display (v : list DisplayOp) (x : Firmware) : Firmware :=
  mkFirmware (systemStatus x) (bleHealth x) (systemEvents x)
    (systemEventQueue x) (uiRenderQueue x) (bleCommandQueue x)
    (buttonEventQueue x) (stateTimeoutTimer x) (loginScreenTimer x)
    (logoSwitchTimer x) (bleCharacteristics x) (blinkState x) (gpio x) v
    (indications x).

Definition fw_set_indications (v : list (nat * string))
    (x : Firmware) : Firmware :=
  mkFirmware (systemStatus x) (bleHealth x) (systemEvents x)
    (systemEventQueue x) (uiRenderQueue x) (bleCommandQueue x)
    (buttonEventQueue x) (stateTimeoutTimer x) (loginScreenTimer x)
    (logoSwitchTimer x) (bleCharacteristics x) (blinkState x) (gpio x)
    (display x) v.

Record Env : Type := mkEnv {
  (* what xTaskGetTickCount returns now *)
  tickCount : TickType_t;
  (* outcome of each coming xSemaphoreTake, in program order *)
  lockScript : list bool;
  (* whether each coming indicate() returns instead of throwing *)
  indicateScript : list bool
}.

Definition env_set_tickCount (v : TickType_t) (x : Env) : Env :=
  mkEnv v (lockScript x) (indicateScript x).

Definition env_set_lockScript (v : list bool) (x : Env) : Env :=
  mkEnv (tickCount x) v (indicateScript x).

Definition env_set_indicateScript (v : list bool) (x : Env) : Env :=
  mkEnv (tickCount x) (lockScript x) v.

Record World : Type := mkWorld {
  fw : Firmware;
  env : Env
}.

(** ** Initial values of the globals *)

Definition systemStatus_init : SystemStatus_t :=
  mkSystemStatus STATE_STARTUP STATE_STARTUP 0 0 0 false false 0 0
    STATE_STARTUP 0 0 false true false false STATE_MAX 0 false.

Definition bleHealth_init : BLEConnectionHealth_t :=
  mkBLEHealth false 0 0 0 0 false.

Definition SERVICE1 : string := "19b10000-e8f2-537e-4f6c-d104768a1214".
Definition SERVICE2 : string := "19b20000-e8f2-537e-4f6c-d104768a1214".

Definition bleCharacteristics_init : list BLECharDef :=
  [ mkBLECharDef SERVICE1 "19b10001-e8f2-537e-4f6c-d104768a1214"
      PROPERTY_INDICATE STATE_UNLOCK "Unlock (Button)" None;
    mkBLECharDef SERVICE1 "19b10002-e8f2-537e-4f6c-d104768a1214"
      PROPERTY_WRITE STATE_UNLOCK "" None;
    mkBLECharDef SERVICE1 "19b10003-e8f2-537e-4f6c-d104768a1214"
      PROPERTY_INDICATE STATE_RECORDING "Record (Button)" None;
    mkBLECharDef SERVICE1 "19b10004-e8f2-537e-4f6c-d104768a1214"
      PROPERTY_WRITE STATE_RECORDING "" None;
    mkBLECharDef SERVICE1 "19b10005-e8f2-537e-4f6c-d104768a1214"
      PROPERTY_INDICATE STATE_UPLOADING "Upload (Button)" None;
    mkBLECharDef SERVICE2 "19b20001-e8f2-537e-4f6c-d104768a1214"
      PROPERTY_WRITE STATE_UPLOADING "" None;
    mkBLECharDef SERVICE2 "19b20002-e8f2-537e-4f6c-d104768a1214"
      PROPERTY_WRITE STATE_SETUP "" None;
    mkBLECharDef SERVICE2 "19b20003-e8f2-537e-4f6c-d104768a1214"
      PROPERTY_WRITE STATE_LOGIN "" None;
    mkBLECharDef SERVICE2 "19b20004-e8f2-537e-4f6c-d104768a1214"
      PROPERTY_WRITE STATE_LOGO "" None;
    mkBLECharDef SERVICE2 "19b20005-e8f2-537e-4f6c-d104768a1214"
      PROPERTY_READ STATE_MAX "" None ].

(** [setupBLEServices]: every table entry gets its characteristic object. *)
Definition setupBLEServices (table : list BLECharDef) : list BLECharDef :=
  map (fun d => mkBLECharDef (serviceUUID d) (charUUID d) (properties d)
                  (associatedState d) (indicationMessage d)
                  (Some (mkBLECharacteristic "")))
      table.

(** The globals once [setup] and the tasks' initialisation have run. *)
Definition firmware_init : Firmware :=
  mkFirmware systemStatus_init bleHealth_init 0 [] [] [] []
    (mkTimer false (pdMS_TO_TICKS 5000) 0)
    (mkTimer false (pdMS_TO_TICKS 3500) 0)
    (mkTimer false (pdMS_TO_TICKS 3000) 0)
    (setupBLEServices bleCharacteristics_init)
    false [] [] [].

(** An environment in which every lock is free and every indication goes
    through. *)
Definition env_calm (now : TickType_t) : Env := mkEnv now [] [].

(** ** The monad of task code *)

Definition M (A : Type) : Type := World -> A * World.

Definition ret {A : Type} (a : A) : M A := fun w => (a, w).

Definition bind {A B : Type} (c : M A) (k : A -> M B) : M B :=
  fun w => let r := c w in k (fst r) (snd r).

Notation "x <- c1 ;; c2" := (bind c1 (fun x => c2))
  (at level 61, c1 at next level, right associativity).
Notation "c1 ;; c2" := (bind c1 (fun _ => c2))
  (at level 61, right associativity).

Definition get_fw : M Firmware := fun w => (fw w, w).
Definition modify_fw (f : Firmware -> Firmware) : M unit :=
  fun w => (tt, mkWorld (f (fw w)) (env w)).
Definition get_status : M SystemStatus_t := fun w => (systemStatus (fw w), w).
Definition modify_status (f : SystemStatus_t -> SystemStatus_t) : M unit :=
  modify_fw (fun x => fw_set_systemStatus (f (systemStatus x)) x).
Definition modify_env (f : Env -> Env) : M unit :=
  fun w => (tt, mkWorld (fw w) (f (env w))).

(** *** FreeRTOS primitives *)

Definition xTaskGetTickCount : M TickType_t :=
  fun w => (tickCount (env w), w).

(** Time passes only where the running task blocks. *)
Definition elapse (ticks : TickType_t) : M unit :=
  modify_env (fun e => env_set_tickCount (uint32 (tickCount e + ticks)) e).

Definition vTaskDelay (xTicksToDelay : TickType_t) : M unit :=
  elapse xTicksToDelay.

Inductive Mutex : Type := stateMutex | displayMutex | bleMutex.

(** A take either succeeds at once or fails after the whole wait; which of
    the two is read off the environment's script, an exhausted script
    meaning a free lock. *)
Definition xSemaphoreTake (m : Mutex) (xTicksToWait : TickType_t) : M bool :=
  fun w =>
    match lockScript (env w) with
    | [] => (true, w)
    | granted :: rest =>
        let e := env_set_lockScript rest (env w) in
        (granted,
         mkWorld (fw w)
           (if granted then e
            else env_set_tickCount (uint32 (tickCount e + xTicksToWait)) e))
    end.

Definition xSemaphoreGive (m : Mutex) : M unit := ret tt.

(** A queue of the firmware: where it lives in [Firmware] and how many items
    [xQueueCreate] gave it. *)
Record QueueHandle_t (A : Type) : Type := mkQueue {
  q_items : Firmware -> list A;
  q_store : list A -> Firmware -> Firmware;
  q_length : nat
}.
Arguments q_items {A}.
Arguments q_store {A}.
Arguments q_length {A}.

Definition systemEventQueueH : QueueHandle_t SystemEventMsg_t :=
  mkQueue _ systemEventQueue fw_set_systemEventQueue 20.
Definition uiRenderQueueH : QueueHandle_t UIRenderMsg_t :=
  mkQueue _ uiRenderQueue fw_set_uiRenderQueue 15.
Definition bleCommandQueueH : QueueHandle_t BLECommandMsg_t :=
  mkQueue _ bleCommandQueue fw_set_bleCommandQueue 10.

(** Sending appends when there is room; on a full queue the sender waits out
    its timeout and gives up (no other task runs inside one iteration). *)
Definition xQueueSend {A : Type} (q : QueueHandle_t A) (item : A)
    (xTicksToWait : TickType_t) : M bool :=
  f <- get_fw ;;
  if (List.length (q_items q f) <? q_length q)%nat
  then modify_fw (q_store q (q_items q f ++ [item])) ;; ret true
  else elapse xTicksToWait ;; ret false.

Definition xQueueReset {A : Type} (q : QueueHandle_t A) : M unit :=
  modify_fw (q_store q []).

Definition xQueueReceive {A : Type} (q : QueueHandle_t A)
    (xTicksToWait : TickType_t) : M (option A) :=
  f <- get_fw ;;
  match q_items q f with
  | item :: rest => modify_fw (q_store q rest) ;; ret (Some item)
  | [] => elapse xTicksToWait ;; ret None
  end.

Definition xEventGroupSetBits (bits : Z) : M unit :=
  modify_fw (fun f => fw_set_systemEvents (Z.lor (systemEvents f) bits) f).
Definition xEventGroupClearBits (bits : Z) : M unit :=
  modify_fw (fun f =>
    fw_set_systemEvents (Z.land (systemEvents f) (Z.lnot bits)) f).

Inductive TimerHandle_t : Type :=
  | stateTimeoutTimerH
  | loginScreenTimerH
  | logoSwitchTimerH.

Definition timer_of (t : TimerHandle_t) (f : Firmware) : Timer :=
  match t with
  | stateTimeoutTimerH => stateTimeoutTimer f
  | loginScreenTimerH => loginScreenTimer f
  | logoSwitchTimerH => logoSwitchTimer f
  end.

Definition timer_store (t : TimerHandle_t) (v : Timer) (f : Firmware)
    : Firmware :=
  match t with
  | stateTimeoutTimerH => fw_set_stateTimeoutTimer v f
  | loginScreenTimerH => fw_set_loginScreenTimer v f
  | logoSwitchTimerH => fw_set_logoSwitchTimer v f
  end.

Definition xTimerStart (t : TimerHandle_t) : M unit :=
  now <- xTaskGetTickCount ;;
  modify_fw (fun f =>
    timer_store t (mkTimer true (tm_period (timer_of t f)) now) f).
Definition xTimerReset (t : TimerHandle_t) : M unit := xTimerStart t.
Definition xTimerStop (t : TimerHandle_t) : M unit :=
  modify_fw (fun f =>
    timer_store t
      (mkTimer false (tm_period (timer_of t f)) (tm_started (timer_of t f))) f).
Definition xTimerChangePeriod (t : TimerHandle_t) (xNewPeriod : TickType_t)
    : M unit :=
  now <- xTaskGetTickCount ;;
  modify_fw (timer_store t (mkTimer true xNewPeriod now)).

(** *** Arduino primitives *)

Definition digitalWrite (pin : Z) (level : bool) : M unit :=
  modify_fw (fun f => fw_set_gpio (gpio f ++ [(pin, level)]) f).

Definition lvgl (op : DisplayOp) : M unit :=
  modify_fw (fun f => fw_set_display (display f ++ [op]) f).

(** [String::startsWith] and [String::equals] compare bytes. *)
Definition startsWith (s p : string) : bool := String.prefix p s.
Definition equals (s t : string) : bool := String.eqb s t.

(** ** UI commands *)

Definition sendUICommandEnhanced (cmd : UICommand_t) (state : SystemState_t)
    (message : string) (duration : Z) (forceRefresh highPriority : bool)
    : M unit :=
  ts <- xTaskGetTickCount ;;
  let uiMsg :=
    mkUIRenderMsg cmd state ANIM_NONE (substring 0 63 message) duration
      false 0 highPriority forceRefresh ts in
  let timeout :=
    if highPriority then pdMS_TO_TICKS 200 else pdMS_TO_TICKS 100 in
  sent <- xQueueSend uiRenderQueueH uiMsg timeout ;;
  if sent then ret tt
  else if highPriority then
    xQueueReset uiRenderQueueH ;;
    _ <- xQueueSend uiRenderQueueH uiMsg (pdMS_TO_TICKS 50) ;;
    ret tt
  else ret tt.

Definition sendUICommand (cmd : UICommand_t) (state : SystemState_t)
    (message : string) (duration : Z) : M unit :=
  sendUICommandEnhanced cmd state message duration false false.

Definition showMessage (message : string) (duration : Z) (isError : bool)
    : M unit :=
  sendUICommand UI_CMD_SHOW_MESSAGE STATE_MAX message duration.

(** ** Hardware reactions *)

Definition updateLEDs (state : SystemState_t) : M unit :=
  modify_fw (fun f => fw_set_blinkState (negb (blinkState f)) f) ;;
  f <- get_fw ;;
  let blink := blinkState f in
  if state =? STATE_LOGO then
    digitalWrite LED_RED_PIN LOW ;; digitalWrite LED_GREEN_PIN LOW ;;
    digitalWrite LED_BLUE_PIN LOW
  else if state =? STATE_SETUP then
    digitalWrite LED_RED_PIN HIGH ;; digitalWrite LED_GREEN_PIN HIGH ;;
    digitalWrite LED_BLUE_PIN HIGH
  else if state =? STATE_LOGIN then
    digitalWrite LED_RED_PIN HIGH ;; digitalWrite LED_GREEN_PIN LOW ;;
    digitalWrite LED_BLUE_PIN LOW
  else if state =? STATE_UNLOCK then
    digitalWrite LED_RED_PIN LOW ;; digitalWrite LED_GREEN_PIN HIGH ;;
    digitalWrite LED_BLUE_PIN LOW
  else if state =? STATE_RECORDING then
    digitalWrite LED_RED_PIN blink ;; digitalWrite LED_GREEN_PIN LOW ;;
    digitalWrite LED_BLUE_PIN LOW
  else if state =? STATE_UPLOADING then
    digitalWrite LED_RED_PIN LOW ;; digitalWrite LED_GREEN_PIN LOW ;;
    digitalWrite LED_BLUE_PIN blink
  else if state =? STATE_ERROR then
    digitalWrite LED_RED_PIN blink ;; digitalWrite LED_GREEN_PIN LOW ;;
    digitalWrite LED_BLUE_PIN blink
  else ret tt.

(** The [for] loop of [playBuzzer], from index [i] on. *)
Fixpoint playBuzzer_from (duration count : Z) (rounds : nat) (i : Z)
    : M unit :=
  match rounds with
  | O => ret tt
  | S rounds' =>
      if i <? count then
        digitalWrite BUZZER_PIN HIGH ;;
        vTaskDelay (pdMS_TO_TICKS duration) ;;
        digitalWrite BUZZER_PIN LOW ;;
        (if i <? count - 1 then vTaskDelay (pdMS_TO_TICKS duration)
         else ret tt) ;;
        playBuzzer_from duration count rounds' (i + 1)
      else ret tt
  end.

Definition playBuzzer (duration count : Z) : M unit :=
  playBuzzer_from duration count (Z.to_nat count) 0.

(** ** State machine *)

Definition getStateTimeout (state : SystemState_t) : Z :=
  if (state =? STATE_SETUP) || (state =? STATE_LOGIN) then 180000
  else if state =? STATE_UNLOCK then 120000
  else if (state =? STATE_RECORDING) || (state =? STATE_UPLOADING) then 240000
  else if state =? STATE_ERROR then 30000
  else 0.

Definition executeStateExit (state : SystemState_t) : M unit :=
  if state =? STATE_LOGO then xTimerStop logoSwitchTimerH
  else if (state =? STATE_RECORDING) || (state =? STATE_UPLOADING) then
    sendUICommand UI_CMD_STOP_ANIMATION state "" 0
  else if state =? STATE_LOGIN then xTimerStop loginScreenTimerH
  else ret tt.

Definition executeStateEntry (state : SystemState_t) : M unit :=
  if state =? STATE_LOGO then
    playBuzzer 100 1 ;;
    updateLEDs state ;;
    got <- xSemaphoreTake stateMutex (pdMS_TO_TICKS 50) ;;
    (if got then
       modify_status (set_isLogoAlt false) ;; xSemaphoreGive stateMutex
     else ret tt) ;;
    xTimerStart logoSwitchTimerH
  else if state =? STATE_SETUP then
    playBuzzer 200 2 ;;
    updateLEDs state ;;
    showMessage "Device Ready" 2000 false
  else if state =? STATE_LOGIN then
    playBuzzer 150 1 ;;
    updateLEDs state ;;
    showMessage "Hold button for 2 sec" 3000 false ;;
    got <- xSemaphoreTake stateMutex (pdMS_TO_TICKS 50) ;;
    (if got then
       modify_status (set_isLoginFirstScreen true) ;;
       xSemaphoreGive stateMutex
     else ret tt) ;;
    xTimerReset loginScreenTimerH
  else if state =? STATE_UNLOCK then
    playBuzzer 300 1 ;;
    updateLEDs state ;;
    showMessage "Press once to Record" 2000 false
  else if state =? STATE_RECORDING then
    playBuzzer 100 1 ;;
    updateLEDs state ;;
    sendUICommand UI_CMD_START_ANIMATION state "" 0
  else if state =? STATE_UPLOADING then
    playBuzzer 100 1 ;;
    updateLEDs state ;;
    sendUICommand UI_CMD_START_ANIMATION state "" 0 ;;
    got <- xSemaphoreTake stateMutex (pdMS_TO_TICKS 50) ;;
    (if got then
       modify_status (set_isRecordingHoldToUpload false) ;;
       xSemaphoreGive stateMutex
     else ret tt)
  else if state =? STATE_ERROR then
    playBuzzer 100 3 ;;
    updateLEDs state ;;
    showMessage "System Error" 5000 true
  else ret tt.

Definition isCriticalTransition (oldState newState : SystemState_t) : bool :=
  ((oldState =? STATE_UNLOCK) && (newState =? STATE_RECORDING))
  || ((oldState =? STATE_RECORDING) && (newState =? STATE_UPLOADING))
  || ((oldState =? STATE_UPLOADING) && (newState =? STATE_UNLOCK)).

(** The four assignments made under the lock. *)
Definition recordTransition (oldState newState : SystemState_t)
    (now : TickType_t) (s : SystemStatus_t) : SystemStatus_t :=
  set_stateTimeoutMs (getStateTimeout newState)
    (set_stateEnterTime now
      (set_currentState newState (set_previousState oldState s))).

Definition transitionToState (newState : SystemState_t)
    (trigger : SystemEvent_t) : M bool :=
  got <- xSemaphoreTake stateMutex (pdMS_TO_TICKS 100) ;;
  if got then
    st <- get_status ;;
    let oldState := currentState st in
    if STATE_MAX <=? enum_as_int newState then
      xSemaphoreGive stateMutex ;; ret false
    else
      executeStateExit oldState ;;
      now <- xTaskGetTickCount ;;
      modify_status (recordTransition oldState newState now) ;;
      let critical := isCriticalTransition oldState newState in
      (if critical then modify_status (set_forceUIRefresh true)
       else ret tt) ;;
      xSemaphoreGive stateMutex ;;
      executeStateEntry newState ;;
      sendUICommandEnhanced UI_CMD_LOAD_SCREEN newState "" 0 critical true ;;
      st' <- get_status ;;
      (if 0 <? stateTimeoutMs st' then
         xTimerChangePeriod stateTimeoutTimerH
           (pdMS_TO_TICKS (stateTimeoutMs st')) ;;
         xTimerReset stateTimeoutTimerH
       else xTimerStop stateTimeoutTimerH) ;;
      ret true
  else ret false.

(** ** Error accounting *)

Definition handleSystemError (error : string) (critical : bool) : M unit :=
  got <- xSemaphoreTake stateMutex (pdMS_TO_TICKS 100) ;;
  (if got then
     modify_status (fun s => set_errorCount (uint32 (errorCount s + 1)) s) ;;
     xSemaphoreGive stateMutex
   else ret tt) ;;
  if critical then
    ts <- xTaskGetTickCount ;;
    let event :=
      mkSystemEventMsg EVENT_ERROR STATE_ERROR 0 (if critical then 1 else 0)
        (substring 0 31 error) ts in
    _ <- xQueueSend systemEventQueueH event 0 ;;
    ret tt
  else ret tt.

(** ** BLE command gateway *)

Definition startAppCmdSuppression (state : SystemState_t) (duration_ms : Z)
    : M unit :=
  got <- xSemaphoreTake stateMutex (pdMS_TO_TICKS 50) ;;
  if got then
    now <- xTaskGetTickCount ;;
    modify_status (fun s =>
      set_suppressAppCmdUntil (uint32 (now + pdMS_TO_TICKS duration_ms))
        (set_lastBurstState state s)) ;;
    xSemaphoreGive stateMutex
  else ret tt.

Definition isAppCmdSuppressed (state : SystemState_t) : M bool :=
  got <- xSemaphoreTake stateMutex (pdMS_TO_TICKS 20) ;;
  if got then
    now <- xTaskGetTickCount ;;
    st <- get_status ;;
    let suppressed :=
      (state =? lastBurstState st) && (now <? suppressAppCmdUntil st) in
    xSemaphoreGive stateMutex ;;
    ret suppressed
  else ret false.

(** The [if]/[else if] chain of [BLEManagerTask]: the target state and the
    cause label of a command, or nothing for an unknown command. *)
Definition BLEManagerTask_parse (command : string)
    : option (SystemState_t * string) :=
  if startsWith command "Login" then Some (STATE_LOGIN, "App_Login_Command")
  else if equals command "Unlock" then
    Some (STATE_UNLOCK, "App_Unlock_Command")
  else if equals command "Record" then
    Some (STATE_RECORDING, "App_Record_Command")
  else if equals command "Upload" then
    Some (STATE_UPLOADING, "App_Upload_Command")
  else if equals command "Logout" then
    Some (STATE_LOGO, "App_Logout_Command")
  else if equals command "Setup" then
    Some (STATE_SETUP, "App_Setup_Command")
  else None.

(** What [BLEManagerTask] does with one received command.  The result tells
    whether the iteration ended in [continue]. *)
Definition BLEManagerTask_process (bleCmd : BLECommandMsg_t) : M bool :=
  ts <- xTaskGetTickCount ;;
  match BLEManagerTask_parse (cmd_command bleCmd) with
  | None => ret true
  | Some (target, label) =>
      let systemEvent :=
        mkSystemEventMsg EVENT_APP_COMMAND target 0 0 label ts in
      suppressed <- isAppCmdSuppressed target ;;
      if suppressed then ret true
      else
        _ <- xQueueSend systemEventQueueH systemEvent (pdMS_TO_TICKS 100) ;;
        ret false
  end.

Definition BLEManagerTask_iteration : M unit :=
  received <- xQueueReceive bleCommandQueueH (pdMS_TO_TICKS 100) ;;
  match received with
  | Some bleCmd =>
      continued <- BLEManagerTask_process bleCmd ;;
      if continued then ret tt else vTaskDelay (pdMS_TO_TICKS 50)
  | None => vTaskDelay (pdMS_TO_TICKS 50)
  end.

(** *** Characteristic callbacks *)

(** [c_str()] hands over the bytes up to the first NUL. *)
Fixpoint c_str (s : string) : string :=
  match s with
  | EmptyString => EmptyString
  | String c rest =>
      if Ascii.eqb c Ascii.zero then EmptyString else String c (c_str rest)
  end.

(** [SystemBLECharCallbacks::onWrite]; [pCharacteristic] is the position of
    the written characteristic in [bleCharacteristics]. *)
Definition SystemBLECharCallbacks_onWrite (pCharacteristic : nat) : M unit :=
  f <- get_fw ;;
  match nth_error (bleCharacteristics f) pCharacteristic with
  | Some def =>
      match characteristic def with
      | Some chr =>
          let value := c_str (ch_value chr) in
          let command := value in
          ts <- xTaskGetTickCount ;;
          let bleCmd := mkBLECommandMsg command "" ts in
          _ <- xQueueSend bleCommandQueueH bleCmd (pdMS_TO_TICKS 100) ;;
          ret tt
      | None => ret tt
      end
  | None => ret tt
  end.

Definition set_characteristic_value (i : nat) (v : string)
    (table : list BLECharDef) : list BLECharDef :=
  match nth_error table i with
  | Some d =>
      match characteristic d with
      | Some _ =>
          firstn i table
          ++ mkBLECharDef (serviceUUID d) (charUUID d) (properties d)
               (associatedState d) (indicationMessage d)
               (Some (mkBLECharacteristic v))
          :: skipn (S i) table
      | None => table
      end
  | None => table
  end.

Definition has_property (d : BLECharDef) (p : Z) : bool :=
  negb (Z.land (properties d) p =? 0).

(** The BLE stack serving a write request: the bytes are stored in the
    characteristic and the registered callback runs.  [setupBLEServices]
    registers the callbacks on the readable and the writable entries. *)
Definition gattWrite (i : nat) (bytes : string) : M unit :=
  f <- get_fw ;;
  match nth_error (bleCharacteristics f) i with
  | Some d =>
      if has_property d PROPERTY_WRITE then
        modify_fw (fun f =>
          fw_set_bleCharacteristics
            (set_characteristic_value i bytes (bleCharacteristics f)) f) ;;
        SystemBLECharCallbacks_onWrite i
      else ret tt
  | None => ret tt
  end.

(** *** Server callbacks *)

Definition modify_health (g : BLEConnectionHealth_t -> BLEConnectionHealth_t)
    : M unit :=
  modify_fw (fun f => fw_set_bleHealth (g (bleHealth f)) f).

Definition SystemBLEServerCallbacks_onConnect : M unit :=
  xEventGroupSetBits BLE_CONNECTED ;;
  now <- xTaskGetTickCount ;;
  modify_health (fun h =>
    set_indicationFailureCount 0
      (set_connectionStable false
        (set_connectionTime now (set_ble_isConnected true h)))) ;;
  ts <- xTaskGetTickCount ;;
  let event :=
    mkSystemEventMsg EVENT_BLE_CONNECTED STATE_LOGIN 0 0 "BLE_CONNECT" ts in
  _ <- xQueueSend systemEventQueueH event (pdMS_TO_TICKS 100) ;;
  ret tt.

Definition SystemBLEServerCallbacks_onDisconnect : M unit :=
  xEventGroupClearBits BLE_CONNECTED ;;
  modify_health (fun h =>
    set_indicationFailureCount 0
      (set_connectionStable false (set_ble_isConnected false h))) ;;
  ts <- xTaskGetTickCount ;;
  let event :=
    mkSystemEventMsg EVENT_BLE_DISCONNECTED STATE_LOGO 0 0 "BLE_DISCONNECT"
      ts in
  _ <- xQueueSend systemEventQueueH event (pdMS_TO_TICKS 100) ;;
  ret tt.

(** *** Connection health *)

Definition isBLEConnected : M bool :=
  f <- get_fw ;;
  ret (negb (Z.land (systemEvents f) BLE_CONNECTED =? 0)).

Definition isBLEConnectionStable : M bool :=
  connected <- isBLEConnected ;;
  if negb connected then ret false
  else
    currentTime <- xTaskGetTickCount ;;
    f <- get_fw ;;
    let connectionAge := uint32 (currentTime - connectionTime (bleHealth f)) in
    ret ((pdMS_TO_TICKS 2000 <? connectionAge)
         && (indicationFailureCount (bleHealth f) <? 3)
         && connectionStable (bleHealth f)).

(** The body of [updateBLEConnectionHealth] once the tick count is read. *)
Definition healthAfter (currentTime : TickType_t) (indicationSuccess : bool)
    (h : BLEConnectionHealth_t) : BLEConnectionHealth_t :=
  if indicationSuccess then
    set_totalIndicationsSent (uint32 (totalIndicationsSent h + 1))
      (set_connectionStable true
        (set_indicationFailureCount 0
          (set_lastSuccessfulIndication currentTime h)))
  else
    let h1 :=
      set_indicationFailureCount (uint32 (indicationFailureCount h + 1)) h in
    if 2 <? indicationFailureCount h1 then set_connectionStable false h1
    else h1.

Definition updateBLEConnectionHealth (indicationSuccess : bool) : M unit :=
  currentTime <- xTaskGetTickCount ;;
  modify_health (healthAfter currentTime indicationSuccess).

(** *** Outbound indications *)

(** One [setValue]/[indicate] pair inside the [try] block: the value is
    stored, then [indicate] either goes through or throws. *)
Definition indicate (i : nat) (message : string) : M bool :=
  modify_fw (fun f =>
    fw_set_bleCharacteristics
      (set_characteristic_value i message (bleCharacteristics f)) f) ;;
  fun w =>
    match indicateScript (env w) with
    | [] =>
        (true,
         mkWorld (fw_set_indications (indications (fw w) ++ [(i, message)])
                    (fw w)) (env w))
    | ok :: rest =>
        (ok,
         mkWorld
           (if ok then
              fw_set_indications (indications (fw w) ++ [(i, message)]) (fw w)
            else fw w)
           (env_set_indicateScript rest (env w)))
    end.

(** The retry loop, from attempt [retry] on; it yields [successfulAttempts]
    and [indicationSent]. *)
Fixpoint indicationRetries (i : nat) (message : string) (MAX_RETRIES : Z)
    (rounds : nat) (retry : Z) (successfulAttempts : Z)
    (indicationSent : bool) : M (Z * bool) :=
  match rounds with
  | O => ret (successfulAttempts, indicationSent)
  | S rounds' =>
      if retry <? MAX_RETRIES then
        ok <- indicate i message ;;
        if ok then
          vTaskDelay (pdMS_TO_TICKS 50) ;;
          (if retry <? MAX_RETRIES - 1 then vTaskDelay (pdMS_TO_TICKS 150)
           else ret tt) ;;
          indicationRetries i message MAX_RETRIES rounds' (retry + 1)
            (successfulAttempts + 1) true
        else
          (if retry <? MAX_RETRIES - 1 then vTaskDelay (pdMS_TO_TICKS 150)
           else ret tt) ;;
          indicationRetries i message MAX_RETRIES rounds' (retry + 1)
            successfulAttempts indicationSent
      else ret (successfulAttempts, indicationSent)
  end.

(** The first table entry the [for] loop of [sendBLEButtonIndication] stops
    at, searched from position [i] on. *)
Fixpoint findIndicationChar (state : SystemState_t) (table : list BLECharDef)
    (i : nat) : option (nat * BLECharDef) :=
  match table with
  | [] => None
  | d :: rest =>
      if (associatedState d =? state)
         && has_property d PROPERTY_INDICATE
         && (match characteristic d with Some _ => true | None => false end)
         && negb (String.eqb (indicationMessage d) "")
      then Some (i, d)
      else findIndicationChar state rest (S i)
  end.

Definition sendBLEButtonIndication (state : SystemState_t) : M unit :=
  vTaskDelay (pdMS_TO_TICKS 20) ;;
  got <- xSemaphoreTake bleMutex (pdMS_TO_TICKS 200) ;;
  if got then
    stable <- isBLEConnectionStable ;;
    let MAX_RETRIES := if negb stable then 5 else 3 in
    f <- get_fw ;;
    (match findIndicationChar state (bleCharacteristics f) 0 with
     | Some (i, d) =>
         gotState <- xSemaphoreTake stateMutex (pdMS_TO_TICKS 10) ;;
         if gotState then
           st <- get_status ;;
           xSemaphoreGive stateMutex ;;
           if negb (currentState st =? state) then ret tt
           else
             r <- indicationRetries i (indicationMessage d) MAX_RETRIES
                    (Z.to_nat MAX_RETRIES) 0 0 false ;;
             updateBLEConnectionHealth (snd r)
         else ret tt
     | None => ret tt
     end) ;;
    xSemaphoreGive bleMutex
  else ret tt.

(** The [for] loop of the burst, from index [i] on. *)
Fixpoint burst_from (state : SystemState_t) (repeats spacing_ms : Z)
    (rounds : nat) (i : Z) : M unit :=
  match rounds with
  | O => ret tt
  | S rounds' =>
      if i <? repeats then
        sendBLEButtonIndication state ;;
        (if i <? repeats - 1 then vTaskDelay (pdMS_TO_TICKS spacing_ms)
         else ret tt) ;;
        burst_from state repeats spacing_ms rounds' (i + 1)
      else ret tt
  end.

(** The length of the suppression window asked for by a burst. *)
Definition burstSuppressionMs (repeats spacing_ms : Z) : Z :=
  uint32 ((if 0 <? repeats then (repeats - 1) * spacing_ms else 0) + 120).

Definition sendBLEButtonIndicationBurst (state : SystemState_t)
    (repeats spacing_ms : Z) (suppressReactions : bool) : M unit :=
  got <- xSemaphoreTake stateMutex (pdMS_TO_TICKS 20) ;;
  (if got then
     modify_status (set_bleBurstActive true) ;; xSemaphoreGive stateMutex
   else ret tt) ;;
  (if suppressReactions then
     startAppCmdSuppression state (burstSuppressionMs repeats spacing_ms)
   else ret tt) ;;
  burst_from state repeats spacing_ms (Z.to_nat repeats) 0 ;;
  got' <- xSemaphoreTake stateMutex (pdMS_TO_TICKS 20) ;;
  if got' then
    modify_status (set_bleBurstActive false) ;; xSemaphoreGive stateMutex
  else ret tt.

(** ** Button classifier *)






(** ** UI synchronisation monitor *)

Definition loadScreen (state : SystemState_t) : M unit :=
  first <-
    (if state =? STATE_LOGIN then
       got <- xSemaphoreTake stateMutex (pdMS_TO_TICKS 10) ;;
       if got then
         st <- get_status ;; xSemaphoreGive stateMutex ;;
         ret (isLoginFirstScreen st)
       else ret true
     else ret true) ;;
  if state =? STATE_LOGO then
    got <- xSemaphoreTake stateMutex (pdMS_TO_TICKS 10) ;;
    alt <- (if got then
              st <- get_status ;; xSemaphoreGive stateMutex ;;
              ret (isLogoAlt st)
            else ret false) ;;
    if alt then lvgl (ScrLoadAnim ui_LOGO2) else lvgl (ScrLoadAnim ui_LOGO1)
  else if state =? STATE_SETUP then lvgl (ScrLoadAnim ui_LOGO2)
  else if state =? STATE_LOGIN then
    if first then lvgl (ScrLoadAnim ui_LOGIN)
    else lvgl (ScrLoadAnim ui_HoldToUnlock)
  else if state =? STATE_UNLOCK then lvgl (ScrLoadAnim ui_Unlock)
  else if state =? STATE_RECORDING then
    got <- xSemaphoreTake stateMutex (pdMS_TO_TICKS 10) ;;
    showHoldToUpload <-
      (if got then
         st <- get_status ;; xSemaphoreGive stateMutex ;;
         ret (isRecordingHoldToUpload st)
       else ret false) ;;
    if showHoldToUpload then lvgl (ScrLoadAnim ui_HoldToUpload)
    else lvgl (ScrLoadAnim ui_Recording)
  else if state =? STATE_UPLOADING then lvgl (ScrLoadAnim ui_Uploading)
  else ret tt.

(** The locals of [UIManagerTask] that live across iterations;
    [messageLabel] tells whether the label object exists. *)
Record UILocals : Type := mkUILocals {
  lastDisplayedState : SystemState_t;
  messageLabel : bool;
  lastSyncCheck : TickType_t
}.

(** The [UI_CMD_LOAD_SCREEN] case of the command switch. *)
Definition UIManagerTask_loadScreenCase (uiMsg : UIRenderMsg_t) (l : UILocals)
    : M UILocals :=
  if ui_forceRefresh uiMsg
     || negb (ui_state uiMsg =? lastDisplayedState l)
     || ui_highPriority uiMsg
  then
    loadScreen (ui_state uiMsg) ;;
    got <- xSemaphoreTake stateMutex (pdMS_TO_TICKS 50) ;;
    (if got then
       now <- xTaskGetTickCount ;;
       modify_status (fun s =>
         set_forceUIRefresh false
           (set_lastUIUpdateTime now (set_lastUIState (ui_state uiMsg) s))) ;;
       xSemaphoreGive stateMutex
     else ret tt) ;;
    ret (mkUILocals (ui_state uiMsg) (messageLabel l) (lastSyncCheck l))
  else
    got <- xSemaphoreTake stateMutex (pdMS_TO_TICKS 10) ;;
    (if got then
       modify_status (fun s =>
         set_uiMissedUpdates (uint32 (uiMissedUpdates s + 1)) s) ;;
       xSemaphoreGive stateMutex
     else ret tt) ;;
    ret l.

(** What [UIManagerTask] does with one received render command. *)
Definition UIManagerTask_process (uiMsg : UIRenderMsg_t) (l : UILocals)
    : M UILocals :=
  got <- xSemaphoreTake displayMutex (pdMS_TO_TICKS 200) ;;
  if got then
    l' <-
      match ui_command uiMsg with
      | UI_CMD_LOAD_SCREEN => UIManagerTask_loadScreenCase uiMsg l
      | UI_CMD_SHOW_MESSAGE =>
          (if messageLabel l then
             if (0 <? String.length (ui_message uiMsg))%nat then
               lvgl (LabelShow (ui_message uiMsg) (ui_isError uiMsg)
                       (ui_duration uiMsg))
             else lvgl LabelHide
           else ret tt) ;;
          ret l
      | UI_CMD_START_ANIMATION => ret l
      | UI_CMD_STOP_ANIMATION => lvgl AnimDelAll ;; ret l
      | UI_CMD_UPDATE_PROGRESS => ret l
      | UI_CMD_CLEAR_SCREEN =>
          (if messageLabel l then lvgl LabelHide else ret tt) ;; ret l
      end ;;
    xSemaphoreGive displayMutex ;;
    ret l'
  else
    handleSystemError "Display mutex timeout" false ;;
    ret l.

(** The periodic comparison of the state with what the UI last showed. *)
Definition UIManagerTask_syncCheck (l : UILocals) : M UILocals :=
  currentTime <- xTaskGetTickCount ;;
  if pdMS_TO_TICKS 2000 <=? uint32 (currentTime - lastSyncCheck l) then
    got <- xSemaphoreTake stateMutex (pdMS_TO_TICKS 50) ;;
    sync <-
      (if got then
         st <- get_status ;;
         let actualState := currentState st in
         let uiState := lastUIState st in
         let needsSync :=
           negb (actualState =? uiState) || forceUIRefresh st in
         xSemaphoreGive stateMutex ;;
         ret (needsSync, actualState)
       else ret (false, STATE_STARTUP)) ;;
    (if fst sync then
       sendUICommandEnhanced UI_CMD_LOAD_SCREEN (snd sync) "UI Sync" 0 true
         true
     else ret tt) ;;
    ret (mkUILocals (lastDisplayedState l) (messageLabel l) currentTime)
  else ret l.

Definition UIManagerTask_iteration (l : UILocals) : M UILocals :=
  received <- xQueueReceive uiRenderQueueH (pdMS_TO_TICKS 20) ;;
  l1 <- (match received with
         | Some uiMsg => UIManagerTask_process uiMsg l
         | None => ret l
         end) ;;
  l2 <- UIManagerTask_syncCheck l1 ;;
  (match received with
   | Some _ => ret tt
   | None => vTaskDelay (pdMS_TO_TICKS 10)
   end) ;;
  ret l2.

(** ** Watchdog *)

(** How far a task got: it either finished the pass or called
    [esp_restart], which reboots the chip and does not return. *)
Inductive Progress : Type :=
  | Running
  | Restarted.

(** What the other tasks do to the world at a point of a task body. *)
Definition interleave (others : World -> World) : M unit :=
  fun w => (tt, others w).

(** One pass of [WatchdogTask].  The pass reads the tick count first and
    the activity stamp later, under the lock; [meanwhile] is what the other
    tasks do in between, on the other core or while the pass waits for the
    lock.  The two other arguments are what [uxTaskGetStackHighWaterMark]
    reports for the two critical tasks. *)
Definition WatchdogTask_pass (meanwhile : World -> World)
    (systemMgrStack uiMgrStack : Z) : M Progress :=
  currentTime <- xTaskGetTickCount ;;
  interleave meanwhile ;;
  got <- xSemaphoreTake stateMutex (pdMS_TO_TICKS 100) ;;
  sample <-
    (if got then
       st <- get_status ;;
       xSemaphoreGive stateMutex ;;
       ret (lastActivityTime st, errorCount st)
     else ret (0, 0)) ;;
  let lastActivity := fst sample in
  let errorCount := snd sample in
  if pdMS_TO_TICKS SYSTEM_WATCHDOG_MS <? uint32 (currentTime - lastActivity)
  then ret Restarted
  else if 10 <? errorCount then ret Restarted
  else
    (if (systemMgrStack <? 512) || (uiMgrStack <? 512) then
       handleSystemError "Low stack space" false
     else ret tt) ;;
    vTaskDelay (pdMS_TO_TICKS 5000) ;;
    ret Running.

(** A pass during which no other task runs. *)
Definition WatchdogTask_iteration (systemMgrStack uiMgrStack : Z)
    : M Progress :=
  WatchdogTask_pass (fun w => w) systemMgrStack uiMgrStack.


Definition systemWatchdogCallback : M unit :=
  got <- xSemaphoreTake stateMutex 0 ;;
  if got then
    now <- xTaskGetTickCount ;;
    modify_status (set_lastActivityTime now) ;;
    xSemaphoreGive stateMutex
  else ret tt.

(** ** The legacy single-core sketch *)

Module Legacy.

Inductive CommandType : Type :=
  | CMD_UNLOCK
  | CMD_START_RECORD
  | CMD_UPLOAD
  | CMD_SETUP
  | CMD_LOGIN
  | CMD_LOGOUT
  | CMD_NONE.

Record Command : Type := mkCommand {
  type : CommandType;
  data : string
}.

(** [CmdCallbacks::onWrite]: the command it queues for the written
    bytes, if any. *)
Definition onWrite (bytes : string) : option Command :=
  let commandStr := c_str bytes in
  if startsWith commandStr "Login" then Some (mkCommand CMD_LOGIN commandStr)
  else if equals commandStr "Unlock" then
    Some (mkCommand CMD_UNLOCK commandStr)
  else if equals commandStr "Record" then
    Some (mkCommand CMD_START_RECORD commandStr)
  else if equals commandStr "Upload" then
    Some (mkCommand CMD_UPLOAD commandStr)
  else if equals commandStr "Logout" then
    Some (mkCommand CMD_LOGOUT commandStr)
  else None.

(** The state of the dual-core firmware a legacy command stands for. *)
Definition stateOf (c : CommandType) : option SystemState_t :=
  match c with
  | CMD_UNLOCK => Some STATE_UNLOCK
  | CMD_START_RECORD => Some STATE_RECORDING
  | CMD_UPLOAD => Some STATE_UPLOADING
  | CMD_SETUP => Some STATE_SETUP
  | CMD_LOGIN => Some STATE_LOGIN
  | CMD_LOGOUT => Some STATE_LOGO
  | CMD_NONE => None
  end.

(** *** The command task *)

Definition CommandType_eqb (a b : CommandType) : bool :=
  match a, b with
  | CMD_UNLOCK, CMD_UNLOCK
  | CMD_START_RECORD, CMD_START_RECORD
  | CMD_UPLOAD, CMD_UPLOAD
  | CMD_SETUP, CMD_SETUP
  | CMD_LOGIN, CMD_LOGIN
  | CMD_LOGOUT, CMD_LOGOUT
  | CMD_NONE, CMD_NONE => true
  | _, _ => false
  end.

Record BLECommandDef : Type := mkBLECommandDef {
  serviceUUID : string;
  charUUID : string;
  propRead : bool;
  propWrite : bool;
  propNotify : bool;
  propIndicate : bool;
  cmdType : CommandType
}.

(** [bleCommands], in the order of the sketch; the position stands for the
    characteristic. *)
Definition bleCommands : list BLECommandDef :=
  [ mkBLECommandDef SERVICE1 "19b10001-e8f2-537e-4f6c-d104768a1214"
      false false false true CMD_UNLOCK;
    mkBLECommandDef SERVICE1 "19b10002-e8f2-537e-4f6c-d104768a1214"
      false true false false CMD_UNLOCK;
    mkBLECommandDef SERVICE1 "19b10003-e8f2-537e-4f6c-d104768a1214"
      false false false true CMD_START_RECORD;
    mkBLECommandDef SERVICE1 "19b10004-e8f2-537e-4f6c-d104768a1214"
      false true false false CMD_START_RECORD;
    mkBLECommandDef SERVICE1 "19b10005-e8f2-537e-4f6c-d104768a1214"
      false false false true CMD_UPLOAD;
    mkBLECommandDef SERVICE2 "19b20001-e8f2-537e-4f6c-d104768a1214"
      false true false false CMD_UPLOAD;
    mkBLECommandDef SERVICE2 "19b20002-e8f2-537e-4f6c-d104768a1214"
      false true false false CMD_SETUP;
    mkBLECommandDef SERVICE2 "19b20003-e8f2-537e-4f6c-d104768a1214"
      false true false false CMD_LOGIN;
    mkBLECommandDef SERVICE2 "19b20004-e8f2-537e-4f6c-d104768a1214"
      false true false false CMD_LOGOUT;
    mkBLECommandDef SERVICE2 "19b20005-e8f2-537e-4f6c-d104768a1214"
      true false false false CMD_NONE ].

(** What the button task prints on the OLED. *)
Inductive Countdown : Type :=
  | UnlockIn (remain : Z)
  | UploadIn (remain : Z)
  | ReleaseButton.

(** The globals of the sketch the two tasks share, with what they sent out:
    the indications (position in [bleCommands], value) and the countdown
    lines. *)
Record Sketch : Type := mkSketch {
  sketchState : CommandType;
  commandQueue : list Command;
  indicated : list (nat * string);
  oled : list Countdown
}.

(** [xQueueSend(commandQueue, &cmd, 0)] on the queue of 10. *)
Definition queueCommand (cmd : Command) (s : Sketch) : Sketch :=
  if (List.length (commandQueue s) <? 10)%nat then
    mkSketch (sketchState s) (commandQueue s ++ [cmd]) (indicated s) (oled s)
  else s.

(** The [for] loop of [BLECommandTask], from position [i] on. *)
Fixpoint indicateAll (t : CommandType) (table : list BLECommandDef) (i : nat)
    : list (nat * string) :=
  match table with
  | [] => []
  | d :: rest =>
      if CommandType_eqb (cmdType d) t && propIndicate d
      then (i, "") :: indicateAll t rest (S i)
      else indicateAll t rest (S i)
  end.

(** One pass of [BLECommandTask]; on an empty queue the task stays
    blocked. *)
Definition BLECommandTask (s : Sketch) : Sketch :=
  match commandQueue s with
  | [] => s
  | cmd :: rest =>
      mkSketch (type cmd) rest
        (indicated s ++ indicateAll (type cmd) bleCommands 0) (oled s)
  end.

(** [MyServerCallbacks::onDisconnect]. *)
Definition onDisconnect (s : Sketch) : Sketch :=
  queueCommand (mkCommand CMD_LOGOUT "") s.

(** *** The button task *)

(** The statics and the local of [ButtonTask]. *)
Record ButtonStatics : Type := mkButtonStatics {
  pressStart : Z;
  countdownStarted : bool;
  last : bool
}.

Definition ButtonStatics_init : ButtonStatics := mkButtonStatics 0 false HIGH.

(** One pass of [ButtonTask] that reads [curr] from the pin and [now] from
    [millis()]; besides the statics and the sketch it yields the ticks the
    pass sleeps. *)
Definition ButtonTask (curr : bool) (now : Z) (l : ButtonStatics)
    (s : Sketch) : ButtonStatics * Sketch * Z :=
  if Bool.eqb (last l) HIGH && Bool.eqb curr LOW then
    (mkButtonStatics (uint32 now) false curr, s, pdMS_TO_TICKS 50)
  else if Bool.eqb (last l) LOW && Bool.eqb curr LOW then
    let elapsed := uint32 (now - pressStart l) in
    let started :=
      if (CommandType_eqb (sketchState s) CMD_LOGIN
          || CommandType_eqb (sketchState s) CMD_START_RECORD)
         && (500 <=? elapsed) && negb (countdownStarted l)
      then true else countdownStarted l in
    let s1 :=
      if started then
        let secs := uint32 (elapsed - 500) / 1000 in
        let remain := 2 - secs in
        mkSketch (sketchState s) (commandQueue s) (indicated s)
          (oled s
           ++ [if 0 <? remain then
                 if CommandType_eqb (sketchState s) CMD_LOGIN
                 then UnlockIn remain else UploadIn remain
               else ReleaseButton])
      else s in
    if 2000 <=? elapsed then
      if CommandType_eqb (sketchState s1) CMD_LOGIN then
        (mkButtonStatics (pressStart l) started curr,
         queueCommand (mkCommand CMD_UNLOCK "") s1,
         pdMS_TO_TICKS 1000 + pdMS_TO_TICKS 50)
      else if CommandType_eqb (sketchState s1) CMD_START_RECORD then
        (mkButtonStatics (pressStart l) started curr,
         queueCommand (mkCommand CMD_UPLOAD "") s1,
         pdMS_TO_TICKS 1000 + pdMS_TO_TICKS 50)
      else (mkButtonStatics (pressStart l) started curr, s1, pdMS_TO_TICKS 50)
    else (mkButtonStatics (pressStart l) started curr, s1, pdMS_TO_TICKS 50)
  else if Bool.eqb (last l) LOW && Bool.eqb curr HIGH then
    let pressDuration := uint32 (now - pressStart l) in
    if CommandType_eqb (sketchState s) CMD_UNLOCK && (pressDuration <? 2000)
    then
      (mkButtonStatics (pressStart l) false curr,
       queueCommand (mkCommand CMD_START_RECORD "") s,
       pdMS_TO_TICKS 1000 + pdMS_TO_TICKS 50)
    else (mkButtonStatics (pressStart l) false curr, s, pdMS_TO_TICKS 50)
  else (mkButtonStatics (pressStart l) (countdownStarted l) curr, s,
        pdMS_TO_TICKS 50).

End Legacy.

(** ** The system manager *)

(** What [SystemManagerTask] does with one received event. *)
Definition SystemManagerTask_handle (event : SystemEventMsg_t) : M bool :=
  got <- xSemaphoreTake stateMutex (pdMS_TO_TICKS 100) ;;
  (if got then
     now <- xTaskGetTickCount ;;
     modify_status (set_lastActivityTime now) ;;
     xSemaphoreGive stateMutex
   else ret tt) ;;
  transitionToState (ev_targetState event) (ev_event event).

(** One pass of the task loop.  The receive waits without limit: on an
    empty queue the task stays blocked and nothing happens. *)
Definition SystemManagerTask_iteration : M (option bool) :=
  f <- get_fw ;;
  match systemEventQueue f with
  | event :: rest =>
      modify_fw (fw_set_systemEventQueue rest) ;;
      done <- SystemManagerTask_handle event ;;
      ret (Some done)
  | [] => ret None
  end.

(** ** Timer callbacks *)

Definition stateTimeoutCallback : M unit :=
  ts <- xTaskGetTickCount ;;
  let event :=
    mkSystemEventMsg EVENT_TIMEOUT STATE_LOGO 0 0 "StateTimeout" ts in
  _ <- xQueueSend systemEventQueueH event 0 ;;
  ret tt.

Definition loginScreenTimerCallback : M unit :=
  got <- xSemaphoreTake stateMutex (pdMS_TO_TICKS 100) ;;
  if got then
    st <- get_status ;;
    if currentState st =? STATE_LOGIN then
      modify_status (set_isLoginFirstScreen false) ;;
      xSemaphoreGive stateMutex ;;
      sendUICommandEnhanced UI_CMD_LOAD_SCREEN STATE_LOGIN "Login Phase 2" 0
        true true
    else xSemaphoreGive stateMutex
  else ret tt.

Definition logoSwitchTimerCallback : M unit :=
  got <- xSemaphoreTake stateMutex (pdMS_TO_TICKS 50) ;;
  if got then
    st <- get_status ;;
    if currentState st =? STATE_LOGO then
      modify_status (fun s => set_isLogoAlt (negb (isLogoAlt s)) s) ;;
      xSemaphoreGive stateMutex ;;
      sendUICommandEnhanced UI_CMD_LOAD_SCREEN STATE_LOGO "Logo Rotate" 0
        true true
    else xSemaphoreGive stateMutex
  else ret tt.

(** ** UI resynchronisation *)

Definition forceUISync : M unit :=
  got <- xSemaphoreTake stateMutex (pdMS_TO_TICKS 50) ;;
  if got then
    st <- get_status ;;
    modify_status (set_forceUIRefresh true) ;;
    xSemaphoreGive stateMutex ;;
    sendUICommandEnhanced UI_CMD_LOAD_SCREEN (currentState st) "Manual Sync"
      0 true true
  else ret tt.

(** The periodic health check of [LVGLTask]; the argument and the result
    are the task's local [lastHealthCheck]. *)
Definition LVGLTask_healthCheck (lastHealthCheck : TickType_t)
    : M TickType_t :=
  currentTime <- xTaskGetTickCount ;;
  if pdMS_TO_TICKS 5000 <=? uint32 (currentTime - lastHealthCheck) then
    got <- xSemaphoreTake stateMutex (pdMS_TO_TICKS 10) ;;
    sample <-
      (if got then
         st <- get_status ;;
         modify_status (set_uiMissedUpdates 0) ;;
         xSemaphoreGive stateMutex ;;
         ret (uiMissedUpdates st, lastUIUpdateTime st)
       else ret (0, 0)) ;;
    let lastUIUpdate := snd sample in
    (if pdMS_TO_TICKS 10000 <? uint32 (currentTime - lastUIUpdate) then
       got' <- xSemaphoreTake stateMutex (pdMS_TO_TICKS 10) ;;
       if got' then
         st <- get_status ;;
         modify_status (set_forceUIRefresh true) ;;
         xSemaphoreGive stateMutex ;;
         sendUICommandEnhanced UI_CMD_LOAD_SCREEN (currentState st)
           "Emergency Sync" 0 true true
       else ret tt
     else ret tt) ;;
    ret currentTime
  else ret lastHealthCheck.

(** ** Button reactions *)

(** The two [switch] statements of [HardwareTask]: for a button event seen
    in state [currentState], the system event, the target state and the
    cause label it picks, or nothing for a press the state has no use
    for. *)
Definition HardwareTask_choice (isLongPress : bool)
    (currentState : SystemState_t)
    : option (SystemEvent_t * SystemState_t * string) :=
  if isLongPress then
    if currentState =? STATE_LOGIN then
      Some (EVENT_BUTTON_LONG_PRESS, STATE_UNLOCK,
            "ButtonLongPress_Login_To_Unlock")
    else if currentState =? STATE_RECORDING then
      Some (EVENT_BUTTON_LONG_PRESS, STATE_UPLOADING,
            "ButtonLongPress_Recording_To_Upload")
    else None
  else
    if currentState =? STATE_UNLOCK then
      Some (EVENT_BUTTON_SHORT_PRESS, STATE_RECORDING,
            "ButtonShortPress_Unlock_To_Recording")
    else if currentState =? STATE_RECORDING then
      Some (EVENT_BUTTON_SHORT_PRESS, STATE_RECORDING,
            "ButtonShortPress_Recording_ShowHoldToUpload")
    else None.

(** The LED block of [HardwareTask]; the argument and the result are the
    task's local [lastLEDUpdate]. *)
Definition HardwareTask_leds (lastLEDUpdate : TickType_t) : M TickType_t :=
  currentTick <- xTaskGetTickCount ;;
  if pdMS_TO_TICKS 500 <=? uint32 (currentTick - lastLEDUpdate) then
    got <- xSemaphoreTake stateMutex (pdMS_TO_TICKS 10) ;;
    if got then
      st <- get_status ;;
      xSemaphoreGive stateMutex ;;
      updateLEDs (currentState st) ;;
      ret currentTick
    else ret lastLEDUpdate
  else ret lastLEDUpdate.

(** ** The web app *)

(** The characteristic a central reaches with [getPrimaryService] and
    [getCharacteristic]: its position in the firmware's table. *)
Fixpoint getCharacteristic (service uuid : string) (table : list BLECharDef)
    (i : nat) : option nat :=
  match table with
  | [] => None
  | d :: rest =>
      if String.eqb (serviceUUID d) service && String.eqb (charUUID d) uuid
      then Some i
      else getCharacteristic service uuid rest (S i)
  end.

Module WebApp.

Record Command : Type := mkCommand {
  serviceUUID : string;
  uuid : string;
  name : string;
  canRead : bool;
  canWrite : bool;
  canIndicate : bool;
  canNotify : bool
}.

Definition COMMANDS : list Command :=
  [ mkCommand SERVICE1 "19b10001-e8f2-537e-4f6c-d104768a1214"
      "Unlock (Button)" false false true false;
    mkCommand SERVICE1 "19b10002-e8f2-537e-4f6c-d104768a1214"
      "Unlock" false true false false;
    mkCommand SERVICE1 "19b10003-e8f2-537e-4f6c-d104768a1214"
      "Record (Button)" false false true false;
    mkCommand SERVICE1 "19b10004-e8f2-537e-4f6c-d104768a1214"
      "Record" false true false false;
    mkCommand SERVICE1 "19b10005-e8f2-537e-4f6c-d104768a1214"
      "Upload (Button)" false false true false;
    mkCommand SERVICE2 "19b20001-e8f2-537e-4f6c-d104768a1214"
      "Upload" false true false false;
    mkCommand SERVICE2 "19b20003-e8f2-537e-4f6c-d104768a1214"
      "Login" false true false false;
    mkCommand SERVICE2 "19b20004-e8f2-537e-4f6c-d104768a1214"
      "Logout" false true false false;
    mkCommand SERVICE2 "19b20005-e8f2-537e-4f6c-d104768a1214"
      "Sleep" false true false false ].

(** [sendCommand], seen from the device: the characteristic is looked up
    and the command text written to it; the result tells whether the app
    logs [Command written] rather than an error.  The texts are ASCII, so
    [TextEncoder] hands over their characters. *)
Definition sendCommand (service characteristic command : string) : M bool :=
  f <- get_fw ;;
  match getCharacteristic service characteristic (bleCharacteristics f) 0 with
  | Some i =>
      match nth_error (bleCharacteristics f) i with
      | Some d =>
          if has_property d PROPERTY_WRITE then
            gattWrite i command ;; ret true
          else ret false
      | None => ret false
      end
  | None => ret false
  end.

(** The handlers [initializeCharacteristics] attaches to the write buttons,
    each with the text of its button. *)
Definition initializeCharacteristics : list (string * M bool) :=
  flat_map
    (fun command =>
       if canWrite command then
         [("Send " ++ name command,
           sendCommand (serviceUUID command) (uuid command) (name command))]
       else [])
    COMMANDS.

End WebApp.
(** * Specification vocabulary *)

Definition statusOf (w : World) : SystemStatus_t := systemStatus (fw w).

(** The three fields a transition records about itself. *)
Definition transitionRecord (w : World)
    : SystemState_t * SystemState_t * TickType_t :=
  (currentState (statusOf w), previousState (statusOf w),
   stateEnterTime (statusOf w)).

(** A command keeps a projection of the world when running it never changes
    what the projection sees. *)
Definition keeps {A X : Type} (proj : World -> X) (c : M A) : Prop :=
  forall w, proj (snd (c w)) = proj w.

(** The world in which [transitionToState] makes its assignments: the lock
    is held and the exit actions of the old state have run. *)
Definition worldAtCommit (w : World) : World :=
  snd ((xSemaphoreTake stateMutex (pdMS_TO_TICKS 100) ;;
        executeStateExit (currentState (statusOf w))) w).

(** The next [n] lock acquisitions of the running task succeed. *)
Definition locksGranted (n : nat) (w : World) : Prop :=
  forall k, (k < n)%nat -> nth k (lockScript (env w)) true = true.

(** The booted firmware standing in state [s] at tick [now], every lock
    free. *)
Definition world_in (s : SystemState_t) (now : TickType_t) : World :=
  mkWorld
    (fw_set_systemStatus (set_currentState s systemStatus_init) firmware_init)
    (env_calm now).

(** The token rules in the words of the specification: a token that
    begins with [Login] asks for the login state, and five exact tokens
    ask for one state each. *)
Inductive TokenMapsTo : string -> SystemState_t -> Prop :=
  | maps_Login : forall suffix, TokenMapsTo ("Login" ++ suffix) STATE_LOGIN
  | maps_Unlock : TokenMapsTo "Unlock" STATE_UNLOCK
  | maps_Record : TokenMapsTo "Record" STATE_RECORDING
  | maps_Upload : TokenMapsTo "Upload" STATE_UPLOADING
  | maps_Logout : TokenMapsTo "Logout" STATE_LOGO
  | maps_Setup : TokenMapsTo "Setup" STATE_SETUP.

(** Entry [i] of the table takes write requests. *)
Definition writable (i : nat) (w : World) : Prop :=
  exists d chr,
    nth_error (bleCharacteristics (fw w)) i = Some d
    /\ has_property d PROPERTY_WRITE = true
    /\ characteristic d = Some chr.

(** Two worlds that differ at most in the characteristic table. *)
Definition sameButTable (w1 w2 : World) : Prop :=
  env w1 = env w2
  /\ fw_set_bleCharacteristics [] (fw w1)
     = fw_set_bleCharacteristics [] (fw w2).

(** A command that neither reads nor writes the characteristic table. *)
Definition tableBlind {A : Type} (c : M A) : Prop :=
  forall w1 w2,
    sameButTable w1 w2 ->
    fst (c w1) = fst (c w2) /\ sameButTable (snd (c w1)) (snd (c w2)).

(** The suppression window: the suppressed state and the tick at which the
    window closes. *)
Definition suppressionOf (w : World) : SystemState_t * TickType_t :=
  (lastBurstState (statusOf w), suppressAppCmdUntil (statusOf w)).

(** The tick at which a burst begun in [w] asks for its window: the tick of
    the call, or 20 ms later when the burst's first acquisition of the
    state lock, the one for the burst flag, timed out. *)
Definition installTick (w : World) : TickType_t :=
  if nth 0 (lockScript (env w)) true then tickCount (env w)
  else uint32 (tickCount (env w) + pdMS_TO_TICKS 20).

(** The firmware as [f], checked at tick [t] by a task whose coming lock
    acquisitions follow [script]. *)
Definition checkedAt (f : Firmware) (t : TickType_t) (script : list bool)
    : World :=
  mkWorld f (mkEnv t script []).

Definition healthOf (w : World) : BLEConnectionHealth_t := bleHealth (fw w).

(** The next [n] indication attempts throw. *)
Definition attemptsFail (n : nat) (w : World) : Prop :=
  forall k, (k < n)%nat -> nth k (indicateScript (env w)) true = false.

(** A sequence of connection-health updates, each with the tick count it
    read and its outcome, applied in order. *)
Definition healthRun (updates : list (TickType_t * bool))
    (h : BLEConnectionHealth_t) : BLEConnectionHealth_t :=
  fold_left (fun acc u => healthAfter (fst u) (snd u) acc) updates h.

(** A call of [sendBLEButtonIndication] that gets as far as the retry loop:
    both locks are granted, the state has an indication characteristic and
    is still the current state. *)
Definition reachesRetries (state : SystemState_t) (w : World) : Prop :=
  locksGranted 2 w
  /\ (exists i d,
        findIndicationChar state (bleCharacteristics (fw w)) 0 = Some (i, d))
  /\ currentState (statusOf w) = state.






(** Ticks since the last recorded activity, as the watchdog computes
    them. *)
Definition sinceActivity (w : World) : Z :=
  uint32 (tickCount (env w) - lastActivityTime (statusOf w)).

(** The two conditions the watchdog restarts on. *)
Definition watchdogTrips (w : World) : Prop :=
  pdMS_TO_TICKS SYSTEM_WATCHDOG_MS < sinceActivity w
  \/ 10 < errorCount (statusOf w).

(** The difference a watchdog pass computes between the tick count it
    read, [currentTime], and the activity stamp it finds in [w], in 32-bit
    arithmetic. *)
Definition sinceActivityAt (currentTime : TickType_t) (w : World) : Z :=
  uint32 (currentTime - lastActivityTime (statusOf w)).

(** The two conditions as a pass sees them that read the tick count
    [currentTime] and then, under the lock, the status record of [w]. *)
Definition watchdogTripsAt (currentTime : TickType_t) (w : World) : Prop :=
  pdMS_TO_TICKS SYSTEM_WATCHDOG_MS < sinceActivityAt currentTime w
  \/ 10 < errorCount (statusOf w).


(** ** Vocabulary for the rest of the firmware *)

(** The render message [sendUICommandEnhanced] builds at tick [ts]. *)
Definition renderMsg (cmd : UICommand_t) (state : SystemState_t)
    (message : string) (duration : Z) (forceRefresh highPriority : bool)
    (ts : TickType_t) : UIRenderMsg_t :=
  mkUIRenderMsg cmd state ANIM_NONE (substring 0 63 message) duration false 0
    highPriority forceRefresh ts.

(** The status record with the three screen-variant flags blanked. *)
Definition withoutScreenFlags (s : SystemStatus_t) : SystemStatus_t :=
  set_isLogoAlt false
    (set_isLoginFirstScreen false (set_isRecordingHoldToUpload false s)).

Definition eventsOf (w : World) : list SystemEventMsg_t :=
  systemEventQueue (fw w).

Definition rendersOf (w : World) : list UIRenderMsg_t :=
  uiRenderQueue (fw w).

(** Everything a transition does once the lock is released. *)
Definition transitionTail (newState : SystemState_t) (critical : bool)
    : M bool :=
  xSemaphoreGive stateMutex ;;
  executeStateEntry newState ;;
  sendUICommandEnhanced UI_CMD_LOAD_SCREEN newState "" 0 critical true ;;
  st' <- get_status ;;
  (if 0 <? stateTimeoutMs st' then
     xTimerChangePeriod stateTimeoutTimerH
       (pdMS_TO_TICKS (stateTimeoutMs st')) ;;
     xTimerReset stateTimeoutTimerH
   else xTimerStop stateTimeoutTimerH) ;;
  ret true.


(** The fields of the status record that no transition writes. *)
Definition outsideTransition (s : SystemStatus_t) :=
  (lastActivityTime s, isConnected s, isUIReady s, batteryLevel s,
   errorCount s, lastUIState s, lastUIUpdateTime s, uiMissedUpdates s,
   lastBurstState s, suppressAppCmdUntil s, bleBurstActive s).

(** Whether the two screen timers run. *)
Definition screenTimers (w : World) : bool * bool :=
  (tm_active (logoSwitchTimer (fw w)), tm_active (loginScreenTimer (fw w))).

(** The logo-rotation timer runs in the Logo state only and the login-phase
    timer in the Login state only. *)
Definition screenTimersFollowState (w : World) : Prop :=
  (fst (screenTimers w) = true -> currentState (statusOf w) = STATE_LOGO)
  /\ (snd (screenTimers w) = true -> currentState (statusOf w) = STATE_LOGIN).

(** No lock is held by another task for as long as the running task goes
    on: every coming acquisition succeeds at once. *)
Definition locksFree (w : World) : Prop := lockScript (env w) = [].

(** A command keeps a property of the world once it holds. *)
Definition preserves {A : Type} (P : World -> Prop) (c : M A) : Prop :=
  forall w, P w -> P (snd (c w)).

(** The UI has shown the current state and no refresh is asked for. *)
Definition uiSettled (w : World) : Prop :=
  lastUIState (statusOf w) = currentState (statusOf w)
  /\ forceUIRefresh (statusOf w) = false.

(** Either the render queue is empty and the UI is settled, or the queue
    ends in a high-priority request to load the current state. *)
Definition uiOnTrack (w : World) : Prop :=
  (rendersOf w = [] /\ uiSettled w)
  \/ (exists pre m,
        rendersOf w = (pre ++ [m])%list
        /\ ui_command m = UI_CMD_LOAD_SCREEN
        /\ ui_state m = currentState (statusOf w)
        /\ ui_highPriority m = true).

(** A series of non-critical errors, reported one after the other. *)
Fixpoint reportErrors (errors : list string) : M unit :=
  match errors with
  | [] => ret tt
  | error :: rest => handleSystemError error false ;; reportErrors rest
  end.

(** Every lock is free and every indication goes through. *)
Definition calm (w : World) : Prop :=
  locksFree w /\ indicateScript (env w) = [].

(** The number of attempts one call of [sendBLEButtonIndication] makes. *)
Definition retriesFor (stable : bool) : Z := if stable then 3 else 5.

(** The ticks the retry loop takes when every attempt goes through: 50 after
    each attempt and 150 between two attempts. *)
Definition retryTicks (MAX_RETRIES : Z) : Z :=
  50 * MAX_RETRIES + 150 * (MAX_RETRIES - 1).

(** What the search for an indication characteristic looks at in a table
    entry. *)
Definition entryShape (d : BLECharDef) : SystemState_t * Z * string * bool :=
  (associatedState d, properties d, indicationMessage d,
   match characteristic d with Some _ => true | None => false end).

Definition tableShape (w : World) : list (SystemState_t * Z * string * bool) :=
  map entryShape (bleCharacteristics (fw w)).

(** The position and the message of the indication characteristic of a
    state. *)
Definition indicationOf (state : SystemState_t) (w : World)
    : option (nat * string) :=
  option_map (fun p => (fst p, indicationMessage (snd p)))
    (findIndicationChar state (bleCharacteristics (fw w)) 0).

(** What a central sees of a table entry: where it is, and its shape. *)
Definition entryLayout (d : BLECharDef)
    : string * string * (SystemState_t * Z * string * bool) :=
  (serviceUUID d, charUUID d, entryShape d).

(** The table has the layout [setupBLEServices] gave it at boot; the values
    held by the characteristics may differ. *)
Definition bootLayout (w : World) : Prop :=
  map entryLayout (bleCharacteristics (fw w))
  = map entryLayout (bleCharacteristics firmware_init).


(** The beeps of the entry actions: duration in ms and count. *)
Definition entryBeeps (state : SystemState_t) : Z * Z :=
  if state =? STATE_LOGO then (100, 1)
  else if state =? STATE_SETUP then (200, 2)
  else if state =? STATE_LOGIN then (150, 1)
  else if state =? STATE_UNLOCK then (300, 1)
  else if state =? STATE_RECORDING then (100, 1)
  else if state =? STATE_UPLOADING then (100, 1)
  else if state =? STATE_ERROR then (100, 3)
  else (0, 0).

(** The ticks a series of beeps takes: each beep and each pause between two
    beeps lasts [duration]. *)
Definition beepTicks (beeps : Z * Z) : Z :=
  if 0 <? snd beeps then fst beeps * (2 * snd beeps - 1) else 0.

(** What the buzzer pin sees of [count] beeps. *)
Definition beepTrace (count : Z) : list (Z * bool) :=
  List.concat (repeat [(BUZZER_PIN, HIGH); (BUZZER_PIN, LOW)] (Z.to_nat count)).

(** ** LEDs *)

(** The level a pin was last driven to, [LOW] before the first write. *)
Definition levelOf (pin : Z) (trace : list (Z * bool)) : bool :=
  fold_left (fun level wr => if fst wr =? pin then snd wr else level)
    trace LOW.

(** The LED pins as (red, green, blue). *)
Definition ledsOf (w : World) : bool * bool * bool :=
  (levelOf LED_RED_PIN (gpio (fw w)), levelOf LED_GREEN_PIN (gpio (fw w)),
   levelOf LED_BLUE_PIN (gpio (fw w))).

(** The LEDs together with the blink phase of [updateLEDs]. *)
Definition ledPhase (w : World) : bool * bool * bool * bool :=
  (ledsOf w, blinkState (fw w)).

(** The colour of a state on a blink phase, as (red, green, blue); [None]
    for the states that leave the LEDs alone. *)
Definition stateColour (state : SystemState_t) (blink : bool)
    : option (bool * bool * bool) :=
  if state =? STATE_LOGO then Some (LOW, LOW, LOW)
  else if state =? STATE_SETUP then Some (HIGH, HIGH, HIGH)
  else if state =? STATE_LOGIN then Some (HIGH, LOW, LOW)
  else if state =? STATE_UNLOCK then Some (LOW, HIGH, LOW)
  else if state =? STATE_RECORDING then Some (blink, LOW, LOW)
  else if state =? STATE_UPLOADING then Some (LOW, LOW, blink)
  else if state =? STATE_ERROR then Some (blink, LOW, blink)
  else None.

(** What one call of [updateLEDs] makes of the LEDs and the phase. *)
Definition ledStep (state : SystemState_t) (p : bool * bool * bool * bool)
    : bool * bool * bool * bool :=
  (match stateColour state (negb (snd p)) with
   | Some c => c
   | None => fst p
   end, negb (snd p)).
(** * Properties *)

(** ** Frame reasoning *)

Lemma keeps_ret {A X} (proj : World -> X) (a : A) : keeps proj (ret a).
Proof. intro w. reflexivity. Qed.

Lemma keeps_bind {A B X} (proj : World -> X) (c : M A) (k : A -> M B) :
  keeps proj c -> (forall a, keeps proj (k a)) -> keeps proj (bind c k).
Proof.
  intros Hc Hk w. unfold bind. cbn. rewrite Hk. apply Hc.
Qed.

Lemma keeps_status_record {A} (c : M A) :
  keeps statusOf c -> keeps transitionRecord c.
Proof. intros H w. unfold transitionRecord. now rewrite H. Qed.

Lemma keeps_fw_status {A} (c : M A) : keeps fw c -> keeps statusOf c.
Proof. intros H w. unfold statusOf. now rewrite H. Qed.

Create HintDb frame.

Ltac frame :=
  repeat first
    [ apply keeps_ret
    | solve [ auto with frame ]
    | apply keeps_bind; [ | intro ]
    | match goal with
      | |- keeps _ (if ?b then _ else _) => destruct b
      | |- keeps _ (match ?x with _ => _ end) => destruct x
      end ].

Lemma keeps_fw_elapse n : keeps fw (elapse n).
Proof. intro w. reflexivity. Qed.

Lemma keeps_fw_vTaskDelay n : keeps fw (vTaskDelay n).
Proof. intro w. reflexivity. Qed.

Lemma keeps_fw_tick : keeps fw xTaskGetTickCount.
Proof. intro w. reflexivity. Qed.

Lemma keeps_fw_take m n : keeps fw (xSemaphoreTake m n).
Proof.
  intro w. unfold xSemaphoreTake.
  destruct (lockScript (env w)); reflexivity.
Qed.

Lemma keeps_fw_give m : keeps fw (xSemaphoreGive m).
Proof. intro w. reflexivity. Qed.

Lemma keeps_fw_get_fw : keeps fw get_fw.
Proof. intro w. reflexivity. Qed.

Lemma keeps_fw_get_status : keeps fw get_status.
Proof. intro w. reflexivity. Qed.

#[export] Hint Resolve keeps_fw_elapse keeps_fw_vTaskDelay keeps_fw_tick
  keeps_fw_take keeps_fw_give keeps_fw_get_fw keeps_fw_get_status : frame.

Lemma keeps_status_elapse n : keeps statusOf (elapse n).
Proof. intro w. reflexivity. Qed.
Lemma keeps_status_vTaskDelay n : keeps statusOf (vTaskDelay n).
Proof. intro w. reflexivity. Qed.
Lemma keeps_status_tick : keeps statusOf xTaskGetTickCount.
Proof. intro w. reflexivity. Qed.
Lemma keeps_status_take m n : keeps statusOf (xSemaphoreTake m n).
Proof. apply keeps_fw_status, keeps_fw_take. Qed.
Lemma keeps_status_give m : keeps statusOf (xSemaphoreGive m).
Proof. intro w. reflexivity. Qed.
Lemma keeps_status_get_fw : keeps statusOf get_fw.
Proof. intro w. reflexivity. Qed.
Lemma keeps_status_get_status : keeps statusOf get_status.
Proof. intro w. reflexivity. Qed.
Lemma keeps_status_digitalWrite p l : keeps statusOf (digitalWrite p l).
Proof. intro w. reflexivity. Qed.
Lemma keeps_status_lvgl op : keeps statusOf (lvgl op).
Proof. intro w. reflexivity. Qed.
Lemma keeps_status_timerStart t : keeps statusOf (xTimerStart t).
Proof. intro w. destruct t; reflexivity. Qed.
Lemma keeps_status_timerReset t : keeps statusOf (xTimerReset t).
Proof. apply keeps_status_timerStart. Qed.
Lemma keeps_status_timerStop t : keeps statusOf (xTimerStop t).
Proof. intro w. destruct t; reflexivity. Qed.
Lemma keeps_status_timerChangePeriod t p :
  keeps statusOf (xTimerChangePeriod t p).
Proof. intro w. destruct t; reflexivity. Qed.

Lemma keeps_status_uiSend m n : keeps statusOf (xQueueSend uiRenderQueueH m n).
Proof.
  intro w. unfold xQueueSend, bind, get_fw. cbn.
  match goal with |- context [if ?b then _ else _] => destruct b end;
    reflexivity.
Qed.

Lemma keeps_status_uiReset : keeps statusOf (xQueueReset uiRenderQueueH).
Proof. intro w. reflexivity. Qed.

#[export] Hint Resolve keeps_status_elapse keeps_status_vTaskDelay
  keeps_status_tick keeps_status_take keeps_status_give keeps_status_get_fw
  keeps_status_get_status keeps_status_digitalWrite keeps_status_lvgl
  keeps_status_timerStart keeps_status_timerReset keeps_status_timerStop
  keeps_status_timerChangePeriod keeps_status_uiSend keeps_status_uiReset
  : frame.

Lemma keeps_status_sendUICommandEnhanced cmd s msg d fr hp :
  keeps statusOf (sendUICommandEnhanced cmd s msg d fr hp).
Proof. unfold sendUICommandEnhanced. frame. Qed.
#[export] Hint Resolve keeps_status_sendUICommandEnhanced : frame.

Lemma keeps_status_sendUICommand cmd s msg d :
  keeps statusOf (sendUICommand cmd s msg d).
Proof. unfold sendUICommand. frame. Qed.
#[export] Hint Resolve keeps_status_sendUICommand : frame.

Lemma keeps_status_showMessage msg d e : keeps statusOf (showMessage msg d e).
Proof. unfold showMessage. frame. Qed.
#[export] Hint Resolve keeps_status_showMessage : frame.

Lemma keeps_status_updateLEDs s : keeps statusOf (updateLEDs s).
Proof.
  unfold updateLEDs. apply keeps_bind; [ intro w; reflexivity | intro ].
  frame.
Qed.
#[export] Hint Resolve keeps_status_updateLEDs : frame.

Lemma keeps_status_playBuzzer_from d c n : forall i,
  keeps statusOf (playBuzzer_from d c n i).
Proof.
  induction n as [ | n IH ]; intro i; cbn [playBuzzer_from]; frame.
Qed.

Lemma keeps_status_playBuzzer d c : keeps statusOf (playBuzzer d c).
Proof. apply keeps_status_playBuzzer_from. Qed.
#[export] Hint Resolve keeps_status_playBuzzer : frame.

Lemma keeps_status_executeStateExit s : keeps statusOf (executeStateExit s).
Proof. unfold executeStateExit. frame. Qed.
#[export] Hint Resolve keeps_status_executeStateExit : frame.

(** Entry actions touch the screen-variant flags only. *)
Lemma keeps_record_modify_status f :
  (forall s, currentState (f s) = currentState s /\
             previousState (f s) = previousState s /\
             stateEnterTime (f s) = stateEnterTime s) ->
  keeps transitionRecord (modify_status f).
Proof.
  intros H w. unfold transitionRecord, statusOf. cbn.
  destruct (H (systemStatus (fw w))) as (-> & -> & ->). reflexivity.
Qed.

Lemma keeps_record_executeStateEntry s :
  keeps transitionRecord (executeStateEntry s).
Proof.
  unfold executeStateEntry.
  repeat first
    [ apply keeps_ret
    | solve [ apply keeps_status_record; auto with frame ]
    | solve [ apply keeps_record_modify_status; intro; cbn; auto ]
    | apply keeps_bind; [ | intro ]
    | match goal with
      | |- keeps _ (if ?b then _ else _) => destruct b
      end ].
Qed.

(** ** The state machine controller *)

Lemma bind_run {A B} (c : M A) (k : A -> M B) w :
  bind c k w = k (fst (c w)) (snd (c w)).
Proof. reflexivity. Qed.

Ltac frame_record :=
  repeat first
    [ apply keeps_ret
    | solve [ apply keeps_status_record; auto with frame ]
    | solve [ apply keeps_record_modify_status; intro; cbn; auto ]
    | apply keeps_record_executeStateEntry
    | apply keeps_bind; [ | intro ]
    | match goal with
      | |- keeps _ (if ?b then _ else _) => destruct b
      end ].

(** The range test of [transitionToState] on the stored value. *)
Lemma enum_as_int_small state :
  state < 2147483648 -> enum_as_int state = state.
Proof.
  intro H. unfold enum_as_int. apply Z.ltb_lt in H. rewrite H. reflexivity.
Qed.


Lemma enum_as_int_declared state :
  state < STATE_MAX -> (STATE_MAX <=? enum_as_int state) = false.
Proof.
  intro H. unfold STATE_MAX in H. rewrite enum_as_int_small by lia.
  apply Z.leb_gt. exact H.
Qed.

(** What a call that returns [true] has done to the transition record. *)
Lemma transitionToState_true newState trigger w w' :
  transitionToState newState trigger w = (true, w') ->
  enum_as_int newState < STATE_MAX /\
  fst (xSemaphoreTake stateMutex (pdMS_TO_TICKS 100) w) = true /\
  transitionRecord w' =
    (newState, currentState (statusOf w), tickCount (env (worldAtCommit w))).
Proof.
  unfold transitionToState, worldAtCommit. rewrite !bind_run.
  pose proof (keeps_status_take stateMutex (pdMS_TO_TICKS 100) w) as Hst.
  destruct (xSemaphoreTake stateMutex (pdMS_TO_TICKS 100) w) as [got w1].
  cbn [fst snd] in *.
  destruct got; [ | discriminate ].
  rewrite bind_run. cbn [get_status fst snd].
  fold (statusOf w1). rewrite Hst.
  destruct (STATE_MAX <=? enum_as_int newState) eqn:Hmax; [ discriminate | ].
  apply Z.leb_gt in Hmax. intro H. split; [ exact Hmax | ].
  split; [ reflexivity | ].
  apply (f_equal snd) in H. cbn [snd] in H. subst w'.
  rewrite bind_run.
  set (w2 := snd (executeStateExit (currentState (statusOf w)) w1)).
  rewrite bind_run. cbn [xTaskGetTickCount fst snd].
  rewrite bind_run.
  match goal with
  | |- transitionRecord (snd (?tail ?w3)) = _ =>
      assert (Hk : keeps transitionRecord tail) by frame_record;
      rewrite (Hk w3)
  end.
  reflexivity.
Qed.

(** With the lock free, a call for a declared state goes through. *)
Lemma transitionToState_succeeds newState trigger w :
  locksGranted 1 w -> newState < STATE_MAX ->
  fst (transitionToState newState trigger w) = true.
Proof.
  intros Hlock Hmax. unfold transitionToState. rewrite bind_run.
  assert (Hgot : fst (xSemaphoreTake stateMutex (pdMS_TO_TICKS 100) w) = true).
  { unfold xSemaphoreTake. specialize (Hlock O (Nat.lt_0_1)).
    destruct (lockScript (env w)); [ reflexivity | exact Hlock ]. }
  rewrite Hgot. rewrite bind_run.
  apply enum_as_int_declared in Hmax. cbn [get_status fst snd]. rewrite Hmax.
  reflexivity.
Qed.

(** A granted take costs no time and changes nothing but the script. *)
Lemma take_granted m n w :
  fst (xSemaphoreTake m n w) = true ->
  fw (snd (xSemaphoreTake m n w)) = fw w
  /\ tickCount (env (snd (xSemaphoreTake m n w))) = tickCount (env w)
  /\ indicateScript (env (snd (xSemaphoreTake m n w)))
     = indicateScript (env w)
  /\ lockScript (env (snd (xSemaphoreTake m n w)))
     = tl (lockScript (env w)).
Proof.
  unfold xSemaphoreTake. destruct (lockScript (env w)) as [ | b rest ] eqn:E.
  - cbn. rewrite E. auto.
  - cbn. intros ->. auto.
Qed.

Lemma locksGranted_take m n k w :
  locksGranted (S k) w ->
  fst (xSemaphoreTake m n w) = true
  /\ locksGranted k (snd (xSemaphoreTake m n w)).
Proof.
  intro H. assert (Hgot : fst (xSemaphoreTake m n w) = true).
  { unfold xSemaphoreTake. specialize (H O (Nat.lt_0_succ k)).
    destruct (lockScript (env w)); [ reflexivity | exact H ]. }
  split; [ exact Hgot | ].
  intros j Hj. destruct (take_granted m n w Hgot) as (_ & _ & _ & ->).
  specialize (H (S j) (proj1 (Nat.succ_lt_mono j k) Hj)).
  destruct (lockScript (env w)); [ destruct j; reflexivity | exact H ].
Qed.

(** With room in the render queue the exit actions take no time. *)
Lemma executeStateExit_tick s w :
  (List.length (uiRenderQueue (fw w)) < 15)%nat ->
  tickCount (env (snd (executeStateExit s w))) = tickCount (env w).
Proof.
  intro Hroom. apply Nat.ltb_lt in Hroom.
  unfold executeStateExit, sendUICommand, sendUICommandEnhanced.
  destruct (s =? STATE_LOGO); [ reflexivity | ].
  destruct ((s =? STATE_RECORDING) || (s =? STATE_UPLOADING)).
  - unfold xQueueSend. rewrite !bind_run.
    cbn [get_fw xTaskGetTickCount fst snd].
    cbn [uiRenderQueueH q_items q_length]. rewrite Hroom. reflexivity.
  - destruct (s =? STATE_LOGIN); reflexivity.
Qed.

(** C1: every call of [transitionToState] that returns success leaves
    [previousState] equal to the [currentState] of just before the call and
    [currentState] equal to the requested state, whatever the world it is
    called in (so after any sequence of earlier transitions, and also when
    the requested state is the current one); [stateEnterTime] is the tick
    count read at the moment of the update, which is the tick count at the
    call unless an exit action had to wait on a full render queue. *)
Theorem transitionToState_records_previous :
  forall newState trigger w w',
    transitionToState newState trigger w = (true, w') ->
    previousState (statusOf w') = currentState (statusOf w)
    /\ currentState (statusOf w') = newState
    /\ stateEnterTime (statusOf w') = tickCount (env (worldAtCommit w))
    /\ ((List.length (uiRenderQueue (fw w)) < 15)%nat ->
        stateEnterTime (statusOf w') = tickCount (env w)).
Proof.
  intros newState trigger w w' H.
  destruct (transitionToState_true _ _ _ _ H) as (_ & Hgot & Hrec).
  unfold transitionRecord in Hrec. injection Hrec as Hc Hp Ht.
  repeat split; auto.
  intro Hroom. rewrite Ht. unfold worldAtCommit. rewrite bind_run.
  destruct (take_granted _ _ _ Hgot) as (Hfw & Htick & _).
  rewrite executeStateExit_tick by (rewrite Hfw; exact Hroom).
  exact Htick.
Qed.

Lemma transitionToState_records_previous_witness :
  let w := world_in STATE_RECORDING 5000 in
  let w' :=
    snd (transitionToState STATE_RECORDING EVENT_BUTTON_SHORT_PRESS w) in
  previousState (statusOf w') = STATE_RECORDING
  /\ currentState (statusOf w') = STATE_RECORDING
  /\ stateEnterTime (statusOf w') = 5000.
Proof.
  intros w w'.
  destruct (transitionToState_records_previous STATE_RECORDING
              EVENT_BUTTON_SHORT_PRESS w w') as (H1 & H2 & _ & H4).
  - vm_compute. reflexivity.
  - split; [ exact H1 | split; [ exact H2 | ] ].
    apply H4. cbn. lia.
Defined.




(** C6: from [STATE_UNLOCK], successful transitions to [STATE_RECORDING],
    then [STATE_UPLOADING], then [STATE_UNLOCK] end in [STATE_UNLOCK] with
    [previousState] equal to [STATE_UPLOADING].  Other tasks may run
    between the calls as long as they leave [currentState] alone, which only
    the controller writes. *)
Theorem cyclic_flow_closure :
  forall t1 t2 t3 w0 w1 w1' w2 w2' w3,
    currentState (statusOf w0) = STATE_UNLOCK ->
    transitionToState STATE_RECORDING t1 w0 = (true, w1) ->
    currentState (statusOf w1') = currentState (statusOf w1) ->
    transitionToState STATE_UPLOADING t2 w1' = (true, w2) ->
    currentState (statusOf w2') = currentState (statusOf w2) ->
    transitionToState STATE_UNLOCK t3 w2' = (true, w3) ->
    currentState (statusOf w3) = STATE_UNLOCK
    /\ previousState (statusOf w3) = STATE_UPLOADING
    /\ previousState (statusOf w2) = STATE_RECORDING
    /\ previousState (statusOf w1) = STATE_UNLOCK.
Proof.
  intros t1 t2 t3 w0 w1 w1' w2 w2' w3 H0 T1 E1 T2 E2 T3.
  destruct (transitionToState_true _ _ _ _ T1) as (_ & _ & R1).
  destruct (transitionToState_true _ _ _ _ T2) as (_ & _ & R2).
  destruct (transitionToState_true _ _ _ _ T3) as (_ & _ & R3).
  unfold transitionRecord in R1, R2, R3.
  injection R1 as C1 P1 _. injection R2 as C2 P2 _. injection R3 as C3 P3 _.
  repeat split; congruence.
Qed.

Lemma cyclic_flow_closure_witness :
  let w0 := world_in STATE_UNLOCK 5000 in
  let w1 :=
    snd (transitionToState STATE_RECORDING EVENT_BUTTON_SHORT_PRESS w0) in
  let w2 :=
    snd (transitionToState STATE_UPLOADING EVENT_BUTTON_LONG_PRESS w1) in
  let w3 := snd (transitionToState STATE_UNLOCK EVENT_APP_COMMAND w2) in
  currentState (statusOf w3) = STATE_UNLOCK
  /\ previousState (statusOf w3) = STATE_UPLOADING.
Proof.
  intros w0 w1 w2 w3.
  destruct (cyclic_flow_closure EVENT_BUTTON_SHORT_PRESS
              EVENT_BUTTON_LONG_PRESS EVENT_APP_COMMAND w0 w1 w1 w2 w2 w3)
    as (H1 & H2 & _); try (vm_compute; reflexivity).
  split; [ exact H1 | exact H2 ].
Defined.

(** The controller on [Record] in [STATE_UNLOCK]: the transition is a
    critical one, the load command is forced and of high priority, and the
    state timeout is armed with 240 s. *)
Example transition_unlock_to_recording :
  let r := transitionToState STATE_RECORDING EVENT_APP_COMMAND
             (world_in STATE_UNLOCK 1000) in
  fst r = true
  /\ currentState (statusOf (snd r)) = STATE_RECORDING
  /\ forceUIRefresh (statusOf (snd r)) = true
  /\ map (fun m => (ui_command m, ui_state m, ui_highPriority m,
                    ui_forceRefresh m))
       (uiRenderQueue (fw (snd r)))
     = [(UI_CMD_START_ANIMATION, STATE_RECORDING, false, false);
        (UI_CMD_LOAD_SCREEN, STATE_RECORDING, true, true)]
  /\ tm_active (stateTimeoutTimer (fw (snd r))) = true
  /\ tm_period (stateTimeoutTimer (fw (snd r))) = 240000.
Proof. vm_compute. repeat split; reflexivity. Qed.

(** ** The BLE command gateway: tokens *)

Lemma prefix_append p : forall s,
  String.prefix p s = true <-> exists t, s = (p ++ t)%string.
Proof.
  induction p as [ | c p IH ]; intro s.
  - split; [ intros _; exists s; reflexivity | ].
    intros _; destruct s; reflexivity.
  - destruct s as [ | c' s ]; cbn.
    + split; [ discriminate | intros [t Ht]; discriminate ].
    + destruct (Ascii.ascii_dec c c') as [ -> | Hne ].
      * rewrite IH. split; intros [t Ht]; exists t; congruence.
      * split; [ discriminate | intros [t Ht]; congruence ].
Qed.

Lemma TokenMapsTo_parse token s :
  TokenMapsTo token s <->
  exists label, BLEManagerTask_parse token = Some (s, label).
Proof.
  split.
  - intro H. destruct H; try (eexists; reflexivity).
    unfold BLEManagerTask_parse, startsWith.
    assert (Hp : String.prefix "Login" ("Login" ++ suffix) = true)
      by (apply prefix_append; eexists; reflexivity).
    rewrite Hp. eexists; reflexivity.
  - intros [label H]. unfold BLEManagerTask_parse, startsWith, equals in H.
    destruct (String.prefix "Login" token) eqn:Hp.
    { apply prefix_append in Hp as [t ->]. injection H as <- _. constructor. }
    repeat match type of H with
    | (if String.eqb token ?k then _ else _) = _ =>
        destruct (String.eqb_spec token k) as [ -> | _ ];
        [ injection H as <- _; constructor | ]
    end.
    discriminate.
Qed.

Lemma keeps_fw_isAppCmdSuppressed s : keeps fw (isAppCmdSuppressed s).
Proof. unfold isAppCmdSuppressed. frame. Qed.

(** Matching is by bytes: other spellings are unknown commands. *)
Example gateway_case_sensitive :
  BLEManagerTask_parse "unlock" = None
  /\ BLEManagerTask_parse "RECORD" = None
  /\ BLEManagerTask_parse "login" = None
  /\ BLEManagerTask_parse "Unlock " = None
  /\ BLEManagerTask_parse "LoginUser42"
     = Some (STATE_LOGIN, "App_Login_Command")
  /\ BLEManagerTask_parse "Logout" = Some (STATE_LOGO, "App_Logout_Command").
Proof. repeat split. Qed.

(** The write callback of the legacy sketch follows the same rules except
    that it has no [Setup] command. *)
Lemma legacy_onWrite_rules bytes :
  match Legacy.onWrite bytes with
  | Some c =>
      exists s, Legacy.stateOf (Legacy.type c) = Some s
                /\ TokenMapsTo (c_str bytes) s /\ s <> STATE_SETUP
  | None =>
      c_str bytes = "Setup" \/ forall s, ~ TokenMapsTo (c_str bytes) s
  end.
Proof.
  unfold Legacy.onWrite, startsWith, equals.
  destruct (String.prefix "Login" (c_str bytes)) eqn:Hp.
  { apply prefix_append in Hp as [t Ht]. cbn. exists STATE_LOGIN.
    rewrite Ht. repeat split; [ constructor | discriminate ]. }
  repeat match goal with
  | |- match (if String.eqb ?t ?k then _ else _) with _ => _ end =>
      destruct (String.eqb_spec t k) as [ He | ? ];
      [ cbn; eexists; rewrite He;
        repeat split; [ constructor | discriminate ] | ]
  end.
  destruct (String.eqb_spec (c_str bytes) "Setup") as [ He | Hs ];
    [ left; exact He | right ].
  intros s Hmap. inversion Hmap as [ sfx Hs1 Hs2 | | | | | ]; try congruence.
  assert (String.prefix "Login" (c_str bytes) = true)
    by (apply prefix_append; exists sfx; symmetry; exact Hs1).
  congruence.
Qed.

Lemma TokenMapsTo_unique token s1 s2 :
  TokenMapsTo token s1 -> TokenMapsTo token s2 -> s1 = s2.
Proof.
  intros H1 H2.
  apply TokenMapsTo_parse in H1 as [l1 H1].
  apply TokenMapsTo_parse in H2 as [l2 H2]. congruence.
Qed.

(** What the gateway does with a token that has a rule. *)
Lemma BLEManagerTask_process_forwards token data ts s label w :
  BLEManagerTask_parse token = Some (s, label) ->
  fw (snd (BLEManagerTask_process (mkBLECommandMsg token data ts) w))
  = if fst (isAppCmdSuppressed s w) then fw w
    else if (List.length (systemEventQueue (fw w)) <? 20)%nat
    then fw_set_systemEventQueue
           (systemEventQueue (fw w)
            ++ [mkSystemEventMsg EVENT_APP_COMMAND s 0 0 label
                  (tickCount (env w))])
           (fw w)
    else fw w.
Proof.
  intro Hparse. unfold BLEManagerTask_process. cbn [cmd_command].
  rewrite Hparse. rewrite bind_run. cbn [xTaskGetTickCount fst snd].
  rewrite bind_run.
  pose proof (keeps_fw_isAppCmdSuppressed s w) as Hfw.
  destruct (isAppCmdSuppressed s w) as [sup w1]. cbn [fst snd] in *.
  destruct sup; [ exact Hfw | ].
  rewrite bind_run. unfold xQueueSend. rewrite !bind_run.
  cbn [get_fw fst snd systemEventQueueH q_items q_length q_store].
  rewrite Hfw.
  destruct (_ <? _)%nat; cbn; rewrite ?Hfw; reflexivity.
Qed.

(** C3, as the code has it: the gateway of the dual-core firmware
    recognises a token exactly when the specification's rules give it a
    state: prefix [Login] for the login state, and the exact,
    case-sensitive tokens [Unlock], [Record], [Upload], [Logout], [Setup].
    A token outside the rules ends the iteration with the firmware state
    untouched.  A token inside them queues one [EVENT_APP_COMMAND] for its
    state, stamped with the tick count of the pass, unless the suppression
    check drops it or the event queue is full; then the firmware state is
    untouched as well.  The write callback of the legacy sketch recognises
    the bytes up to the first NUL by the same rules except the one for
    [Setup], which it does not have. *)
Theorem gateway_token_rules :
  forall token,
    (forall s, TokenMapsTo token s <->
               exists label, BLEManagerTask_parse token = Some (s, label))
    /\ (forall data ts w,
          (forall s, ~ TokenMapsTo token s) ->
          let r := BLEManagerTask_process (mkBLECommandMsg token data ts) w in
          fst r = true /\ fw (snd r) = fw w)
    /\ (forall data ts w s,
          TokenMapsTo token s ->
          let w' :=
            snd (BLEManagerTask_process (mkBLECommandMsg token data ts) w) in
          exists label,
            BLEManagerTask_parse token = Some (s, label)
            /\ fw w'
               = if fst (isAppCmdSuppressed s w) then fw w
                 else if (List.length (systemEventQueue (fw w)) <? 20)%nat
                 then fw_set_systemEventQueue
                        (systemEventQueue (fw w)
                         ++ [mkSystemEventMsg EVENT_APP_COMMAND s 0 0 label
                               (tickCount (env w))])
                        (fw w)
                 else fw w)
    /\ (forall s,
          (exists c, Legacy.onWrite token = Some c
                     /\ Legacy.stateOf (Legacy.type c) = Some s)
          <-> TokenMapsTo (c_str token) s /\ s <> STATE_SETUP).
Proof.
  intro token. split; [ intro s; apply TokenMapsTo_parse | ]. split.
  - intros data ts w Hnone r. subst r. unfold BLEManagerTask_process.
    cbn [cmd_command]. rewrite bind_run.
    destruct (BLEManagerTask_parse token) as [ [s label] | ] eqn:Hparse.
    + exfalso. apply (Hnone s). apply TokenMapsTo_parse. now exists label.
    + split; reflexivity.
  - split.
    + intros data ts w s Hmap w'. subst w'.
      apply TokenMapsTo_parse in Hmap as [label Hparse].
      exists label. split; [ exact Hparse | ].
      apply BLEManagerTask_process_forwards. exact Hparse.
    + intro s. pose proof (legacy_onWrite_rules token) as Hleg. split.
      * intros (c & Hc & Hs). rewrite Hc in Hleg.
        destruct Hleg as (s' & Hs' & Hmap & Hne).
        assert (s' = s) by congruence. subst s'. split; assumption.
      * intros [Hmap Hne].
        destruct (Legacy.onWrite token) as [ c | ].
        -- destruct Hleg as (s' & Hs' & Hmap' & _).
           exists c. split; [ reflexivity | ].
           rewrite (TokenMapsTo_unique _ _ _ Hmap Hmap'). exact Hs'.
        -- exfalso. destruct Hleg as [ Hsetup | Hnone ].
           ++ rewrite Hsetup in Hmap. apply Hne.
              apply (TokenMapsTo_unique "Setup"); [ exact Hmap | constructor ].
           ++ exact (Hnone s Hmap).
Qed.

Lemma gateway_token_rules_witness :
  let w := world_in STATE_LOGIN 5000 in
  TokenMapsTo "Record" STATE_RECORDING
  /\ fw (snd (BLEManagerTask_process (mkBLECommandMsg "record" "" 5000) w))
     = fw w
  /\ map ev_targetState
       (systemEventQueue
          (fw (snd (BLEManagerTask_process
                      (mkBLECommandMsg "Unlock" "" 5000) w))))
     = [STATE_UNLOCK]
  /\ map ev_targetState
       (systemEventQueue
          (fw (snd (BLEManagerTask_process
                      (mkBLECommandMsg "LoginUser42" "" 5000) w))))
     = [STATE_LOGIN].
Proof.
  intro w.
  destruct (gateway_token_rules "Record") as (Hrec & _ & _).
  destruct (gateway_token_rules "record") as (Hlow & Hnone & _).
  destruct (gateway_token_rules "Unlock") as (_ & _ & Hunlock & _).
  destruct (gateway_token_rules "LoginUser42") as (_ & _ & Hlogin & _).
  split; [ apply Hrec; eexists; reflexivity | ].
  split.
  - apply (Hnone "" 5000 w).
    intros s Hs. apply Hlow in Hs. destruct Hs as [label Hs]. discriminate Hs.
  - split.
    + destruct (Hunlock "" 5000 w STATE_UNLOCK maps_Unlock)
        as (label & Hparse & Hfw).
      rewrite Hfw. injection Hparse as <-. vm_compute. reflexivity.
    + destruct (Hlogin "" 5000 w STATE_LOGIN (maps_Login "User42"))
        as (label & Hparse & Hfw).
      rewrite Hfw. injection Hparse as <-. vm_compute. reflexivity.
Defined.

(** The token [Setup] has a rule in the specification and in the dual-core
    gateway, but the write callback of the legacy sketch queues no command
    for it. *)
Lemma gateway_token_rules_counterexample :
  TokenMapsTo "Setup" STATE_SETUP
  /\ BLEManagerTask_parse "Setup" = Some (STATE_SETUP, "App_Setup_Command")
  /\ Legacy.onWrite "Setup" = None
  /\ Legacy.onWrite "Unlock"
     = Some (Legacy.mkCommand Legacy.CMD_UNLOCK "Unlock").
Proof. repeat split. constructor. Qed.
(** ** The BLE command gateway: which characteristic was written *)

Lemma tableBlind_ret {A} (a : A) : tableBlind (ret a).
Proof. intros w1 w2 H. split; [ reflexivity | exact H ]. Qed.

Lemma tableBlind_bind {A B} (c : M A) (k : A -> M B) :
  tableBlind c -> (forall a, tableBlind (k a)) -> tableBlind (bind c k).
Proof.
  intros Hc Hk w1 w2 H. rewrite !bind_run.
  destruct (Hc w1 w2 H) as [Hfst Hsnd]. rewrite Hfst.
  apply Hk. exact Hsnd.
Qed.

Ltac blind_prim :=
  let w1 := fresh "w" in
  let w2 := fresh "w" in
  let He := fresh "He" in
  let Hf := fresh "Hf" in
  intros w1 w2 [He Hf];
  destruct w1 as [ [] ? ], w2 as [ [] ? ];
  cbn in He, Hf; subst; injection Hf; intros; subst.

Lemma tableBlind_tick : tableBlind xTaskGetTickCount.
Proof. blind_prim. split; [ reflexivity | split; reflexivity ]. Qed.

Lemma tableBlind_elapse n : tableBlind (elapse n).
Proof. blind_prim. split; [ reflexivity | split; reflexivity ]. Qed.

Lemma tableBlind_vTaskDelay n : tableBlind (vTaskDelay n).
Proof. apply tableBlind_elapse. Qed.

Lemma tableBlind_take m n : tableBlind (xSemaphoreTake m n).
Proof.
  blind_prim. unfold xSemaphoreTake. cbn.
  match goal with
  | |- context [match ?l with [] => _ | _ :: _ => _ end] => destruct l
  end; cbn; split; try reflexivity; split; reflexivity.
Qed.

Lemma tableBlind_give m : tableBlind (xSemaphoreGive m).
Proof. apply tableBlind_ret. Qed.

Lemma tableBlind_get_status : tableBlind get_status.
Proof. blind_prim. split; [ reflexivity | split; reflexivity ]. Qed.

Lemma tableBlind_eventSend e n : tableBlind (xQueueSend systemEventQueueH e n).
Proof.
  blind_prim. unfold xQueueSend. rewrite !bind_run. cbn.
  match goal with
  | |- context [if ?b then _ else _] => destruct b
  end; cbn; split; try reflexivity; split; reflexivity.
Qed.

Lemma tableBlind_commandReceive n :
  tableBlind (xQueueReceive bleCommandQueueH n).
Proof.
  blind_prim. unfold xQueueReceive. rewrite !bind_run. cbn.
  match goal with
  | |- context [match ?l with [] => _ | _ :: _ => _ end] => destruct l
  end; cbn; split; try reflexivity; split; reflexivity.
Qed.

Create HintDb blind.
#[export] Hint Resolve tableBlind_ret tableBlind_tick tableBlind_elapse
  tableBlind_vTaskDelay tableBlind_take tableBlind_give tableBlind_get_status
  tableBlind_eventSend tableBlind_commandReceive : blind.

Ltac blind :=
  repeat first
    [ solve [ auto with blind ]
    | apply tableBlind_bind; [ | intro ]
    | match goal with
      | |- tableBlind (if ?b then _ else _) => destruct b
      | |- tableBlind (match ?x with _ => _ end) => destruct x
      end ].

Lemma tableBlind_isAppCmdSuppressed s : tableBlind (isAppCmdSuppressed s).
Proof. unfold isAppCmdSuppressed. blind. Qed.
#[export] Hint Resolve tableBlind_isAppCmdSuppressed : blind.

Lemma tableBlind_process cmd : tableBlind (BLEManagerTask_process cmd).
Proof. unfold BLEManagerTask_process. blind. Qed.
#[export] Hint Resolve tableBlind_process : blind.

Lemma tableBlind_iteration : tableBlind BLEManagerTask_iteration.
Proof. unfold BLEManagerTask_iteration. blind. Qed.

Lemma nth_error_set_characteristic_value i v table d chr :
  nth_error table i = Some d -> characteristic d = Some chr ->
  nth_error (set_characteristic_value i v table) i =
  Some (mkBLECharDef (serviceUUID d) (charUUID d) (properties d)
          (associatedState d) (indicationMessage d)
          (Some (mkBLECharacteristic v))).
Proof.
  intros Hd Hc. unfold set_characteristic_value. rewrite Hd, Hc.
  assert (Hlen : (i < List.length table)%nat)
    by (apply nth_error_Some; congruence).
  rewrite nth_error_app2; rewrite firstn_length_le by lia; [ | lia ].
  rewrite Nat.sub_diag. reflexivity.
Qed.

(** What a write to a writable entry does: the bytes land in that entry and
    their [c_str] is offered to the command queue. *)
Lemma gattWrite_writable i bytes w :
  writable i w ->
  gattWrite i bytes w =
  (_ <- xQueueSend bleCommandQueueH
          (mkBLECommandMsg (c_str bytes) "" (tickCount (env w)))
          (pdMS_TO_TICKS 100) ;;
   ret tt)
    (mkWorld
       (fw_set_bleCharacteristics
          (set_characteristic_value i bytes (bleCharacteristics (fw w)))
          (fw w))
       (env w)).
Proof.
  intros (d & chr & Hd & Hw & Hc).
  unfold gattWrite. rewrite bind_run. cbn [get_fw fst snd]. rewrite Hd, Hw.
  rewrite bind_run. cbn [modify_fw fst snd].
  unfold SystemBLECharCallbacks_onWrite. rewrite bind_run.
  cbn [get_fw fst snd fw].
  destruct (fw w) as [ ? ? ? ? ? ? ? ? ? ? table ? ? ? ? ] eqn:Ef.
  cbn [fw_set_bleCharacteristics bleCharacteristics] in *.
  rewrite (nth_error_set_characteristic_value i bytes table d chr Hd Hc).
  cbn [characteristic ch_value]. reflexivity.
Qed.

Lemma tableBlind_commandSend c n : tableBlind (xQueueSend bleCommandQueueH c n).
Proof.
  blind_prim. unfold xQueueSend. rewrite !bind_run. cbn.
  match goal with
  | |- context [if ?b then _ else _] => destruct b
  end; cbn; split; try reflexivity; split; reflexivity.
Qed.

Lemma sameButTable_queues w1 w2 :
  sameButTable w1 w2 ->
  bleCommandQueue (fw w1) = bleCommandQueue (fw w2)
  /\ systemEventQueue (fw w1) = systemEventQueue (fw w2).
Proof.
  intros [_ H]. split.
  - apply (f_equal bleCommandQueue) in H. exact H.
  - apply (f_equal systemEventQueue) in H. exact H.
Qed.

(** C10: the command a write produces depends on the written bytes only.
    Writing the same bytes to any two writable characteristics offers the
    same command message to the command queue, the gateway maps it by
    [BLEManagerTask_parse] of the token alone, and the gateway's next
    iteration leaves the same event queue behind, whatever states the two
    characteristics are associated with. *)
Theorem write_target_ignores_characteristic :
  forall bytes i j w,
    writable i w -> writable j w ->
    let wi := snd (gattWrite i bytes w) in
    let wj := snd (gattWrite j bytes w) in
    bleCommandQueue (fw wi) = bleCommandQueue (fw wj)
    /\ ((List.length (bleCommandQueue (fw w)) < 10)%nat ->
        bleCommandQueue (fw wi) =
        (bleCommandQueue (fw w)
         ++ [mkBLECommandMsg (c_str bytes) "" (tickCount (env w))])%list)
    /\ systemEventQueue (fw (snd (BLEManagerTask_iteration wi)))
       = systemEventQueue (fw (snd (BLEManagerTask_iteration wj))).
Proof.
  intros bytes i j w Hi Hj wi wj. subst wi wj.
  rewrite (gattWrite_writable i bytes w Hi), (gattWrite_writable j bytes w Hj).
  set (send := _ <- xQueueSend bleCommandQueueH
                      (mkBLECommandMsg (c_str bytes) "" (tickCount (env w)))
                      (pdMS_TO_TICKS 100) ;; ret tt).
  assert (Hsend : tableBlind send)
    by (apply tableBlind_bind;
        [ apply tableBlind_commandSend | intro; apply tableBlind_ret ]).
  match goal with
  | |- bleCommandQueue (fw (snd (send ?w1)))
       = bleCommandQueue (fw (snd (send ?w2))) /\ _ =>
      destruct (Hsend w1 w2) as [_ Hsame]; [ split; reflexivity | ]
  end.
  split; [ apply sameButTable_queues; exact Hsame | ]. split.
  - intro Hroom. apply Nat.ltb_lt in Hroom. subst send.
    unfold xQueueSend. rewrite !bind_run.
    cbn [get_fw fst snd fw env bleCommandQueueH q_items q_length q_store
         fw_set_bleCharacteristics bleCommandQueue].
    rewrite Hroom. reflexivity.
  - apply sameButTable_queues.
    apply (tableBlind_iteration _ _ Hsame).
Qed.

Lemma write_target_ignores_characteristic_witness :
  let w := world_in STATE_UNLOCK 5000 in
  bleCommandQueue (fw (snd (gattWrite 7 "Record" w)))
  = bleCommandQueue (fw (snd (gattWrite 3 "Record" w)))
  /\ map ev_targetState
       (systemEventQueue
          (fw (snd ((gattWrite 7 "Record" ;; BLEManagerTask_iteration) w))))
     = [STATE_RECORDING].
Proof.
  intro w. split.
  - assert (H7 : writable 7 w)
      by (do 2 eexists; split; [ reflexivity | split; reflexivity ]).
    assert (H3 : writable 3 w)
      by (do 2 eexists; split; [ reflexivity | split; reflexivity ]).
    exact (proj1 (write_target_ignores_characteristic "Record" 7 3 w H7 H3)).
  - vm_compute. reflexivity.
Defined.

(** ** The BLE command gateway: burst suppression *)

Lemma keeps_status_indicate i msg : keeps statusOf (indicate i msg).
Proof.
  intro w. unfold indicate. rewrite bind_run. cbn [modify_fw fst snd].
  cbn [env]. destruct (indicateScript (env w)) as [ | [ | ] rest ]; reflexivity.
Qed.

Lemma keeps_status_modify_health g : keeps statusOf (modify_health g).
Proof. intro w. reflexivity. Qed.

#[export] Hint Resolve keeps_status_indicate keeps_status_modify_health : frame.

Lemma keeps_status_indicationRetries i msg mx n : forall retry sa sent,
  keeps statusOf (indicationRetries i msg mx n retry sa sent).
Proof.
  induction n as [ | n IH ]; intros retry sa sent;
    cbn [indicationRetries]; frame.
Qed.

Lemma keeps_status_updateHealth b :
  keeps statusOf (updateBLEConnectionHealth b).
Proof. unfold updateBLEConnectionHealth. frame. Qed.

Lemma keeps_status_isStable : keeps statusOf isBLEConnectionStable.
Proof. unfold isBLEConnectionStable, isBLEConnected. frame. Qed.

#[export] Hint Resolve keeps_status_indicationRetries keeps_status_updateHealth
  keeps_status_isStable : frame.

Lemma keeps_status_sendIndication s :
  keeps statusOf (sendBLEButtonIndication s).
Proof. unfold sendBLEButtonIndication. frame. Qed.
#[export] Hint Resolve keeps_status_sendIndication : frame.

Lemma keeps_status_burst_from s r sp n : forall i,
  keeps statusOf (burst_from s r sp n i).
Proof.
  induction n as [ | n IH ]; intro i; cbn [burst_from]; frame.
Qed.
#[export] Hint Resolve keeps_status_burst_from : frame.

Lemma keeps_suppression_status {A} (c : M A) :
  keeps statusOf c -> keeps suppressionOf c.
Proof. intros H w. unfold suppressionOf. now rewrite H. Qed.

Lemma keeps_suppression_burstFlag b :
  keeps suppressionOf (modify_status (set_bleBurstActive b)).
Proof. intro w. reflexivity. Qed.

(** With its lock granted, the install writes the state and the deadline. *)
Lemma startAppCmdSuppression_granted s d w :
  locksGranted 1 w ->
  suppressionOf (snd (startAppCmdSuppression s d w))
  = (s, uint32 (tickCount (env w) + pdMS_TO_TICKS d)).
Proof.
  intro Hlock. unfold startAppCmdSuppression. rewrite bind_run.
  destruct (locksGranted_take stateMutex (pdMS_TO_TICKS 50) _ _ Hlock)
    as [Hgot _].
  destruct (take_granted _ _ _ Hgot) as (_ & Htick & _).
  rewrite Hgot. rewrite !bind_run. cbn [xTaskGetTickCount fst snd].
  rewrite Htick. reflexivity.
Qed.

(** A take removes the head of the script; a refused one also waits out
    its timeout. *)
Lemma take_effect m n w :
  fst (xSemaphoreTake m n w) = nth 0 (lockScript (env w)) true
  /\ fw (snd (xSemaphoreTake m n w)) = fw w
  /\ lockScript (env (snd (xSemaphoreTake m n w))) = tl (lockScript (env w))
  /\ tickCount (env (snd (xSemaphoreTake m n w)))
     = if nth 0 (lockScript (env w)) true then tickCount (env w)
       else uint32 (tickCount (env w) + n).
Proof.
  unfold xSemaphoreTake.
  destruct (lockScript (env w)) as [ | [ | ] rest ] eqn:E; cbn;
    rewrite ?E; repeat split; reflexivity.
Qed.

(** What the burst leaves in the suppression fields when its install gets
    the state lock, whatever became of the acquisition before it. *)
Lemma burst_installs s repeats spacing w :
  nth 1 (lockScript (env w)) true = true ->
  suppressionOf (snd (sendBLEButtonIndicationBurst s repeats spacing true w))
  = (s, uint32 (installTick w
                + pdMS_TO_TICKS (burstSuppressionMs repeats spacing))).
Proof.
  intro Hlock. unfold sendBLEButtonIndicationBurst.
  rewrite bind_run.
  destruct (take_effect stateMutex (pdMS_TO_TICKS 20) w)
    as (Hgot & Hfw & Hscript & Htick).
  fold (installTick w) in Htick.
  set (w1 := snd (xSemaphoreTake stateMutex (pdMS_TO_TICKS 20) w)) in *.
  rewrite bind_run.
  set (w2 := snd ((if fst (xSemaphoreTake stateMutex (pdMS_TO_TICKS 20) w)
                   then
                     modify_status (set_bleBurstActive true) ;;
                     xSemaphoreGive stateMutex
                   else ret tt) w1)).
  assert (He2 : env w2 = env w1).
  { subst w2. destruct (fst (xSemaphoreTake _ _ w)); reflexivity. }
  assert (Hl2 : locksGranted 1 w2).
  { intros k Hk. assert (k = 0%nat) by lia. subst k.
    rewrite He2, Hscript.
    destruct (lockScript (env w)) as [ | b0 rest ];
      [ reflexivity | exact Hlock ]. }
  assert (Ht2 : tickCount (env w2) = installTick w)
    by (rewrite He2; exact Htick).
  rewrite bind_run.
  set (w3 := snd (startAppCmdSuppression s
                    (burstSuppressionMs repeats spacing) w2)).
  assert (H3 : suppressionOf w3
               = (s, uint32 (installTick w
                             + pdMS_TO_TICKS
                                 (burstSuppressionMs repeats spacing)))).
  { subst w3. rewrite startAppCmdSuppression_granted by exact Hl2.
    now rewrite Ht2. }
  rewrite <- H3.
  match goal with
  | |- suppressionOf (snd (?tail w3)) = _ =>
      assert (Hk : keeps suppressionOf tail)
  end.
  { repeat first
      [ apply keeps_ret
      | apply keeps_suppression_burstFlag
      | solve [ apply keeps_suppression_status; auto with frame ]
      | apply keeps_bind; [ | intro ]
      | match goal with
        | |- keeps _ (if ?b then _ else _) => destruct b
        end ]. }
  apply Hk.
Qed.

(** The gate: a command is suppressed exactly when the check gets the
    lock, the state is the suppressed one and the window is still open. *)
Lemma isAppCmdSuppressed_spec s w :
  fst (isAppCmdSuppressed s w)
  = nth 0 (lockScript (env w)) true
    && ((s =? fst (suppressionOf w))
        && (tickCount (env w) <? snd (suppressionOf w))).
Proof.
  unfold isAppCmdSuppressed, xSemaphoreTake, suppressionOf, statusOf.
  rewrite bind_run.
  destruct (lockScript (env w)) as [ | [ | ] rest ]; reflexivity.
Qed.

Lemma BLEManagerTask_process_known token data ts s label w :
  BLEManagerTask_parse token = Some (s, label) ->
  BLEManagerTask_process (mkBLECommandMsg token data ts) w
  = (if fst (isAppCmdSuppressed s w) then (true, snd (isAppCmdSuppressed s w))
     else
       (_ <- xQueueSend systemEventQueueH
               (mkSystemEventMsg EVENT_APP_COMMAND s 0 0 label
                  (tickCount (env w)))
               (pdMS_TO_TICKS 100) ;;
        ret false) (snd (isAppCmdSuppressed s w))).
Proof.
  intro Hparse. unfold BLEManagerTask_process. cbn [cmd_command].
  rewrite Hparse. rewrite bind_run. cbn [xTaskGetTickCount fst snd].
  rewrite bind_run. destruct (fst (isAppCmdSuppressed s w)); reflexivity.
Qed.

(** C4, as the code has it: a burst of three indications spaced 30 ms
    apart, asked to suppress, whose install acquires the state lock at tick
    [now] with [now + 180] below [2^32], leaves the window [(s, now + 180)];
    [now] is the tick of the call, or 20 ticks later when the acquisition
    for the burst flag timed out before.  From then on a check that
    acquires the state lock at a tick strictly before [now + 180] drops
    every command for [s] (the iteration continues, the firmware state
    stays as it is); a check at or after that tick, and at any tick a check
    that times out on the state lock, lets every command for [s] through;
    and a command for another state is never dropped.  A command let
    through is queued, stamped with the tick of the pass, when the event
    queue has room. *)
Theorem burst_suppression_window :
  forall s w,
    nth 1 (lockScript (env w)) true = true ->
    0 <= tickCount (env w) ->
    installTick w + 180 < UINT32_MOD ->
    let now := installTick w in
    let w1 := snd (sendBLEButtonIndicationBurst s 3 30 true w) in
    let forwarded token data ts s' label w2 :=
      fw (snd (BLEManagerTask_process (mkBLECommandMsg token data ts) w2))
      = fw_set_systemEventQueue
          (systemEventQueue (fw w2)
           ++ [mkSystemEventMsg EVENT_APP_COMMAND s' 0 0 label
                 (tickCount (env w2))])
          (fw w2) in
    suppressionOf w1 = (s, now + 180)
    /\ forall w2,
         suppressionOf w2 = suppressionOf w1 ->
         let t := tickCount (env w2) in
         let room := (List.length (systemEventQueue (fw w2)) < 20)%nat in
         (locksGranted 1 w2 ->
          t < now + 180 ->
          fst (isAppCmdSuppressed s w2) = true
          /\ forall token label data ts,
               BLEManagerTask_parse token = Some (s, label) ->
               let r :=
                 BLEManagerTask_process (mkBLECommandMsg token data ts) w2 in
               fst r = true /\ fw (snd r) = fw w2)
         /\ (now + 180 <= t ->
             fst (isAppCmdSuppressed s w2) = false
             /\ forall token label data ts,
                  BLEManagerTask_parse token = Some (s, label) ->
                  room -> forwarded token data ts s label w2)
         /\ (nth 0 (lockScript (env w2)) true = false ->
             fst (isAppCmdSuppressed s w2) = false
             /\ forall token label data ts,
                  BLEManagerTask_parse token = Some (s, label) ->
                  room -> forwarded token data ts s label w2)
         /\ (forall s',
               s' <> s ->
               fst (isAppCmdSuppressed s' w2) = false
               /\ forall token label data ts,
                    BLEManagerTask_parse token = Some (s', label) ->
                    room -> forwarded token data ts s' label w2).
Proof.
  intros s w Hlock Hpos Hfit now w1 forwarded.
  assert (Hnow : 0 <= now).
  { subst now. unfold installTick.
    destruct (nth 0 (lockScript (env w)) true); [ exact Hpos | ].
    apply Z.mod_pos_bound. reflexivity. }
  assert (H1 : suppressionOf w1 = (s, now + 180)).
  { subst w1. rewrite burst_installs by exact Hlock.
    change (pdMS_TO_TICKS (burstSuppressionMs 3 30)) with 180.
    fold now. unfold uint32. rewrite Z.mod_small by (subst now; lia).
    reflexivity. }
  split; [ exact H1 | ].
  intros w2 H2 t room. rewrite H1 in H2.
  assert (Hgate : forall s', fst (isAppCmdSuppressed s' w2)
                             = nth 0 (lockScript (env w2)) true
                               && ((s' =? s) && (t <? now + 180))).
  { intro s'. rewrite isAppCmdSuppressed_spec, H2. reflexivity. }
  assert (Hthrough : forall s' token label data ts,
             fst (isAppCmdSuppressed s' w2) = false ->
             BLEManagerTask_parse token = Some (s', label) ->
             room -> forwarded token data ts s' label w2).
  { intros s' token label data ts Hsup Hparse Hroom. subst forwarded.
    cbv beta.
    rewrite (BLEManagerTask_process_forwards _ data ts _ _ w2 Hparse), Hsup.
    apply Nat.ltb_lt in Hroom. rewrite Hroom. reflexivity. }
  pose proof (keeps_fw_isAppCmdSuppressed s w2) as Hfw.
  split; [ | split; [ | split ] ].
  - intros Hlock2 Hbefore.
    assert (Hsup : fst (isAppCmdSuppressed s w2) = true).
    { rewrite Hgate, (Hlock2 O Nat.lt_0_1), Z.eqb_refl.
      apply Z.ltb_lt. exact Hbefore. }
    split; [ exact Hsup | ].
    intros token label data ts Hparse r. subst r.
    rewrite (BLEManagerTask_process_known _ _ _ _ _ _ Hparse), Hsup.
    split; [ reflexivity | exact Hfw ].
  - intro Hafter.
    assert (Hsup : fst (isAppCmdSuppressed s w2) = false).
    { rewrite Hgate, Z.eqb_refl. apply Z.ltb_ge in Hafter. rewrite Hafter.
      apply andb_false_r. }
    split; [ exact Hsup | ].
    intros token label data ts. apply Hthrough. exact Hsup.
  - intro Hrefused.
    assert (Hsup : fst (isAppCmdSuppressed s w2) = false)
      by (rewrite Hgate, Hrefused; reflexivity).
    split; [ exact Hsup | ].
    intros token label data ts. apply Hthrough. exact Hsup.
  - intros s' Hne.
    assert (Hsup : fst (isAppCmdSuppressed s' w2) = false).
    { rewrite Hgate. apply Z.eqb_neq in Hne. rewrite Hne.
      apply andb_false_r. }
    split; [ exact Hsup | ].
    intros token label data ts. apply Hthrough. exact Hsup.
Qed.

Lemma burst_suppression_window_witness :
  let w :=
    mkWorld (fw (world_in STATE_UNLOCK 1000)) (mkEnv 1000 [false; true] []) in
  let w1 := snd (sendBLEButtonIndicationBurst STATE_UNLOCK 3 30 true w) in
  suppressionOf w1 = (STATE_UNLOCK, 1200)
  /\ fst (isAppCmdSuppressed STATE_UNLOCK (checkedAt (fw w) 1199 [])) = false
  /\ fst (isAppCmdSuppressed STATE_UNLOCK (checkedAt (fw w1) 1199 [])) = true
  /\ fst (isAppCmdSuppressed STATE_UNLOCK (checkedAt (fw w1) 1199 [false]))
     = false.
Proof.
  intros w w1.
  assert (Hlock : nth 1 (lockScript (env w)) true = true) by reflexivity.
  assert (Hpos : 0 <= tickCount (env w)) by (cbn; lia).
  assert (Hfit : installTick w + 180 < UINT32_MOD)
    by (vm_compute; reflexivity).
  destruct (burst_suppression_window STATE_UNLOCK w Hlock Hpos Hfit)
    as [Hinst Hgate].
  split; [ exact Hinst | ]. split; [ vm_compute; reflexivity | ].
  split.
  - refine (proj1 (proj1 (Hgate _ _) _ _)).
    + vm_compute. reflexivity.
    + intros [ | k ] _; reflexivity.
    + vm_compute. reflexivity.
  - refine (proj1 (proj1 (proj2 (proj2 (Hgate _ _))) _)).
    + vm_compute. reflexivity.
    + reflexivity.
Defined.

(** The window only holds for a check that gets the state lock: a check
    that times out answers "not suppressed", and the command inside the
    window goes through. *)
Lemma burst_suppression_window_counterexample :
  let w := world_in STATE_UNLOCK 1000 in
  let installed :=
    fw (snd (startAppCmdSuppression STATE_UNLOCK (burstSuppressionMs 3 30)
               w)) in
  let w2 := checkedAt installed 1050 [false] in
  suppressionOf w2 = (STATE_UNLOCK, 1000 + (2 * 30 + 120))
  /\ tickCount (env w2) < 1000 + (2 * 30 + 120)
  /\ fst (isAppCmdSuppressed STATE_UNLOCK w2) = false
  /\ systemEventQueue
       (fw (snd (BLEManagerTask_process (mkBLECommandMsg "Unlock" "" 1050) w2)))
     = [mkSystemEventMsg EVENT_APP_COMMAND STATE_UNLOCK 0 0
          "App_Unlock_Command" 1050].
Proof. vm_compute. repeat split; reflexivity. Qed.

(** Near the end of the tick counter's range the deadline wraps around and
    a check made right after the install is not suppressed. *)
Lemma burst_suppression_deadline_wraps :
  let w := world_in STATE_UNLOCK (UINT32_MOD - 100) in
  let w1 := snd (sendBLEButtonIndicationBurst STATE_UNLOCK 3 30 true w) in
  suppressionOf w1 = (STATE_UNLOCK, 80)
  /\ fst (isAppCmdSuppressed STATE_UNLOCK
            (checkedAt (fw w1) (UINT32_MOD - 99) []))
     = false.
Proof. vm_compute. split; reflexivity. Qed.

(** ** Connection health *)

Lemma healthAfter_failure t h :
  indicationFailureCount (healthAfter t false h)
  = uint32 (indicationFailureCount h + 1)
  /\ (2 < indicationFailureCount (healthAfter t false h) ->
      connectionStable (healthAfter t false h) = false)
  /\ (indicationFailureCount (healthAfter t false h) <= 2 ->
      connectionStable (healthAfter t false h) = connectionStable h).
Proof.
  unfold healthAfter. cbn [indicationFailureCount set_indicationFailureCount].
  destruct (2 <? uint32 (indicationFailureCount h + 1)) eqn:E.
  - apply Z.ltb_lt in E. cbn. repeat split; [ lia ].
  - apply Z.ltb_ge in E. cbn. repeat split; lia.
Qed.

Lemma healthAfter_success t h :
  indicationFailureCount (healthAfter t true h) = 0
  /\ connectionStable (healthAfter t true h) = true.
Proof. split; reflexivity. Qed.

(** Below the top of the counter's range consecutive failures add up. *)
Lemma healthRun_failures n : forall t h,
  0 <= indicationFailureCount h ->
  indicationFailureCount h + Z.of_nat n < UINT32_MOD ->
  indicationFailureCount (healthRun (repeat (t, false) n) h)
  = indicationFailureCount h + Z.of_nat n.
Proof.
  induction n as [ | n IH ]; intros t h Hpos Hfit.
  - cbn. lia.
  - cbn [repeat healthRun fold_left fst snd].
    fold (healthRun (repeat (t, false) n) (healthAfter t false h)).
    destruct (healthAfter_failure t h) as (Hc & _).
    assert (Hstep : indicationFailureCount (healthAfter t false h)
                    = indicationFailureCount h + 1).
    { rewrite Hc. unfold uint32. apply Z.mod_small. lia. }
    rewrite IH; rewrite Hstep; lia.
Qed.

Lemma keeps_health_indicate i msg : keeps healthOf (indicate i msg).
Proof.
  intro w. unfold indicate. rewrite bind_run. cbn [modify_fw fst snd].
  cbn [env]. destruct (indicateScript (env w)) as [ | [ | ] rest ]; reflexivity.
Qed.

(** A throwing attempt. *)
Lemma indicate_fails i msg n w :
  attemptsFail (S n) w ->
  fst (indicate i msg w) = false
  /\ attemptsFail n (snd (indicate i msg w)).
Proof.
  intro H. unfold indicate. rewrite bind_run. cbn [modify_fw fst snd env].
  pose proof (H O (Nat.lt_0_succ n)) as H0.
  destruct (indicateScript (env w)) as [ | ok rest ] eqn:E;
    [ discriminate H0 | ].
  cbn in H0. subst ok. cbn. split; [ reflexivity | ].
  intros k Hk. specialize (H (S k) (proj1 (Nat.succ_lt_mono k n) Hk)).
  rewrite E in H. exact H.
Qed.

(** When every attempt throws the loop reports nothing sent and leaves the
    health record alone. *)
Lemma indicationRetries_all_fail i msg mx n : forall retry sa sent w,
  attemptsFail n w ->
  fst (indicationRetries i msg mx n retry sa sent w) = (sa, sent)
  /\ healthOf (snd (indicationRetries i msg mx n retry sa sent w))
     = healthOf w.
Proof.
  induction n as [ | n IH ]; intros retry sa sent w Hfail;
    cbn [indicationRetries].
  - split; reflexivity.
  - destruct (retry <? mx); [ | split; reflexivity ].
    rewrite bind_run.
    destruct (indicate_fails i msg n w Hfail) as [Hno Hrest].
    pose proof (keeps_health_indicate i msg w) as Hh.
    rewrite Hno. rewrite bind_run.
    set (w1 := snd (indicate i msg w)) in *.
    set (w2 := snd ((if retry <? mx - 1 then vTaskDelay (pdMS_TO_TICKS 150)
                     else ret tt) w1)).
    assert (H2 : attemptsFail n w2 /\ healthOf w2 = healthOf w1)
      by (subst w2; destruct (retry <? mx - 1); split;
          solve [ exact Hrest | reflexivity ]).
    destruct H2 as [Hf2 Hh2].
    destruct (IH (retry + 1) sa sent w2 Hf2) as [Hr Hk].
    split; [ exact Hr | ]. rewrite Hk, Hh2. exact Hh.
Qed.

(** Once an attempt has gone through the loop reports a send. *)
Lemma indicationRetries_sent i msg mx n : forall retry sa w,
  snd (fst (indicationRetries i msg mx n retry sa true w)) = true.
Proof.
  induction n as [ | n IH ]; intros retry sa w; cbn [indicationRetries].
  - reflexivity.
  - destruct (retry <? mx); [ | reflexivity ].
    rewrite bind_run. destruct (fst (indicate i msg w));
      rewrite bind_run; apply IH.
Qed.

Lemma indicationRetries_first_ok i msg mx w :
  0 < mx ->
  nth 0 (indicateScript (env w)) true = true ->
  snd (fst (indicationRetries i msg mx (Z.to_nat mx) 0 0 false w)) = true.
Proof.
  intros Hmx Hok. destruct (Z.to_nat mx) as [ | n ] eqn:E; [ lia | ].
  cbn [indicationRetries]. apply Z.ltb_lt in Hmx. rewrite Hmx.
  rewrite bind_run.
  assert (Hfst : fst (indicate i msg w) = true).
  { unfold indicate. rewrite bind_run. cbn [modify_fw fst snd env].
    destruct (indicateScript (env w)) as [ | ok rest ];
      [ reflexivity | exact Hok ]. }
  rewrite Hfst. rewrite !bind_run. apply indicationRetries_sent.
Qed.

(** A call that reaches the retry loop is that loop followed by the health
    update, run in a world with the same firmware state and the same
    attempt script. *)
Lemma sendBLEButtonIndication_reaches state w :
  reachesRetries state w ->
  exists i d mx w4,
    (mx = 3 \/ mx = 5)
    /\ fw w4 = fw w
    /\ indicateScript (env w4) = indicateScript (env w)
    /\ sendBLEButtonIndication state w
       = (r <- indicationRetries i (indicationMessage d) mx (Z.to_nat mx)
                 0 0 false ;;
          updateBLEConnectionHealth (snd r) ;;
          xSemaphoreGive bleMutex) w4.
Proof.
  intros (Hlock & (i & d & Hfind) & Hcur).
  unfold sendBLEButtonIndication. rewrite bind_run.
  set (w1 := snd (vTaskDelay (pdMS_TO_TICKS 20) w)).
  assert (Hl1 : locksGranted 2 w1) by exact Hlock.
  rewrite bind_run.
  destruct (locksGranted_take bleMutex (pdMS_TO_TICKS 200) _ _ Hl1)
    as [Hgot Hl2].
  destruct (take_granted _ _ _ Hgot) as (Hfw2 & _ & Hi2 & _).
  set (w2 := snd (xSemaphoreTake bleMutex (pdMS_TO_TICKS 200) w1)) in *.
  rewrite Hgot. rewrite bind_run.
  assert (Hst : snd (isBLEConnectionStable w2) = w2).
  { unfold isBLEConnectionStable, isBLEConnected. rewrite !bind_run.
    cbn [get_fw ret fst snd].
    destruct (negb (negb (Z.land (systemEvents (fw w2)) BLE_CONNECTED =? 0)));
      reflexivity. }
  rewrite Hst. rewrite bind_run. cbn [get_fw fst snd].
  rewrite Hfw2. change (fw w1) with (fw w). rewrite Hfind.
  rewrite !bind_run.
  destruct (locksGranted_take stateMutex (pdMS_TO_TICKS 10) _ _ Hl2)
    as [Hgot3 _].
  destruct (take_granted _ _ _ Hgot3) as (Hfw3 & _ & Hi3 & _).
  set (w3 := snd (xSemaphoreTake stateMutex (pdMS_TO_TICKS 10) w2)) in *.
  rewrite Hgot3. rewrite !bind_run.
  cbn [get_status xSemaphoreGive ret fst snd].
  rewrite Hfw3, Hfw2. change (fw w1) with (fw w).
  fold (statusOf w). rewrite Hcur, Z.eqb_refl. cbn [negb].
  exists i, d, (if negb (fst (isBLEConnectionStable w2)) then 5 else 3), w3.
  split; [ destruct (negb _); auto | ].
  split; [ rewrite Hfw3, Hfw2; reflexivity | ].
  split; [ rewrite Hi3, Hi2; reflexivity | ].
  reflexivity.
Qed.

(** C5: after any sequence of health updates, an update for a call whose
    attempts all failed adds one to [indicationFailureCount] (in 32-bit
    arithmetic; below the top of the range consecutive failures count up
    one by one), the record is unstable as soon as the count exceeds 2, and
    one update for a successful send puts the count back to 0 and marks the
    connection stable.  A call of [sendBLEButtonIndication] that reaches
    its retry loop makes exactly the failure update when every attempt
    throws, and the success update as soon as its first attempt goes
    through. *)
Theorem connection_health_updates :
  forall (updates : list (TickType_t * bool)) (h0 : BLEConnectionHealth_t),
    let h := healthRun updates h0 in
    (forall t,
       indicationFailureCount (healthAfter t false h)
       = uint32 (indicationFailureCount h + 1))
    /\ (forall t n,
          0 <= indicationFailureCount h ->
          indicationFailureCount h + Z.of_nat n < UINT32_MOD ->
          indicationFailureCount (healthRun (repeat (t, false) n) h)
          = indicationFailureCount h + Z.of_nat n)
    /\ (forall t,
          2 < indicationFailureCount (healthAfter t false h) ->
          connectionStable (healthAfter t false h) = false)
    /\ (forall t,
          indicationFailureCount (healthAfter t true h) = 0
          /\ connectionStable (healthAfter t true h) = true)
    /\ (forall state w,
          healthOf w = h ->
          reachesRetries state w ->
          let h' := healthOf (snd (sendBLEButtonIndication state w)) in
          (attemptsFail 5 w -> forall t, h' = healthAfter t false h)
          /\ (nth 0 (indicateScript (env w)) true = true ->
              indicationFailureCount h' = 0 /\ connectionStable h' = true)).
Proof.
  intros updates h0 h.
  split; [ intro t; apply healthAfter_failure | ].
  split; [ intros t n; apply healthRun_failures | ].
  split; [ intro t; apply healthAfter_failure | ].
  split; [ intro t; apply healthAfter_success | ].
  intros state w Hh Hreach h'.
  destruct (sendBLEButtonIndication_reaches state w Hreach)
    as (i & d & mx & w4 & Hmx & Hfw & Hscript & Hrun).
  subst h'. rewrite Hrun. rewrite !bind_run.
  cbn [xSemaphoreGive ret snd]. unfold updateBLEConnectionHealth.
  rewrite bind_run. cbn [xTaskGetTickCount fst snd].
  set (r := indicationRetries i (indicationMessage d) mx (Z.to_nat mx)
              0 0 false w4).
  split.
  - intros Hfail t.
    assert (Hfail4 : attemptsFail (Z.to_nat mx) w4).
    { intros k Hk. unfold attemptsFail in Hfail. rewrite Hscript.
      apply Hfail. destruct Hmx; subst mx; cbn in Hk; lia. }
    destruct (indicationRetries_all_fail i (indicationMessage d) mx
                (Z.to_nat mx) 0 0 false w4 Hfail4) as [Hr Hk].
    fold r in Hr, Hk. rewrite Hr. cbn [snd].
    unfold modify_health, modify_fw, healthOf in *. cbn [snd fw bleHealth].
    cbn [fw_set_bleHealth bleHealth]. rewrite Hk, Hfw, Hh. reflexivity.
  - intro Hok.
    assert (Hsent : snd (fst r) = true).
    { subst r. apply indicationRetries_first_ok.
      - destruct Hmx; subst mx; lia.
      - rewrite Hscript. exact Hok. }
    rewrite Hsent. split; reflexivity.
Qed.

Lemma connection_health_updates_witness :
  let h := healthRun [(10, true); (20, false); (30, false)] bleHealth_init in
  let w :=
    mkWorld (fw_set_bleHealth h (fw (world_in STATE_UNLOCK 5000)))
            (mkEnv 5000 [] [false; false; false; false; false]) in
  connectionStable h = true
  /\ indicationFailureCount (healthAfter 40 false h) = 3
  /\ connectionStable (healthAfter 40 false h) = false
  /\ indicationFailureCount (healthAfter 50 true (healthAfter 40 false h)) = 0
  /\ healthOf (snd (sendBLEButtonIndication STATE_UNLOCK w))
     = healthAfter 40 false h.
Proof.
  intros h w.
  destruct (connection_health_updates [(10, true); (20, false); (30, false)]
              bleHealth_init) as (H1 & _ & H3 & _ & H5).
  destruct (connection_health_updates
              [(10, true); (20, false); (30, false); (40, false)]
              bleHealth_init) as (_ & _ & _ & H4 & _).
  split; [ reflexivity | ]. split; [ exact (H1 40) | ].
  split; [ apply (H3 40); vm_compute; reflexivity | ].
  split; [ exact (proj1 (H4 50)) | ].
  refine (proj1 (H5 STATE_UNLOCK w _ _) _ 40).
  - reflexivity.
  - split; [ intros k _; destruct k as [ | [ | k ] ]; reflexivity | ].
    split; [ do 2 eexists; reflexivity | reflexivity ].
  - intros k Hk.
    do 5 (destruct k as [ | k ]; [ reflexivity | ]). lia.
Defined.

(** Every new connection and every disconnection starts the failure count
    again from 0, with the connection not yet stable. *)
Lemma connection_events_reset_health w :
  (indicationFailureCount
     (healthOf (snd (SystemBLEServerCallbacks_onConnect w))) = 0
   /\ connectionStable (healthOf (snd (SystemBLEServerCallbacks_onConnect w)))
      = false)
  /\ (indicationFailureCount
        (healthOf (snd (SystemBLEServerCallbacks_onDisconnect w))) = 0
      /\ connectionStable
           (healthOf (snd (SystemBLEServerCallbacks_onDisconnect w)))
         = false).
Proof.
  unfold SystemBLEServerCallbacks_onConnect,
    SystemBLEServerCallbacks_onDisconnect, xQueueSend, healthOf.
  rewrite !bind_run.
  cbn [xEventGroupSetBits xEventGroupClearBits xTaskGetTickCount modify_health
       modify_fw get_fw fst snd fw env systemEventQueueH q_items q_length
       q_store].
  split; split;
    match goal with
    | |- context [if ?b then _ else _] => destruct b
    end; reflexivity.
Qed.

(** ** The button classifier *)








(** ** The UI monitor *)

(** C8, as the code has it: processing a [UI_CMD_LOAD_SCREEN] command for
    the state the task displayed last, with [forceRefresh] and
    [highPriority] both false, never loads a screen and never changes
    [lastDisplayedState], [lastUIState] or [lastUIUpdateTime], whatever the
    locks do; when the display lock and then the state lock are acquired
    it adds exactly one to [uiMissedUpdates] (in 32-bit arithmetic); when
    the display lock times out, or the display lock is acquired and the
    state lock times out, the counter stays as it is. *)
Theorem loadScreen_same_state_is_skipped :
  forall uiMsg l w,
    ui_command uiMsg = UI_CMD_LOAD_SCREEN ->
    ui_state uiMsg = lastDisplayedState l ->
    ui_forceRefresh uiMsg = false ->
    ui_highPriority uiMsg = false ->
    let r := UIManagerTask_process uiMsg l w in
    let missed := uiMissedUpdates (statusOf w) in
    let displayLock := nth 0 (lockScript (env w)) true in
    let stateLock := nth 1 (lockScript (env w)) true in
    fst r = l
    /\ lastUIState (statusOf (snd r)) = lastUIState (statusOf w)
    /\ lastUIUpdateTime (statusOf (snd r)) = lastUIUpdateTime (statusOf w)
    /\ display (fw (snd r)) = display (fw w)
    /\ (locksGranted 2 w ->
        uiMissedUpdates (statusOf (snd r)) = uint32 (missed + 1)
        /\ (0 <= missed < UINT32_MOD - 1 ->
            uiMissedUpdates (statusOf (snd r)) = missed + 1))
    /\ (displayLock = false ->
        uiMissedUpdates (statusOf (snd r)) = missed)
    /\ (displayLock = true -> stateLock = false ->
        uiMissedUpdates (statusOf (snd r)) = missed)
    /\ uiMissedUpdates (statusOf (snd r))
       = if displayLock && stateLock then uint32 (missed + 1) else missed.
Proof.
  intros uiMsg l w Hcmd Hstate Hforce Hprio r missed displayLock stateLock.
  subst r missed displayLock stateLock.
  unfold UIManagerTask_process, UIManagerTask_loadScreenCase, handleSystemError.
  rewrite Hcmd, Hstate, Hforce, Hprio, Z.eqb_refl. cbn [negb orb].
  unfold locksGranted, xSemaphoreTake, statusOf.
  destruct w as [f e]. destruct e as [tick script attempts].
  destruct script as [ | [ | ] [ | [ | ] rest ] ];
    rewrite ?bind_run; cbn -[uint32 pdMS_TO_TICKS Z.add Z.sub];
    (split; [ reflexivity | ]); (split; [ reflexivity | ]);
    (split; [ reflexivity | ]); (split; [ reflexivity | ]);
    (split;
     [ intro Hg;
       pose proof (Hg 0%nat ltac:(lia)) as H0;
       pose proof (Hg 1%nat ltac:(lia)) as H1;
       cbn in H0, H1; try discriminate;
       (split; [ reflexivity | intro; unfold uint32; apply Z.mod_small; lia ])
     | ]);
    (split; [ intro H0; first [ discriminate H0 | reflexivity ] | ]);
    (split;
     [ intros H0 H1; first [ discriminate H0 | discriminate H1 | reflexivity ]
     | reflexivity ]).
Qed.

Lemma loadScreen_same_state_is_skipped_witness :
  let uiMsg :=
    mkUIRenderMsg UI_CMD_LOAD_SCREEN STATE_UNLOCK ANIM_NONE "" 0 false 0
      false false 4000 in
  let l := mkUILocals STATE_UNLOCK true 3000 in
  let w := world_in STATE_UNLOCK 5000 in
  fst (UIManagerTask_process uiMsg l w) = l
  /\ uiMissedUpdates (statusOf (snd (UIManagerTask_process uiMsg l w))) = 1.
Proof.
  intros uiMsg l w.
  destruct (loadScreen_same_state_is_skipped uiMsg l w eq_refl eq_refl
              eq_refl eq_refl) as (Hl & _ & _ & _ & Hm & _ & _ & _).
  split; [ exact Hl | ].
  refine (proj1 (Hm _)).
  intros [ | [ | k ] ] _; reflexivity.
Defined.

(** With the display lock granted but the state lock timed out, the skip
    happens and the counter does not move. *)
Lemma loadScreen_same_state_is_skipped_counterexample :
  let uiMsg :=
    mkUIRenderMsg UI_CMD_LOAD_SCREEN STATE_UNLOCK ANIM_NONE "" 0 false 0
      false false 4000 in
  let l := mkUILocals STATE_UNLOCK true 3000 in
  let w :=
    mkWorld (fw (world_in STATE_UNLOCK 5000)) (mkEnv 5000 [true; false] []) in
  lastDisplayedState l = ui_state uiMsg
  /\ fst (UIManagerTask_process uiMsg l w) = l
  /\ display (fw (snd (UIManagerTask_process uiMsg l w))) = display (fw w)
  /\ uiMissedUpdates (statusOf w) = 0
  /\ uiMissedUpdates (statusOf (snd (UIManagerTask_process uiMsg l w))) = 0.
Proof. vm_compute. repeat split; reflexivity. Qed.


(** The periodic check repairs a drift: with [STATE_RECORDING] current and
    [STATE_UNLOCK] last shown it queues a forced, high-priority load of the
    current state. *)
Example syncCheck_repairs_drift :
  let f := fw (world_in STATE_RECORDING 0) in
  let w :=
    mkWorld
      (fw_set_systemStatus (set_lastUIState STATE_UNLOCK (systemStatus f)) f)
      (env_calm 5000) in
  let r := UIManagerTask_syncCheck (mkUILocals STATE_UNLOCK true 2500) w in
  lastSyncCheck (fst r) = 5000
  /\ map (fun m => (ui_command m, ui_state m, ui_highPriority m,
                    ui_forceRefresh m))
       (uiRenderQueue (fw (snd r)))
     = [(UI_CMD_LOAD_SCREEN, STATE_RECORDING, true, true)]
  /\ display
       (fw (snd ((l <- UIManagerTask_syncCheck
                         (mkUILocals STATE_UNLOCK true 2500) ;;
                  UIManagerTask_iteration l) w)))
     = [ScrLoadAnim ui_Recording].
Proof. vm_compute. repeat split; reflexivity. Qed.

(** ** The watchdog *)

(** A pass that acquires the state lock restarts exactly on the two
    conditions, taken between the tick count read before and the status
    record read after what the other tasks did meanwhile. *)
Lemma WatchdogTask_pass_granted meanwhile sm ui w :
  locksGranted 1 (meanwhile w) ->
  fst (WatchdogTask_pass meanwhile sm ui w) = Restarted
  <-> watchdogTripsAt (tickCount (env w)) (meanwhile w).
Proof.
  intro Hlock.
  unfold WatchdogTask_pass, watchdogTripsAt, sinceActivityAt.
  rewrite bind_run. cbn [xTaskGetTickCount fst snd]. rewrite bind_run.
  cbn [interleave fst snd]. rewrite bind_run.
  destruct (locksGranted_take stateMutex (pdMS_TO_TICKS 100) _ _ Hlock)
    as [Hgot _].
  destruct (take_granted _ _ _ Hgot) as (Hfw & _).
  rewrite Hgot. rewrite !bind_run.
  cbn [get_status xSemaphoreGive ret fst snd]. rewrite Hfw.
  fold (statusOf (meanwhile w)).
  destruct (pdMS_TO_TICKS SYSTEM_WATCHDOG_MS
            <? uint32 (tickCount (env w)
                       - lastActivityTime (statusOf (meanwhile w))))
    eqn:Ea.
  - apply Z.ltb_lt in Ea. split; [ intros _; left; exact Ea | reflexivity ].
  - apply Z.ltb_ge in Ea.
    destruct (10 <? errorCount (statusOf (meanwhile w))) eqn:Ee.
    + apply Z.ltb_lt in Ee. split; [ intros _; right; exact Ee | reflexivity ].
    + apply Z.ltb_ge in Ee. rewrite !bind_run. cbn [ret fst].
      split; [ discriminate | intros [ H | H ]; lia ].
Qed.

Lemma WatchdogTask_iteration_granted sm ui w :
  locksGranted 1 w ->
  fst (WatchdogTask_iteration sm ui w) = Restarted <-> watchdogTrips w.
Proof.
  intro Hlock. apply (WatchdogTask_pass_granted (fun w => w) sm ui w Hlock).
Qed.







(** The watchdog timer's callback records activity when it gets the lock at
    once; the watchdog pass that follows does not see a stall. *)
Lemma systemWatchdogCallback_refreshes w :
  locksGranted 1 w ->
  sinceActivity (snd (systemWatchdogCallback w)) = 0
  /\ errorCount (statusOf (snd (systemWatchdogCallback w)))
     = errorCount (statusOf w).
Proof.
  intro Hlock. unfold systemWatchdogCallback. rewrite bind_run.
  destruct (locksGranted_take stateMutex 0 _ _ Hlock) as [Hgot _].
  destruct (take_granted _ _ _ Hgot) as (Hfw & Htick & _).
  rewrite Hgot. rewrite !bind_run.
  unfold sinceActivity, statusOf.
  cbn [xTaskGetTickCount modify_status modify_fw xSemaphoreGive ret fst snd
       fw env fw_set_systemStatus systemStatus set_lastActivityTime
       lastActivityTime errorCount].
  rewrite Z.sub_diag, Hfw. split; reflexivity.
Qed.

(** * Further properties of the firmware *)

(** ** Render commands *)

Ltac keeps_leaf :=
  let w := fresh "w" in
  intro w; unfold xSemaphoreTake; cbn;
  try match goal with
      | |- context [match lockScript ?e with _ => _ end] =>
          destruct (lockScript e) as [ | [ | ] ? ]
      end;
  reflexivity.

Ltac keeps_with extra :=
  repeat first
    [ apply keeps_ret
    | extra
    | solve [ auto with frame ]
    | progress cbv zeta
    | match goal with
      | |- keeps _ (if ?b then _ else _) => destruct b
      | |- keeps _ (match ?x with _ => _ end) => destruct x
      end
    | apply keeps_bind; [ | intro ]
    | solve [ keeps_leaf ] ].

Ltac keeps_auto := keeps_with fail.

Lemma keeps_of_status {A X} (g : SystemStatus_t -> X) (c : M A) :
  keeps statusOf c -> keeps (fun w => g (statusOf w)) c.
Proof. intros H w. cbn. now rewrite H. Qed.

(** The queue after a render command. *)
Lemma sendUICommandEnhanced_renders cmd state message duration fr hp w :
  let w' := snd (sendUICommandEnhanced cmd state message duration fr hp w) in
  let m := renderMsg cmd state message duration fr hp (tickCount (env w)) in
  rendersOf w'
  = (if (15 <=? List.length (rendersOf w))%nat
     then (if hp then [m] else rendersOf w)
     else rendersOf w ++ [m])%list
  /\ fw w' = fw_set_uiRenderQueue (rendersOf w') (fw w).
Proof.
  intros w' m. subst w' m.
  unfold sendUICommandEnhanced, xQueueSend, rendersOf.
  rewrite !bind_run.
  cbn [xTaskGetTickCount get_fw fst snd uiRenderQueueH q_items q_length
       q_store].
  destruct w as [f e]. cbn [fw env].
  rewrite Nat.leb_antisym.
  destruct (List.length (uiRenderQueue f) <? 15)%nat eqn:Hroom.
  - cbn [negb]. rewrite !bind_run. cbn [modify_fw ret fst snd fw].
    destruct f; cbn. split; reflexivity.
  - cbn [negb]. rewrite !bind_run. cbn [elapse modify_env ret fst snd].
    destruct hp.
    + rewrite !bind_run.
      cbn [xQueueReset modify_fw get_fw fst snd fw uiRenderQueueH q_items
           q_length q_store].
      destruct f; cbn. split; reflexivity.
    + destruct f; cbn. split; reflexivity.
Qed.

(** X1: a render command is appended when the render queue has room.  On a
    full queue (15 commands) a command of normal priority is dropped, while a
    high-priority one empties the queue and becomes its only element, so the
    pending commands are lost.  Nothing else in the firmware state changes,
    and the queue never grows beyond 15. *)
Theorem sendUICommandEnhanced_queue :
  forall cmd state message duration forceRefresh highPriority w,
    let w' :=
      snd (sendUICommandEnhanced cmd state message duration forceRefresh
             highPriority w) in
    let m :=
      renderMsg cmd state message duration forceRefresh highPriority
        (tickCount (env w)) in
    let full := (15 <=? List.length (rendersOf w))%nat in
    rendersOf w'
    = (if full then (if highPriority then [m] else rendersOf w)
       else rendersOf w ++ [m])%list
    /\ fw w' = fw_set_uiRenderQueue (rendersOf w') (fw w)
    /\ ((List.length (rendersOf w) <= 15)%nat ->
        (List.length (rendersOf w') <= 15)%nat).
Proof.
  intros cmd state message duration forceRefresh highPriority w w' m full.
  destruct (sendUICommandEnhanced_renders cmd state message duration
              forceRefresh highPriority w) as [Hq Hfw].
  fold w' in Hq, Hfw. fold m in Hq. fold full in Hq.
  split; [ exact Hq | ]. split; [ exact Hfw | ].
  intro Hle. rewrite Hq. subst full.
  destruct (15 <=? List.length (rendersOf w))%nat eqn:Hfull.
  - destruct highPriority; [ cbn; lia | exact Hle ].
  - apply Nat.leb_gt in Hfull. rewrite length_app. cbn. lia.
Qed.

(** ** What a transition leaves behind *)

Lemma transitionToState_unfold newState trigger :
  transitionToState newState trigger
  = (got <- xSemaphoreTake stateMutex (pdMS_TO_TICKS 100) ;;
     if got then
       st <- get_status ;;
       let oldState := currentState st in
       if STATE_MAX <=? enum_as_int newState then
         xSemaphoreGive stateMutex ;; ret false
       else
         executeStateExit oldState ;;
         now <- xTaskGetTickCount ;;
         modify_status (recordTransition oldState newState now) ;;
         (if isCriticalTransition oldState newState then
            modify_status (set_forceUIRefresh true)
          else ret tt) ;;
         transitionTail newState (isCriticalTransition oldState newState)
     else ret false).
Proof. reflexivity. Qed.

Lemma keeps_eventsOf_playBuzzer_from d c n : forall i,
  keeps eventsOf (playBuzzer_from d c n i).
Proof.
  induction n as [ | n IH ]; intro i; cbn [playBuzzer_from].
  - apply keeps_ret.
  - destruct (i <? c); [ | apply keeps_ret ].
    repeat (apply keeps_bind; [ | intro ]); try apply IH;
      try (destruct (i <? c - 1)); keeps_auto.
Qed.

Lemma keeps_eventsOf_playBuzzer d c : keeps eventsOf (playBuzzer d c).
Proof. apply keeps_eventsOf_playBuzzer_from. Qed.

Lemma keeps_eventsOf_exit s : keeps eventsOf (executeStateExit s).
Proof. unfold executeStateExit. keeps_auto. Qed.

Lemma keeps_eventsOf_entry s : keeps eventsOf (executeStateEntry s).
Proof.
  unfold executeStateEntry.
  keeps_with ltac:(apply keeps_eventsOf_playBuzzer).
Qed.

Lemma keeps_eventsOf_transition newState trigger :
  keeps eventsOf (transitionToState newState trigger).
Proof.
  unfold transitionToState.
  keeps_with ltac:(first [ apply keeps_eventsOf_entry
                         | apply keeps_eventsOf_exit ]).
Qed.

(** X2: entry actions, exit actions and the transition routine as a whole
    never queue a system event, whatever the outcome: a transition cannot
    request a further transition. *)
Theorem transition_requests_nothing :
  forall newState trigger s w,
    eventsOf (snd (transitionToState newState trigger w)) = eventsOf w
    /\ eventsOf (snd (executeStateEntry s w)) = eventsOf w
    /\ eventsOf (snd (executeStateExit s w)) = eventsOf w.
Proof.
  intros newState trigger s w.
  split; [ apply keeps_eventsOf_transition | ].
  split; [ apply keeps_eventsOf_entry | apply keeps_eventsOf_exit ].
Qed.

Lemma keeps_flagless_entry s :
  keeps (fun w => withoutScreenFlags (statusOf w)) (executeStateEntry s).
Proof.
  unfold executeStateEntry.
  keeps_with ltac:(solve [ apply keeps_of_status; auto with frame ]).
Qed.

Lemma timeoutMs_flagless s :
  stateTimeoutMs (withoutScreenFlags s) = stateTimeoutMs s
  /\ forceUIRefresh (withoutScreenFlags s) = forceUIRefresh s
  /\ currentState (withoutScreenFlags s) = currentState s.
Proof. repeat split. Qed.

(** What the part of a transition after the lock does. *)
Lemma transitionTail_effects newState critical w :
  let w' := snd (transitionTail newState critical w) in
  withoutScreenFlags (statusOf w') = withoutScreenFlags (statusOf w)
  /\ tm_active (stateTimeoutTimer (fw w')) = (0 <? stateTimeoutMs (statusOf w))
  /\ (0 < stateTimeoutMs (statusOf w) ->
      tm_period (stateTimeoutTimer (fw w'))
      = pdMS_TO_TICKS (stateTimeoutMs (statusOf w)))
  /\ (exists pre ts,
        rendersOf w'
        = (pre ++ [renderMsg UI_CMD_LOAD_SCREEN newState "" 0 critical true
                     ts])%list)
  /\ fst (transitionTail newState critical w) = true.
Proof.
  intro w'. subst w'. unfold transitionTail.
  rewrite bind_run. cbn [xSemaphoreGive ret fst snd]. rewrite bind_run.
  pose proof (keeps_flagless_entry newState w) as H2. cbn beta in H2.
  set (w2 := snd (executeStateEntry newState w)) in *.
  rewrite bind_run.
  pose proof (keeps_status_sendUICommandEnhanced UI_CMD_LOAD_SCREEN newState
                "" 0 critical true w2) as H3.
  destruct (sendUICommandEnhanced_renders UI_CMD_LOAD_SCREEN newState "" 0
              critical true w2) as [Hq _].
  cbn zeta in Hq.
  set (w3 := snd (sendUICommandEnhanced UI_CMD_LOAD_SCREEN newState "" 0
                    critical true w2)) in *.
  assert (Hms : stateTimeoutMs (statusOf w3) = stateTimeoutMs (statusOf w)).
  { rewrite H3. apply (f_equal stateTimeoutMs) in H2. exact H2. }
  assert (Hlast : exists pre ts,
             rendersOf w3
             = (pre ++ [renderMsg UI_CMD_LOAD_SCREEN newState "" 0 critical
                          true ts])%list).
  { rewrite Hq. destruct (15 <=? List.length (rendersOf w2))%nat.
    - exists [], (tickCount (env w2)). reflexivity.
    - exists (rendersOf w2), (tickCount (env w2)). reflexivity. }
  rewrite bind_run. cbn [get_status fst snd]. fold (statusOf w3).
  rewrite Hms. clearbody w3. clear Hq.
  destruct w3 as [f3 e3].
  destruct (0 <? stateTimeoutMs (statusOf w)) eqn:Hpos.
  - rewrite !bind_run.
    cbn [xTimerChangePeriod xTimerReset xTimerStart xTaskGetTickCount
         modify_fw ret fst snd fw env timer_store timer_of].
    unfold statusOf, rendersOf in *. cbn [fw] in *.
    destruct f3; cbn in *.
    split; [ rewrite H3; exact H2 | ]. split; [ reflexivity | ].
    split; [ reflexivity | ]. split; [ exact Hlast | reflexivity ].
  - rewrite !bind_run.
    cbn [xTimerStop modify_fw ret fst snd fw env timer_store timer_of].
    unfold statusOf, rendersOf in *. cbn [fw] in *.
    destruct f3; cbn in *.
    split; [ rewrite H3; exact H2 | ]. split; [ reflexivity | ].
    split; [ apply Z.ltb_ge in Hpos; lia | ].
    split; [ exact Hlast | reflexivity ].
Qed.

(** The world in which the part after the lock starts. *)
Lemma transitionToState_commit newState trigger w w' :
  transitionToState newState trigger w = (true, w') ->
  exists wc,
    w' = snd (transitionTail newState
                (isCriticalTransition (currentState (statusOf w)) newState)
                wc)
    /\ stateTimeoutMs (statusOf wc) = getStateTimeout newState
    /\ (isCriticalTransition (currentState (statusOf w)) newState = true ->
        forceUIRefresh (statusOf wc) = true).
Proof.
  rewrite transitionToState_unfold. rewrite !bind_run.
  pose proof (keeps_status_take stateMutex (pdMS_TO_TICKS 100) w) as Hst.
  destruct (xSemaphoreTake stateMutex (pdMS_TO_TICKS 100) w) as [got w1].
  cbn [fst snd] in *.
  destruct got; [ | discriminate ].
  rewrite bind_run. cbn [get_status fst snd].
  fold (statusOf w1). rewrite Hst. cbv zeta.
  destruct (STATE_MAX <=? enum_as_int newState); [ discriminate | ].
  intro H. apply (f_equal snd) in H. cbn [snd] in H. subst w'.
  rewrite bind_run.
  set (w2 := snd (executeStateExit (currentState (statusOf w)) w1)).
  rewrite bind_run. cbn [xTaskGetTickCount fst snd].
  rewrite bind_run.
  set (w3 := snd (modify_status
                    (recordTransition (currentState (statusOf w)) newState
                       (tickCount (env w2))) w2)).
  rewrite bind_run.
  eexists. split; [ reflexivity | ].
  destruct (isCriticalTransition (currentState (statusOf w)) newState).
  - split; [ reflexivity | intros _; reflexivity ].
  - split; [ reflexivity | discriminate ].
Qed.

(** X3: after every successful transition the status record holds the
    timeout budget of the new state (180 s for Setup and Login, 120 s for
    Unlock, 240 s for Recording and Uploading, 30 s for Error, none
    otherwise), and the state-timeout timer is armed with exactly that
    period when the budget is positive and stopped when it is zero. *)
Theorem transition_arms_timeout :
  forall newState trigger w w',
    transitionToState newState trigger w = (true, w') ->
    stateTimeoutMs (statusOf w') = getStateTimeout newState
    /\ tm_active (stateTimeoutTimer (fw w')) = (0 <? getStateTimeout newState)
    /\ (0 < getStateTimeout newState ->
        tm_period (stateTimeoutTimer (fw w')) = getStateTimeout newState).
Proof.
  intros newState trigger w w' H.
  destruct (transitionToState_commit _ _ _ _ H) as (wc & -> & Hms & _).
  destruct (transitionTail_effects newState
              (isCriticalTransition (currentState (statusOf w)) newState) wc)
    as (Hflag & Hact & Hper & _).
  cbn zeta in *. rewrite Hms in *.
  split.
  { apply (f_equal stateTimeoutMs) in Hflag.
    rewrite !(proj1 (timeoutMs_flagless _)) in Hflag.
    rewrite Hflag. exact Hms. }
  split; [ exact Hact | ].
  intro Hpos. rewrite (Hper Hpos).
  unfold getStateTimeout in *.
  repeat match goal with
  | |- context [if ?b then _ else _] => destruct b
  end; try reflexivity; lia.
Qed.

Lemma transition_arms_timeout_witness :
  let w' :=
    snd (transitionToState STATE_ERROR EVENT_ERROR
           (world_in STATE_RECORDING 9000)) in
  stateTimeoutMs (statusOf w') = 30000
  /\ tm_active (stateTimeoutTimer (fw w')) = true.
Proof.
  intro w'.
  destruct (transition_arms_timeout STATE_ERROR EVENT_ERROR
              (world_in STATE_RECORDING 9000) w') as (H1 & H2 & _).
  - vm_compute. reflexivity.
  - split; [ exact H1 | exact H2 ].
Defined.

(** X4: after every successful transition the last command in the render
    queue is the high-priority [UI_CMD_LOAD_SCREEN] for the new state, so the
    screen request of a transition is never lost; it is a forced refresh
    exactly for the three critical transitions Unlock to Recording, Recording
    to Uploading and Uploading to Unlock, and for those the status record's
    [forceUIRefresh] flag is set as well. *)
Theorem transition_requests_screen :
  forall newState trigger w w',
    transitionToState newState trigger w = (true, w') ->
    let critical :=
      isCriticalTransition (currentState (statusOf w)) newState in
    (exists pre ts,
       rendersOf w'
       = (pre ++ [renderMsg UI_CMD_LOAD_SCREEN newState "" 0 critical true
                    ts])%list)
    /\ (critical = true -> forceUIRefresh (statusOf w') = true)
    /\ (critical = true <->
        (currentState (statusOf w) = STATE_UNLOCK
         /\ newState = STATE_RECORDING)
        \/ (currentState (statusOf w) = STATE_RECORDING
            /\ newState = STATE_UPLOADING)
        \/ (currentState (statusOf w) = STATE_UPLOADING
            /\ newState = STATE_UNLOCK)).
Proof.
  intros newState trigger w w' H critical.
  destruct (transitionToState_commit _ _ _ _ H) as (wc & -> & _ & Hforce).
  fold critical in Hforce |- *.
  destruct (transitionTail_effects newState critical wc)
    as (Hflag & _ & _ & Hlast & _).
  cbn zeta in *.
  split; [ exact Hlast | ]. split.
  - intro Hc. apply (f_equal forceUIRefresh) in Hflag.
    rewrite !(proj1 (proj2 (timeoutMs_flagless _))) in Hflag.
    rewrite Hflag. apply Hforce. exact Hc.
  - subst critical. unfold isCriticalTransition.
    rewrite !orb_true_iff, !andb_true_iff, !Z.eqb_eq. tauto.
Qed.

Lemma transition_requests_screen_witness :
  let w' :=
    snd (transitionToState STATE_RECORDING EVENT_BUTTON_SHORT_PRESS
           (world_in STATE_UNLOCK 9000)) in
  forceUIRefresh (statusOf w') = true.
Proof.
  intro w'.
  destruct (transition_requests_screen STATE_RECORDING
              EVENT_BUTTON_SHORT_PRESS (world_in STATE_UNLOCK 9000) w')
    as (_ & H2 & _).
  - vm_compute. reflexivity.
  - apply H2. reflexivity.
Defined.

Lemma keeps_outside_entry s :
  keeps (fun w => outsideTransition (statusOf w)) (executeStateEntry s).
Proof.
  unfold executeStateEntry.
  keeps_with ltac:(solve [ apply keeps_of_status; auto with frame ]).
Qed.

Lemma keeps_outside_transition newState trigger :
  keeps (fun w => outsideTransition (statusOf w))
    (transitionToState newState trigger).
Proof.
  unfold transitionToState.
  keeps_with ltac:(first [ apply keeps_outside_entry
                         | solve [ apply keeps_of_status; auto with frame ] ]).
Qed.

(** X5: a transition, successful or not, writes no field of the status
    record besides the transition record, the timeout budget, the refresh
    flag and the three screen-variant flags.  In particular it never resets
    the error counter, never counts as activity for the watchdog and never
    touches the suppression window or what the UI last reported. *)
Theorem transition_footprint :
  forall newState trigger w,
    let w' := snd (transitionToState newState trigger w) in
    outsideTransition (statusOf w') = outsideTransition (statusOf w)
    /\ errorCount (statusOf w') = errorCount (statusOf w)
    /\ lastActivityTime (statusOf w') = lastActivityTime (statusOf w)
    /\ suppressionOf w' = suppressionOf w
    /\ lastUIState (statusOf w') = lastUIState (statusOf w).
Proof.
  intros newState trigger w w'.
  pose proof (keeps_outside_transition newState trigger w) as H.
  cbn beta in H. fold w' in H.
  split; [ exact H | ].
  unfold outsideTransition in H. unfold suppressionOf.
  injection H as H1 H2 H3 H4 H5 H6 H7 H8 H9 H10 H11.
  rewrite H9, H10. auto.
Qed.

(** ** The system manager *)

Lemma locksGranted_env k w1 w2 :
  lockScript (env w1) = lockScript (env w2) ->
  locksGranted k w1 -> locksGranted k w2.
Proof. intros E H j Hj. rewrite <- E. apply H. exact Hj. Qed.

(** One handled event, both locks granted. *)
Lemma SystemManagerTask_handle_granted event w :
  locksGranted 2 w -> ev_targetState event < STATE_MAX ->
  let r := SystemManagerTask_handle event w in
  fst r = true
  /\ currentState (statusOf (snd r)) = ev_targetState event
  /\ previousState (statusOf (snd r)) = currentState (statusOf w)
  /\ lastActivityTime (statusOf (snd r)) = tickCount (env w)
  /\ eventsOf (snd r) = eventsOf w.
Proof.
  intros Hlock Hmax r. subst r. unfold SystemManagerTask_handle.
  rewrite bind_run.
  destruct (locksGranted_take stateMutex (pdMS_TO_TICKS 100) _ _ Hlock)
    as [Hgot Hlock1].
  destruct (take_granted _ _ _ Hgot) as (Hfw & Htick & _).
  set (w1 := snd (xSemaphoreTake stateMutex (pdMS_TO_TICKS 100) w)) in *.
  rewrite Hgot. rewrite bind_run.
  set (w2 := snd ((now <- xTaskGetTickCount ;;
                   modify_status (set_lastActivityTime now) ;;
                   xSemaphoreGive stateMutex) w1)).
  assert (Henv : env w2 = env w1) by reflexivity.
  assert (Hst : statusOf w2
                = set_lastActivityTime (tickCount (env w)) (statusOf w)).
  { subst w2. unfold statusOf. rewrite <- Hfw, <- Htick. reflexivity. }
  assert (Hev : eventsOf w2 = eventsOf w).
  { subst w2. unfold eventsOf. rewrite <- Hfw. reflexivity. }
  assert (Hlock2 : locksGranted 1 w2).
  { apply (locksGranted_env 1 w1); [ now rewrite Henv | exact Hlock1 ]. }
  pose proof (transitionToState_succeeds (ev_targetState event)
                (ev_event event) w2 Hlock2 Hmax) as Hok.
  pose proof (keeps_outside_transition (ev_targetState event)
                (ev_event event) w2) as Hout.
  pose proof (keeps_eventsOf_transition (ev_targetState event)
                (ev_event event) w2) as Hkeep.
  destruct (transitionToState (ev_targetState event) (ev_event event) w2)
    as [done w3] eqn:Hrun.
  cbn [fst snd] in *. subst done.
  destruct (transitionToState_true _ _ _ _ Hrun) as (_ & _ & Hrec).
  unfold transitionRecord in Hrec. injection Hrec as Hc Hp _.
  split; [ reflexivity | ]. split; [ exact Hc | ].
  split; [ rewrite Hp, Hfw; reflexivity | ].
  split; [ | rewrite Hkeep; exact Hev ].
  assert (Ha : lastActivityTime (statusOf w3)
               = lastActivityTime (statusOf w2))
    by (unfold outsideTransition in Hout; congruence).
  rewrite Ha, Hst. reflexivity.
Qed.

(** One pass over a queued event, both locks granted. *)
Lemma SystemManagerTask_iteration_event event rest w :
  eventsOf w = event :: rest ->
  locksGranted 2 w ->
  ev_targetState event < STATE_MAX ->
  let r := SystemManagerTask_iteration w in
  fst r = Some true
  /\ currentState (statusOf (snd r)) = ev_targetState event
  /\ previousState (statusOf (snd r)) = currentState (statusOf w)
  /\ lastActivityTime (statusOf (snd r)) = tickCount (env w)
  /\ eventsOf (snd r) = rest.
Proof.
  intros Hq Hlock Hmax r. subst r.
  unfold SystemManagerTask_iteration. rewrite bind_run.
  cbn [get_fw fst snd]. unfold eventsOf in Hq. rewrite Hq.
  rewrite bind_run.
  set (w1 := snd (modify_fw (fw_set_systemEventQueue rest) w)).
  assert (Hlock1 : locksGranted 2 w1).
  { apply (locksGranted_env 2 w); [ reflexivity | exact Hlock ]. }
  destruct (SystemManagerTask_handle_granted event w1 Hlock1 Hmax)
    as (Hok & Hc & Hp & Ha & He).
  rewrite bind_run. cbn [ret fst snd]. rewrite Hok.
  split; [ reflexivity | ]. split; [ exact Hc | ].
  split; [ rewrite Hp; reflexivity | ].
  split; [ rewrite Ha; reflexivity | ].
  rewrite He. reflexivity.
Qed.

(** X6: one pass of the system manager takes the oldest event off the queue
    and, with the state lock free, moves the machine to the target state the
    event carries, whatever the current state is: the manager checks no
    transition table.  The pass stamps the watchdog's activity time with the
    tick count at its start and queues no event of its own. *)
Theorem SystemManagerTask_follows_event :
  forall event rest w,
    eventsOf w = event :: rest ->
    locksGranted 2 w ->
    ev_targetState event < STATE_MAX ->
    let r := SystemManagerTask_iteration w in
    fst r = Some true
    /\ currentState (statusOf (snd r)) = ev_targetState event
    /\ previousState (statusOf (snd r)) = currentState (statusOf w)
    /\ lastActivityTime (statusOf (snd r)) = tickCount (env w)
    /\ eventsOf (snd r) = rest.
Proof.
  intros event rest w Hq Hlock Hmax r. subst r.
  destruct (SystemManagerTask_iteration_event event rest w Hq Hlock Hmax)
    as (Hok & Hc & Hp & Ha & He).
  split; [ exact Hok | ]. split; [ exact Hc | ].
  split; [ exact Hp | ]. split; [ exact Ha | exact He ].
Qed.

Lemma SystemManagerTask_follows_event_witness :
  let w :=
    snd (stateTimeoutCallback (world_in STATE_UPLOADING 240000)) in
  let r := SystemManagerTask_iteration w in
  fst r = Some true
  /\ currentState (statusOf (snd r)) = STATE_LOGO
  /\ eventsOf (snd r) = [].
Proof.
  intros w r.
  destruct (SystemManagerTask_follows_event
              (mkSystemEventMsg EVENT_TIMEOUT STATE_LOGO 0 0 "StateTimeout"
                 240000)
              [] w) as (H1 & H2 & _ & _ & H5).
  - vm_compute. reflexivity.
  - intros k Hk. vm_compute. destruct k; reflexivity.
  - vm_compute. reflexivity.
  - split; [ exact H1 | ]. split; [ exact H2 | exact H5 ].
Defined.

(** ** Screen timers *)

Lemma keeps_playBuzzer {X} (proj : World -> X) d c :
  (forall p l, keeps proj (digitalWrite p l)) ->
  (forall n, keeps proj (vTaskDelay n)) ->
  keeps proj (playBuzzer d c).
Proof.
  intros Hd Ht. unfold playBuzzer. generalize 0 as i.
  induction (Z.to_nat c) as [ | n IH ]; intro i; cbn [playBuzzer_from].
  - apply keeps_ret.
  - destruct (i <? c); [ | apply keeps_ret ].
    repeat (apply keeps_bind; [ | intro ]);
      try apply IH; try apply Hd; try apply Ht.
    destruct (i <? c - 1); [ apply Ht | apply keeps_ret ].
Qed.

Ltac keeps_all :=
  keeps_with ltac:(solve [ apply keeps_playBuzzer; intros; keeps_leaf ]).

Lemma executeStateExit_timers s w :
  screenTimers (snd (executeStateExit s w))
  = (if s =? STATE_LOGO then false else fst (screenTimers w),
     if s =? STATE_LOGIN then false else snd (screenTimers w)).
Proof.
  unfold executeStateExit.
  destruct (s =? STATE_LOGO) eqn:E1.
  { apply Z.eqb_eq in E1. subst s. reflexivity. }
  destruct ((s =? STATE_RECORDING) || (s =? STATE_UPLOADING)) eqn:E2.
  { assert (E3 : (s =? STATE_LOGIN) = false).
    { apply orb_true_iff in E2. destruct E2 as [E2 | E2];
        apply Z.eqb_eq in E2; subst s; reflexivity. }
    rewrite E3.
    assert (K : keeps screenTimers
                  (sendUICommand UI_CMD_STOP_ANIMATION s "" 0)).
    { unfold sendUICommand, sendUICommandEnhanced, xQueueSend, xQueueReset.
      keeps_auto. }
    rewrite K. reflexivity. }
  destruct (s =? STATE_LOGIN); [ reflexivity | ].
  reflexivity.
Qed.

Lemma xTimerStart_timers t w :
  screenTimers (snd (xTimerStart t w))
  = match t with
    | logoSwitchTimerH => (true, snd (screenTimers w))
    | loginScreenTimerH => (fst (screenTimers w), true)
    | stateTimeoutTimerH => screenTimers w
    end.
Proof. destruct t; reflexivity. Qed.

Lemma executeStateEntry_timers s w :
  screenTimers (snd (executeStateEntry s w))
  = (if s =? STATE_LOGO then true else fst (screenTimers w),
     if s =? STATE_LOGIN then true else snd (screenTimers w)).
Proof.
  unfold executeStateEntry.
  destruct (s =? STATE_LOGO) eqn:E1.
  { apply Z.eqb_eq in E1. subst s. cbn [Z.eqb STATE_LOGO STATE_LOGIN].
    change (screenTimers
              (snd (xTimerStart logoSwitchTimerH
                 (snd ((playBuzzer 100 1 ;;
                        updateLEDs 1 ;;
                        got <- xSemaphoreTake stateMutex (pdMS_TO_TICKS 50) ;;
                        (if got then
                           modify_status (set_isLogoAlt false) ;;
                           xSemaphoreGive stateMutex
                         else ret tt)) w))))
            = (true, snd (screenTimers w))).
    rewrite xTimerStart_timers.
    match goal with
    | |- context [snd (?c w)] =>
        assert (K : keeps screenTimers c) by (unfold updateLEDs; keeps_all);
        rewrite (K w)
    end.
    reflexivity. }
  destruct (s =? STATE_SETUP) eqn:E2.
  { apply Z.eqb_eq in E2. subst s. cbn [Z.eqb STATE_SETUP STATE_LOGIN].
    match goal with
    | |- context [snd (?c w)] =>
        assert (K : keeps screenTimers c)
          by (unfold updateLEDs, showMessage, sendUICommand,
                sendUICommandEnhanced, xQueueSend, xQueueReset; keeps_all);
        rewrite (K w)
    end.
    reflexivity. }
  destruct (s =? STATE_LOGIN) eqn:E3.
  { change (screenTimers
              (snd (xTimerReset loginScreenTimerH
                 (snd ((playBuzzer 150 1 ;;
                        updateLEDs s ;;
                        showMessage "Hold button for 2 sec" 3000 false ;;
                        got <- xSemaphoreTake stateMutex (pdMS_TO_TICKS 50) ;;
                        (if got then
                           modify_status (set_isLoginFirstScreen true) ;;
                           xSemaphoreGive stateMutex
                         else ret tt)) w))))
            = (fst (screenTimers w), true)).
    unfold xTimerReset. rewrite xTimerStart_timers.
    match goal with
    | |- context [snd (?c w)] =>
        assert (K : keeps screenTimers c)
          by (unfold updateLEDs, showMessage, sendUICommand,
                sendUICommandEnhanced, xQueueSend, xQueueReset; keeps_all);
        rewrite (K w)
    end.
    reflexivity. }
  match goal with
  | |- context [snd (?c w)] =>
      assert (K : keeps screenTimers c)
        by (unfold updateLEDs, showMessage, sendUICommand,
              sendUICommandEnhanced, xQueueSend, xQueueReset; keeps_all);
      rewrite (K w)
  end.
  reflexivity.
Qed.

Lemma transitionTail_timers newState critical w :
  screenTimers (snd (transitionTail newState critical w))
  = (if newState =? STATE_LOGO then true else fst (screenTimers w),
     if newState =? STATE_LOGIN then true else snd (screenTimers w)).
Proof.
  unfold transitionTail. rewrite bind_run. cbn [xSemaphoreGive ret fst snd].
  rewrite bind_run.
  rewrite <- (executeStateEntry_timers newState w).
  match goal with
  | |- screenTimers (snd (?c ?w2)) = _ =>
      assert (K : keeps screenTimers c)
        by (unfold sendUICommandEnhanced, xQueueSend, xQueueReset,
              xTimerChangePeriod, xTimerReset, xTimerStart, xTimerStop;
            keeps_auto);
      rewrite (K w2)
  end.
  reflexivity.
Qed.

(** A refused call leaves the firmware state as it was. *)
Lemma transitionToState_false newState trigger w :
  fst (transitionToState newState trigger w) = false ->
  fw (snd (transitionToState newState trigger w)) = fw w.
Proof.
  rewrite transitionToState_unfold. rewrite bind_run.
  pose proof (keeps_fw_take stateMutex (pdMS_TO_TICKS 100) w) as Hfw.
  destruct (xSemaphoreTake stateMutex (pdMS_TO_TICKS 100) w) as [got w1].
  cbn [fst snd] in *. destruct got; [ | intros _; exact Hfw ].
  rewrite bind_run. cbn [get_status fst snd]. cbv zeta.
  destruct (STATE_MAX <=? enum_as_int newState);
    [ intros _; exact Hfw | ].
  rewrite !bind_run.
  match goal with
  | |- fst (transitionTail ?n ?c ?x) = false -> _ =>
      destruct (transitionTail_effects n c x) as (_ & _ & _ & _ & Hok);
      rewrite Hok
  end.
  discriminate.
Qed.

Lemma transitionToState_timers newState trigger w w' :
  transitionToState newState trigger w = (true, w') ->
  screenTimers w'
  = (if newState =? STATE_LOGO then true
     else if currentState (statusOf w) =? STATE_LOGO then false
     else fst (screenTimers w),
     if newState =? STATE_LOGIN then true
     else if currentState (statusOf w) =? STATE_LOGIN then false
     else snd (screenTimers w)).
Proof.
  rewrite transitionToState_unfold. rewrite !bind_run.
  pose proof (keeps_fw_take stateMutex (pdMS_TO_TICKS 100) w) as Hfw.
  destruct (xSemaphoreTake stateMutex (pdMS_TO_TICKS 100) w) as [got w1].
  cbn [fst snd] in *.
  destruct got; [ | discriminate ].
  rewrite bind_run. cbn [get_status fst snd].
  rewrite Hfw. fold (statusOf w). cbv zeta.
  destruct (STATE_MAX <=? enum_as_int newState); [ discriminate | ].
  intro H. apply (f_equal snd) in H. cbn [snd] in H. subst w'.
  rewrite bind_run.
  pose proof (executeStateExit_timers (currentState (statusOf w)) w1) as Hx.
  set (w2 := snd (executeStateExit (currentState (statusOf w)) w1)) in *.
  rewrite bind_run. cbn [xTaskGetTickCount fst snd].
  rewrite bind_run.
  set (w3 := snd (modify_status
                    (recordTransition (currentState (statusOf w)) newState
                       (tickCount (env w2))) w2)).
  rewrite bind_run. rewrite transitionTail_timers.
  assert (H3 : screenTimers
                 (snd ((if isCriticalTransition (currentState (statusOf w))
                             newState
                        then modify_status (set_forceUIRefresh true)
                        else ret tt) w3))
               = screenTimers w2).
  { destruct (isCriticalTransition (currentState (statusOf w)) newState);
      reflexivity. }
  rewrite H3, Hx.
  assert (H1 : screenTimers w1 = screenTimers w)
    by (unfold screenTimers; rewrite Hfw; reflexivity).
  rewrite H1. cbn [fst snd]. reflexivity.
Qed.

(** X7: the logo-rotation timer runs in the Logo state only and the
    login-phase timer in the Login state only: every call of
    [transitionToState] keeps this, and after a successful transition the
    logo timer runs if and only if the new state is Logo, the login timer if
    and only if it is Login. *)
Theorem screen_timers_follow_state :
  forall newState trigger w,
    screenTimersFollowState w ->
    let r := transitionToState newState trigger w in
    screenTimersFollowState (snd r)
    /\ (fst r = true ->
        screenTimers (snd r)
        = (newState =? STATE_LOGO, newState =? STATE_LOGIN)).
Proof.
  intros newState trigger w [Hlogo Hlogin] r. subst r.
  destruct (transitionToState newState trigger w) as [ok w'] eqn:Hrun.
  cbn [fst snd]. destruct ok.
  - pose proof (transitionToState_timers _ _ _ _ Hrun) as Ht.
    destruct (transitionToState_true _ _ _ _ Hrun) as (_ & _ & Hrec).
    unfold transitionRecord in Hrec.
    assert (Hc : currentState (statusOf w') = newState) by congruence.
    assert (Heq : screenTimers w'
                  = (newState =? STATE_LOGO, newState =? STATE_LOGIN)).
    { rewrite Ht. f_equal.
      - destruct (newState =? STATE_LOGO); [ reflexivity | ].
        destruct (currentState (statusOf w) =? STATE_LOGO) eqn:E;
          [ reflexivity | ].
        destruct (fst (screenTimers w)); [ | reflexivity ].
        rewrite (Hlogo eq_refl) in E. discriminate.
      - destruct (newState =? STATE_LOGIN); [ reflexivity | ].
        destruct (currentState (statusOf w) =? STATE_LOGIN) eqn:E;
          [ reflexivity | ].
        destruct (snd (screenTimers w)); [ | reflexivity ].
        rewrite (Hlogin eq_refl) in E. discriminate. }
    split; [ | intros _; exact Heq ].
    unfold screenTimersFollowState. rewrite Heq, Hc. cbn [fst snd].
    split; intro H; apply Z.eqb_eq in H; exact H.
  - split; [ | discriminate ].
    pose proof (transitionToState_false newState trigger w) as Hfw.
    rewrite Hrun in Hfw. cbn [fst snd] in Hfw. specialize (Hfw eq_refl).
    unfold screenTimersFollowState, screenTimers, statusOf in *.
    rewrite Hfw. split; assumption.
Qed.

Lemma screen_timers_follow_state_witness :
  let r :=
    transitionToState STATE_UNLOCK EVENT_BUTTON_LONG_PRESS
      (snd (transitionToState STATE_LOGIN EVENT_BLE_CONNECTED
              (world_in STATE_LOGO 0))) in
  screenTimers (snd r) = (false, false).
Proof.
  intro r.
  destruct (screen_timers_follow_state STATE_UNLOCK EVENT_BUTTON_LONG_PRESS
              (snd (transitionToState STATE_LOGIN EVENT_BLE_CONNECTED
                      (world_in STATE_LOGO 0)))) as [_ H].
  - vm_compute. split; intro E; first [ discriminate E | reflexivity ].
  - apply H. vm_compute. reflexivity.
Defined.

(** ** Stale timers *)

(** A high-priority command ends up last in the queue. *)
Lemma sendUICommandEnhanced_last cmd state message duration fr w :
  exists pre,
    rendersOf (snd (sendUICommandEnhanced cmd state message duration fr true
                      w))
    = (pre ++ [renderMsg cmd state message duration fr true
                 (tickCount (env w))])%list.
Proof.
  destruct (sendUICommandEnhanced_renders cmd state message duration fr true
              w) as [Hq _].
  cbn zeta in Hq. rewrite Hq.
  destruct (15 <=? List.length (rendersOf w))%nat.
  - exists []. reflexivity.
  - exists (rendersOf w). reflexivity.
Qed.

Lemma keeps_record_sendUICommandEnhanced cmd s msg d fr hp :
  keeps transitionRecord (sendUICommandEnhanced cmd s msg d fr hp).
Proof. apply keeps_status_record. auto with frame. Qed.

Ltac keeps_record :=
  keeps_with
    ltac:(idtac;
          match goal with
          | |- keeps _ (sendUICommandEnhanced _ _ _ _ _ _) =>
              apply keeps_record_sendUICommandEnhanced
          | |- keeps _ (modify_status _) =>
              apply keeps_record_modify_status; intro; cbn; auto
          | |- keeps _ (xSemaphoreTake _ _) =>
              apply keeps_status_record; auto with frame
          end).

Lemma loginScreenTimerCallback_record :
  keeps transitionRecord loginScreenTimerCallback.
Proof.
  unfold loginScreenTimerCallback.
  keeps_record.
Qed.

Lemma logoSwitchTimerCallback_record :
  keeps transitionRecord logoSwitchTimerCallback.
Proof.
  unfold logoSwitchTimerCallback.
  keeps_record.
Qed.

Lemma loginScreenTimerCallback_stale w :
  currentState (statusOf w) <> STATE_LOGIN ->
  fw (snd (loginScreenTimerCallback w)) = fw w.
Proof.
  intro Hs. apply Z.eqb_neq in Hs.
  unfold loginScreenTimerCallback. rewrite bind_run.
  pose proof (keeps_fw_take stateMutex (pdMS_TO_TICKS 100) w) as Hfw.
  destruct (xSemaphoreTake stateMutex (pdMS_TO_TICKS 100) w) as [got w1].
  cbn [fst snd] in *. destruct got; [ | exact Hfw ].
  rewrite bind_run. cbn [get_status fst snd].
  rewrite Hfw. fold (statusOf w). rewrite Hs. exact Hfw.
Qed.

Lemma logoSwitchTimerCallback_stale w :
  currentState (statusOf w) <> STATE_LOGO ->
  fw (snd (logoSwitchTimerCallback w)) = fw w.
Proof.
  intro Hs. apply Z.eqb_neq in Hs.
  unfold logoSwitchTimerCallback. rewrite bind_run.
  pose proof (keeps_fw_take stateMutex (pdMS_TO_TICKS 50) w) as Hfw.
  destruct (xSemaphoreTake stateMutex (pdMS_TO_TICKS 50) w) as [got w1].
  cbn [fst snd] in *. destruct got; [ | exact Hfw ].
  rewrite bind_run. cbn [get_status fst snd].
  rewrite Hfw. fold (statusOf w). rewrite Hs. exact Hfw.
Qed.

Lemma loginScreenTimerCallback_fires w :
  currentState (statusOf w) = STATE_LOGIN -> locksGranted 1 w ->
  let w' := snd (loginScreenTimerCallback w) in
  statusOf w' = set_isLoginFirstScreen false (statusOf w)
  /\ exists pre,
       rendersOf w'
       = (pre ++ [renderMsg UI_CMD_LOAD_SCREEN STATE_LOGIN "Login Phase 2" 0
                    true true (tickCount (env w))])%list.
Proof.
  intros Hs Hlock w'. subst w'.
  unfold loginScreenTimerCallback. rewrite bind_run.
  destruct (locksGranted_take stateMutex (pdMS_TO_TICKS 100) _ _ Hlock)
    as [Hgot _].
  destruct (take_granted _ _ _ Hgot) as (Hfw & Htick & _).
  set (w1 := snd (xSemaphoreTake stateMutex (pdMS_TO_TICKS 100) w)) in *.
  rewrite Hgot. rewrite bind_run. cbn [get_status fst snd].
  rewrite Hfw. fold (statusOf w). rewrite Hs. cbn [Z.eqb STATE_LOGIN].
  rewrite Pos.eqb_refl. rewrite !bind_run.
  cbn [xSemaphoreGive ret fst snd].
  set (w2 := snd (modify_status (set_isLoginFirstScreen false) w1)).
  assert (H2 : statusOf w2 = set_isLoginFirstScreen false (statusOf w)).
  { subst w2. unfold statusOf. cbn. rewrite Hfw. reflexivity. }
  assert (Ht2 : tickCount (env w2) = tickCount (env w)) by exact Htick.
  split.
  - rewrite keeps_status_sendUICommandEnhanced. exact H2.
  - rewrite <- Ht2. apply sendUICommandEnhanced_last.
Qed.

Lemma logoSwitchTimerCallback_fires w :
  currentState (statusOf w) = STATE_LOGO -> locksGranted 1 w ->
  let w' := snd (logoSwitchTimerCallback w) in
  statusOf w' = set_isLogoAlt (negb (isLogoAlt (statusOf w))) (statusOf w)
  /\ exists pre,
       rendersOf w'
       = (pre ++ [renderMsg UI_CMD_LOAD_SCREEN STATE_LOGO "Logo Rotate" 0
                    true true (tickCount (env w))])%list.
Proof.
  intros Hs Hlock w'. subst w'.
  unfold logoSwitchTimerCallback. rewrite bind_run.
  destruct (locksGranted_take stateMutex (pdMS_TO_TICKS 50) _ _ Hlock)
    as [Hgot _].
  destruct (take_granted _ _ _ Hgot) as (Hfw & Htick & _).
  set (w1 := snd (xSemaphoreTake stateMutex (pdMS_TO_TICKS 50) w)) in *.
  rewrite Hgot. rewrite bind_run. cbn [get_status fst snd].
  rewrite Hfw. fold (statusOf w). rewrite Hs. cbn [Z.eqb STATE_LOGO].
  rewrite Pos.eqb_refl. rewrite !bind_run.
  cbn [xSemaphoreGive ret fst snd].
  set (w2 := snd (modify_status
                    (fun s => set_isLogoAlt (negb (isLogoAlt s)) s) w1)).
  assert (H2 : statusOf w2
               = set_isLogoAlt (negb (isLogoAlt (statusOf w))) (statusOf w)).
  { subst w2. unfold statusOf. cbn. rewrite Hfw. reflexivity. }
  assert (Ht2 : tickCount (env w2) = tickCount (env w)) by exact Htick.
  split.
  - rewrite keeps_status_sendUICommandEnhanced. exact H2.
  - rewrite <- Ht2. apply sendUICommandEnhanced_last.
Qed.

(** X8: the two screen-timer callbacks never change the state machine's
    transition record.  A callback that fires after the machine has left its
    state (Login for the login-phase timer, Logo for the logo-rotation timer)
    changes nothing in the firmware state, with or without the lock.  In its
    own state and with the lock, the login-phase callback clears
    [isLoginFirstScreen], the logo-rotation callback flips [isLogoAlt], and
    each queues a forced, high-priority reload of its own state as the last
    render command. *)
Theorem screen_timer_callbacks_guarded :
  forall w,
    let w1 := snd (loginScreenTimerCallback w) in
    let w2 := snd (logoSwitchTimerCallback w) in
    (transitionRecord w1 = transitionRecord w
     /\ transitionRecord w2 = transitionRecord w)
    /\ (currentState (statusOf w) <> STATE_LOGIN -> fw w1 = fw w)
    /\ (currentState (statusOf w) <> STATE_LOGO -> fw w2 = fw w)
    /\ (currentState (statusOf w) = STATE_LOGIN -> locksGranted 1 w ->
        statusOf w1 = set_isLoginFirstScreen false (statusOf w)
        /\ exists pre,
             rendersOf w1
             = (pre ++ [renderMsg UI_CMD_LOAD_SCREEN STATE_LOGIN
                          "Login Phase 2" 0 true true (tickCount (env w))])
               %list)
    /\ (currentState (statusOf w) = STATE_LOGO -> locksGranted 1 w ->
        statusOf w2
        = set_isLogoAlt (negb (isLogoAlt (statusOf w))) (statusOf w)
        /\ exists pre,
             rendersOf w2
             = (pre ++ [renderMsg UI_CMD_LOAD_SCREEN STATE_LOGO
                          "Logo Rotate" 0 true true (tickCount (env w))])
               %list).
Proof.
  intros w w1 w2. subst w1 w2.
  split; [ split | ].
  - apply loginScreenTimerCallback_record.
  - apply logoSwitchTimerCallback_record.
  - split; [ apply loginScreenTimerCallback_stale | ].
    split; [ apply logoSwitchTimerCallback_stale | ].
    split; intros Hs Hlock.
    + apply loginScreenTimerCallback_fires; assumption.
    + apply logoSwitchTimerCallback_fires; assumption.
Qed.

Lemma screen_timer_callbacks_guarded_witness :
  let w := world_in STATE_LOGO 3000 in
  isLogoAlt (statusOf (snd (logoSwitchTimerCallback w))) = true
  /\ fw (snd (loginScreenTimerCallback w)) = fw w.
Proof.
  intro w.
  destruct (screen_timer_callbacks_guarded w)
    as (_ & Hstale & _ & _ & Hfire).
  split.
  - destruct Hfire as [Hst _].
    + reflexivity.
    + intros k Hk. vm_compute. destruct k; reflexivity.
    + rewrite Hst. reflexivity.
  - apply Hstale. vm_compute. discriminate.
Defined.

(** ** Screens *)

Lemma loadScreen_display state w :
  let w' := snd (loadScreen state w) in
  fw w' = fw_set_display (display (fw w')) (fw w)
  /\ (STATE_LOGO <= state <= STATE_UPLOADING ->
      exists scr,
        display (fw w') = (display (fw w) ++ [ScrLoadAnim scr])%list)
  /\ (state < STATE_LOGO \/ STATE_UPLOADING < state ->
      display (fw w') = display (fw w)).
Proof.
  intro w'. subst w'. unfold loadScreen, xSemaphoreTake.
  destruct w as [f e]. destruct e as [tick script attempts].
  destruct (state =? STATE_LOGIN) eqn:E3;
    destruct (state =? STATE_LOGO) eqn:E1;
    destruct (state =? STATE_SETUP) eqn:E2;
    destruct (state =? STATE_UNLOCK) eqn:E4;
    destruct (state =? STATE_RECORDING) eqn:E5;
    destruct (state =? STATE_UPLOADING) eqn:E6;
    rewrite ?Z.eqb_eq, ?Z.eqb_neq in *;
    unfold STATE_LOGO, STATE_SETUP, STATE_LOGIN, STATE_UNLOCK,
      STATE_RECORDING, STATE_UPLOADING in *;
    try lia;
    (destruct script as [ | [ | ] rest ];
     rewrite ?bind_run; cbn;
     repeat match goal with
            | |- context [if ?b then _ else _] => destruct b
            end;
     cbn; destruct f; cbn;
     (split; [ reflexivity | ]);
     (split; [ intro; try lia; eexists; reflexivity
             | intro; try lia; reflexivity ])).
Qed.

Lemma loadScreen_variants state w :
  locksGranted 1 w ->
  let shown := display (fw (snd (loadScreen state w))) in
  let st := statusOf w in
  (state = STATE_LOGO ->
   shown = (display (fw w)
            ++ [ScrLoadAnim (if isLogoAlt st then ui_LOGO2 else ui_LOGO1)])
           %list)
  /\ (state = STATE_LOGIN ->
      shown = (display (fw w)
               ++ [ScrLoadAnim (if isLoginFirstScreen st then ui_LOGIN
                                else ui_HoldToUnlock)])%list)
  /\ (state = STATE_RECORDING ->
      shown = (display (fw w)
               ++ [ScrLoadAnim (if isRecordingHoldToUpload st
                                then ui_HoldToUpload else ui_Recording)])
              %list).
Proof.
  intros Hlock shown st. subst shown st.
  destruct (locksGranted_take stateMutex (pdMS_TO_TICKS 10) _ _ Hlock)
    as [Hgot _].
  destruct (take_granted _ _ _ Hgot) as (Hfw & _).
  unfold statusOf.
  split; [ | split ]; intros ->; unfold loadScreen;
    cbn [Z.eqb STATE_LOGO STATE_LOGIN STATE_RECORDING STATE_SETUP
         STATE_UNLOCK STATE_UPLOADING Pos.eqb];
    repeat (rewrite ?bind_run; rewrite ?Hgot;
            cbn [get_status xSemaphoreGive ret fst snd]);
    rewrite ?Hfw;
    match goal with
    | |- context [if ?b then _ else _] => destruct b
    end;
    cbn [lvgl modify_fw fst snd fw display fw_set_display];
    rewrite Hfw; reflexivity.
Qed.

(** X9: [loadScreen] changes nothing in the firmware state but the display,
    where it loads exactly one screen for the six states from Logo to
    Uploading and none for any other state: Startup, Error and Shutdown have
    no screen.  With the state lock granted, the screen for Logo, Login and
    Recording is picked by the flags [isLogoAlt], [isLoginFirstScreen] and
    [isRecordingHoldToUpload]. *)
Theorem loadScreen_shows :
  forall state w,
    let w' := snd (loadScreen state w) in
    let shown := display (fw w') in
    let st := statusOf w in
    fw w' = fw_set_display shown (fw w)
    /\ (state < STATE_LOGO \/ STATE_UPLOADING < state ->
        shown = display (fw w))
    /\ (STATE_LOGO <= state <= STATE_UPLOADING ->
        exists scr, shown = (display (fw w) ++ [ScrLoadAnim scr])%list)
    /\ (locksGranted 1 w ->
        (state = STATE_LOGO ->
         shown
         = (display (fw w)
            ++ [ScrLoadAnim (if isLogoAlt st then ui_LOGO2 else ui_LOGO1)])
           %list)
        /\ (state = STATE_LOGIN ->
            shown
            = (display (fw w)
               ++ [ScrLoadAnim (if isLoginFirstScreen st then ui_LOGIN
                                else ui_HoldToUnlock)])%list)
        /\ (state = STATE_RECORDING ->
            shown
            = (display (fw w)
               ++ [ScrLoadAnim (if isRecordingHoldToUpload st
                                then ui_HoldToUpload else ui_Recording)])
              %list)).
Proof.
  intros state w w' shown st. subst w' shown st.
  destruct (loadScreen_display state w) as (Hfw & Hone & Hnone).
  split; [ exact Hfw | ]. split; [ exact Hnone | ].
  split; [ exact Hone | ].
  intro Hlock. apply loadScreen_variants. exact Hlock.
Qed.

Lemma loadScreen_shows_witness :
  display (fw (snd (loadScreen STATE_ERROR (world_in STATE_ERROR 0)))) = []
  /\ display (fw (snd (loadScreen STATE_LOGIN (world_in STATE_LOGIN 0))))
     = [ScrLoadAnim ui_LOGIN].
Proof.
  split.
  - destruct (loadScreen_shows STATE_ERROR (world_in STATE_ERROR 0))
      as (_ & Hnone & _).
    apply Hnone. right. reflexivity.
  - destruct (loadScreen_shows STATE_LOGIN (world_in STATE_LOGIN 0))
      as (_ & _ & _ & Hvar).
    destruct Hvar as (_ & Hlogin & _).
    + intros k Hk. vm_compute. destruct k; reflexivity.
    + apply Hlogin. reflexivity.
Defined.

(** ** The UI manager *)

Lemma take_free m n w : locksFree w -> xSemaphoreTake m n w = (true, w).
Proof.
  unfold locksFree, xSemaphoreTake. intros ->. reflexivity.
Qed.

Lemma preserves_ret {A} P (a : A) : preserves P (ret a).
Proof. intros w H. exact H. Qed.

Lemma preserves_bind {A B} P (c : M A) (k : A -> M B) :
  preserves P c -> (forall a, preserves P (k a)) -> preserves P (bind c k).
Proof. intros Hc Hk w H. unfold bind. cbn. apply Hk, Hc, H. Qed.

Lemma preserves_free_take m n : preserves locksFree (xSemaphoreTake m n).
Proof. intros w H. rewrite (take_free m n w H). exact H. Qed.

Lemma preserves_free_keeps {A} (c : M A) :
  keeps (fun w => lockScript (env w)) c -> preserves locksFree c.
Proof. intros K w H. unfold locksFree. rewrite K. exact H. Qed.

Ltac free_with extra :=
  repeat first
    [ apply preserves_ret
    | apply preserves_free_take
    | extra
    | progress cbv zeta
    | match goal with
      | |- preserves _ (if ?b then _ else _) => destruct b
      | |- preserves _ (match ?x with _ => _ end) => destruct x
      end
    | apply preserves_bind; [ | intro ]
    | solve [ apply preserves_free_keeps; intro; reflexivity ] ].

Ltac free_auto := free_with fail.

Lemma preserves_free_sendUICommandEnhanced cmd s msg d fr hp :
  preserves locksFree (sendUICommandEnhanced cmd s msg d fr hp).
Proof.
  unfold sendUICommandEnhanced, xQueueSend, xQueueReset. free_auto.
Qed.

Lemma preserves_free_loadScreen s : preserves locksFree (loadScreen s).
Proof. unfold loadScreen. free_auto. Qed.

Lemma preserves_free_handleSystemError e c :
  preserves locksFree (handleSystemError e c).
Proof. unfold handleSystemError, xQueueSend. free_auto. Qed.

Lemma preserves_free_process m l :
  preserves locksFree (UIManagerTask_process m l).
Proof.
  unfold UIManagerTask_process, UIManagerTask_loadScreenCase.
  free_with ltac:(first [ apply preserves_free_loadScreen
                        | apply preserves_free_handleSystemError ]).
Qed.

Lemma preserves_free_syncCheck l :
  preserves locksFree (UIManagerTask_syncCheck l).
Proof.
  unfold UIManagerTask_syncCheck.
  free_with ltac:(apply preserves_free_sendUICommandEnhanced).
Qed.

Lemma keeps_renders_loadScreen s : keeps rendersOf (loadScreen s).
Proof.
  intro w. destruct (loadScreen_display s w) as [Hfw _]. cbn zeta in Hfw.
  unfold rendersOf. rewrite Hfw. destruct (fw w); reflexivity.
Qed.

Lemma keeps_status_loadScreen s : keeps statusOf (loadScreen s).
Proof.
  intro w. destruct (loadScreen_display s w) as [Hfw _]. cbn zeta in Hfw.
  unfold statusOf. rewrite Hfw. destruct (fw w); reflexivity.
Qed.

Lemma keeps_renders_handleSystemError e c :
  keeps rendersOf (handleSystemError e c).
Proof. unfold handleSystemError, xQueueSend. keeps_auto. Qed.

Lemma keeps_renders_process m l : keeps rendersOf (UIManagerTask_process m l).
Proof.
  unfold UIManagerTask_process, UIManagerTask_loadScreenCase.
  keeps_with ltac:(first [ apply keeps_renders_loadScreen
                         | apply keeps_renders_handleSystemError ]).
Qed.

Lemma keeps_current_process m l :
  keeps (fun w => currentState (statusOf w)) (UIManagerTask_process m l).
Proof.
  unfold UIManagerTask_process, UIManagerTask_loadScreenCase,
    handleSystemError, xQueueSend.
  keeps_with ltac:(solve [ apply keeps_of_status;
                           first [ apply keeps_status_loadScreen
                                 | auto with frame ] ]).
Qed.

(** A load command that is forced, of high priority or for another state
    than the one displayed last is rendered. *)
Lemma UIManagerTask_process_renders uiMsg l w :
  ui_command uiMsg = UI_CMD_LOAD_SCREEN ->
  ui_forceRefresh uiMsg
  || negb (ui_state uiMsg =? lastDisplayedState l)
  || ui_highPriority uiMsg = true ->
  locksFree w ->
  let r := UIManagerTask_process uiMsg l w in
  fst r = mkUILocals (ui_state uiMsg) (messageLabel l) (lastSyncCheck l)
  /\ statusOf (snd r)
     = set_forceUIRefresh false
         (set_lastUIUpdateTime (tickCount (env w))
            (set_lastUIState (ui_state uiMsg) (statusOf w)))
  /\ fw (snd r)
     = fw_set_systemStatus (statusOf (snd r))
         (fw (snd (loadScreen (ui_state uiMsg) w)))
  /\ env (snd r) = env w.
Proof.
  intros Hcmd Hcond Hfree r. subst r.
  unfold UIManagerTask_process. rewrite bind_run.
  rewrite (take_free displayMutex _ w Hfree). cbn [fst snd].
  rewrite Hcmd. unfold UIManagerTask_loadScreenCase. rewrite Hcond.
  rewrite !bind_run.
  pose proof (preserves_free_loadScreen (ui_state uiMsg) w Hfree) as Hfree2.
  pose proof (keeps_status_loadScreen (ui_state uiMsg) w) as Hst.
  assert (Henv : env (snd (loadScreen (ui_state uiMsg) w)) = env w).
  { unfold loadScreen.
    repeat first
      [ rewrite bind_run
      | rewrite (take_free stateMutex _ w Hfree)
      | progress cbn [get_status xSemaphoreGive ret fst snd lvgl modify_fw
                      env]
      | match goal with
        | |- context [if ?b then _ else _] => destruct b
        end ];
    reflexivity. }
  set (w2 := snd (loadScreen (ui_state uiMsg) w)) in *.
  rewrite (take_free stateMutex _ w2 Hfree2). cbn [fst snd].
  rewrite !bind_run.
  cbn [xTaskGetTickCount modify_status modify_fw xSemaphoreGive ret fst snd
       fw env].
  rewrite Henv. unfold statusOf in *. cbn [fw]. rewrite Hst.
  destruct (fw w2); cbn. repeat split; reflexivity.
Qed.

Lemma UIManagerTask_syncCheck_effect l w :
  locksFree w ->
  let w' := snd (UIManagerTask_syncCheck l w) in
  statusOf w' = statusOf w
  /\ (uiSettled w -> w' = w)
  /\ (rendersOf w' = rendersOf w
      \/ exists pre ts,
           rendersOf w'
           = (pre ++ [renderMsg UI_CMD_LOAD_SCREEN
                        (currentState (statusOf w)) "UI Sync" 0 true true
                        ts])%list).
Proof.
  intros Hfree w'. subst w'. unfold UIManagerTask_syncCheck.
  rewrite bind_run. cbn [xTaskGetTickCount fst snd].
  destruct (pdMS_TO_TICKS 2000
            <=? uint32 (tickCount (env w) - lastSyncCheck l)).
  2: { split; [ reflexivity | ]. split; [ reflexivity | left; reflexivity ]. }
  rewrite bind_run. rewrite (take_free stateMutex _ w Hfree).
  cbn [fst snd]. rewrite !bind_run.
  cbn [get_status xSemaphoreGive ret fst snd]. fold (statusOf w).
  destruct (negb (currentState (statusOf w) =? lastUIState (statusOf w))
            || forceUIRefresh (statusOf w)) eqn:Hneed.
  - split; [ apply keeps_status_sendUICommandEnhanced | ].
    split.
    + intros [Hs Hf]. rewrite Hs, Hf, Z.eqb_refl in Hneed. discriminate.
    + right.
      destruct (sendUICommandEnhanced_last UI_CMD_LOAD_SCREEN
                  (currentState (statusOf w)) "UI Sync" 0 true w)
        as [pre Hpre].
      exists pre, (tickCount (env w)). exact Hpre.
  - split; [ reflexivity | ]. split; [ reflexivity | left; reflexivity ].
Qed.

Lemma uiOnTrack_last pre m w :
  rendersOf w = (pre ++ [m])%list ->
  ui_command m = UI_CMD_LOAD_SCREEN ->
  ui_state m = currentState (statusOf w) ->
  ui_highPriority m = true ->
  uiOnTrack w.
Proof. intros H1 H2 H3 H4. right. exists pre, m. auto. Qed.

(** One pass of the UI manager keeps the UI on track. *)
Lemma UIManagerTask_iteration_on_track l w :
  locksFree w -> uiOnTrack w ->
  let w' := snd (UIManagerTask_iteration l w) in
  uiOnTrack w' /\ locksFree w'
  /\ currentState (statusOf w') = currentState (statusOf w).
Proof.
  intros Hfree Htrack w'. subst w'.
  unfold UIManagerTask_iteration, xQueueReceive.
  rewrite !bind_run. cbn [get_fw fst snd uiRenderQueueH q_items q_store].
  destruct Htrack as [[Hempty Hsettled] | (pre & m & Hq & Hcmd & Hstate & Hhp)].
  - unfold rendersOf in Hempty. rewrite Hempty. rewrite !bind_run.
    cbn [ret fst snd].
    set (w1 := snd (elapse (pdMS_TO_TICKS 20) w)).
    assert (Hfree1 : locksFree w1) by exact Hfree.
    assert (Hset1 : uiSettled w1) by exact Hsettled.
    destruct (UIManagerTask_syncCheck_effect l w1 Hfree1) as (_ & Hsame & _).
    cbn zeta in Hsame. rewrite (Hsame Hset1).
    split; [ left; split; [ exact Hempty | exact Hsettled ] | ].
    split; [ exact Hfree | reflexivity ].
  - unfold rendersOf in Hq.
    destruct (uiRenderQueue (fw w)) as [ | m0 rest ] eqn:Hqueue.
    { destruct pre; discriminate. }
    rewrite !bind_run. cbn [ret fst snd].
    set (w1 := snd (modify_fw (fw_set_uiRenderQueue rest) w)).
    assert (Hfree1 : locksFree w1) by exact Hfree.
    assert (Hst1 : statusOf w1 = statusOf w).
    { subst w1. unfold statusOf. cbn. destruct (fw w); reflexivity. }
    assert (Hq1 : rendersOf w1 = rest).
    { subst w1. unfold rendersOf. cbn. destruct (fw w); reflexivity. }
    pose proof (preserves_free_process m0 l w1 Hfree1) as Hfree2.
    pose proof (keeps_renders_process m0 l w1) as Hq2.
    pose proof (keeps_current_process m0 l w1) as Hc2. cbn beta in Hc2.
    rewrite Hst1 in Hc2. rewrite Hq1 in Hq2.
    destruct (UIManagerTask_syncCheck_effect
                (fst (UIManagerTask_process m0 l w1))
                (snd (UIManagerTask_process m0 l w1)) Hfree2)
      as (Hst3 & Hsame & Hq3).
    cbn zeta in Hst3, Hsame, Hq3.
    pose proof (preserves_free_syncCheck
                  (fst (UIManagerTask_process m0 l w1)) _ Hfree2) as Hfree3.
    split; [ | split; [ exact Hfree3 | rewrite Hst3; exact Hc2 ] ].
    destruct rest as [ | m1 rest' ].
    + assert (Hm : m0 = m).
      { destruct pre as [ | x [ | y pre' ] ]; cbn in Hq;
          [ congruence | discriminate | discriminate ]. }
      subst m0.
      assert (Hcond : ui_forceRefresh m
                      || negb (ui_state m =? lastDisplayedState l)
                      || ui_highPriority m = true).
      { rewrite Hhp. apply orb_true_r. }
      destruct (UIManagerTask_process_renders m l w1 Hcmd Hcond Hfree1)
        as (_ & Hst2 & _).
      cbn zeta in Hst2.
      assert (Hset2 : uiSettled (snd (UIManagerTask_process m l w1))).
      { unfold uiSettled. rewrite Hc2. rewrite Hst2.
        split; [ exact Hstate | reflexivity ]. }
      rewrite (Hsame Hset2). left. split; [ exact Hq2 | exact Hset2 ].
    + assert (Hrest : exists pre', (m1 :: rest' = pre' ++ [m])%list).
      { destruct pre as [ | x pre' ]; cbn in Hq.
        - discriminate.
        - exists pre'. congruence. }
      destruct Hrest as [pre' Hrest].
      destruct Hq3 as [Hq3 | (pre3 & ts & Hq3)].
      * apply (uiOnTrack_last pre' m); try assumption.
        -- rewrite Hq3, Hq2. exact Hrest.
        -- rewrite Hst3, Hc2. exact Hstate.
      * eapply uiOnTrack_last; [ exact Hq3 | reflexivity | | reflexivity ].
        unfold renderMsg. cbn [ui_state]. rewrite Hst3. reflexivity.
Qed.

(** X10: a [UI_CMD_LOAD_SCREEN] command that is forced, of high priority or
    for another state than the one displayed last is rendered whenever the
    locks are free, also when its state is no longer the current one: the
    screen of its state is loaded, [lastDisplayedState] and [lastUIState]
    become that state, [lastUIUpdateTime] the tick count, [forceUIRefresh]
    is cleared, and the missed-update counter, the current state and the
    render queue stay as they were. *)
Theorem UIManagerTask_renders_load :
  forall uiMsg l w,
    ui_command uiMsg = UI_CMD_LOAD_SCREEN ->
    ui_forceRefresh uiMsg
    || negb (ui_state uiMsg =? lastDisplayedState l)
    || ui_highPriority uiMsg = true ->
    locksFree w ->
    let r := UIManagerTask_process uiMsg l w in
    let st := statusOf (snd r) in
    lastDisplayedState (fst r) = ui_state uiMsg
    /\ lastUIState st = ui_state uiMsg
    /\ lastUIUpdateTime st = tickCount (env w)
    /\ forceUIRefresh st = false
    /\ uiMissedUpdates st = uiMissedUpdates (statusOf w)
    /\ currentState st = currentState (statusOf w)
    /\ display (fw (snd r))
       = display (fw (snd (loadScreen (ui_state uiMsg) w)))
    /\ rendersOf (snd r) = rendersOf w.
Proof.
  intros uiMsg l w Hcmd Hcond Hfree r st. subst r st.
  destruct (UIManagerTask_process_renders uiMsg l w Hcmd Hcond Hfree)
    as (Hl & Hst & Hfw & _).
  cbn zeta in Hl, Hst, Hfw.
  rewrite Hl, Hst. repeat (split; [ reflexivity | ]).
  split.
  - rewrite Hfw. destruct (fw (snd (loadScreen (ui_state uiMsg) w))).
    reflexivity.
  - apply keeps_renders_process.
Qed.

Lemma UIManagerTask_renders_load_witness :
  let uiMsg :=
    renderMsg UI_CMD_LOAD_SCREEN STATE_UPLOADING "" 0 true true 4000 in
  let l := mkUILocals STATE_UPLOADING true 3000 in
  let r := UIManagerTask_process uiMsg l (world_in STATE_LOGO 5000) in
  lastUIState (statusOf (snd r)) = STATE_UPLOADING
  /\ currentState (statusOf (snd r)) = STATE_LOGO.
Proof.
  intros uiMsg l r.
  destruct (UIManagerTask_renders_load uiMsg l (world_in STATE_LOGO 5000))
    as (_ & H2 & _ & _ & _ & H6 & _).
  - reflexivity.
  - reflexivity.
  - reflexivity.
  - split; [ exact H2 | exact H6 ].
Defined.

Lemma transitionToState_on_track newState trigger w w' :
  transitionToState newState trigger w = (true, w') -> uiOnTrack w'.
Proof.
  intro Hrun.
  destruct (transitionToState_true _ _ _ _ Hrun) as (_ & _ & Hrec).
  assert (Hc : currentState (statusOf w') = newState)
    by (unfold transitionRecord in Hrec; congruence).
  destruct (transitionToState_commit _ _ _ _ Hrun) as (wc & Hw' & _ & _).
  destruct (transitionTail_effects newState
              (isCriticalTransition (currentState (statusOf w)) newState) wc)
    as (_ & _ & _ & (pre & ts & Hlast) & _).
  rewrite <- Hw' in Hlast.
  eapply uiOnTrack_last; [ exact Hlast | reflexivity | | reflexivity ].
  rewrite Hc. reflexivity.
Qed.

(** X11: every successful transition leaves the render queue ending in a
    high-priority request to load the new state.  From then on, with the
    locks free, every pass of the UI manager (one command rendered or
    skipped, then the periodic sync check) keeps the UI on track: the queue
    still ends in such a request for the current state, or it is empty and
    the UI has reported the current state with no refresh pending.  No pass
    changes the current state. *)
Theorem ui_on_track :
  (forall newState trigger w w',
      transitionToState newState trigger w = (true, w') -> uiOnTrack w')
  /\ (forall l w,
        locksFree w -> uiOnTrack w ->
        let w' := snd (UIManagerTask_iteration l w) in
        uiOnTrack w' /\ locksFree w'
        /\ currentState (statusOf w') = currentState (statusOf w)
        /\ (rendersOf w' = [] -> uiSettled w')).
Proof.
  split.
  - apply transitionToState_on_track.
  - intros l w Hfree Htrack w'. subst w'.
    destruct (UIManagerTask_iteration_on_track l w Hfree Htrack)
      as (Ht & Hf & Hc).
    cbn zeta in Ht, Hf, Hc.
    split; [ exact Ht | ]. split; [ exact Hf | ]. split; [ exact Hc | ].
    intro Hempty. destruct Ht as [[_ Hs] | (pre & m & Hq & _)].
    + exact Hs.
    + rewrite Hempty in Hq. destruct pre; discriminate.
Qed.

Lemma ui_on_track_witness :
  let w0 :=
    snd (transitionToState STATE_RECORDING EVENT_BUTTON_SHORT_PRESS
           (world_in STATE_UNLOCK 9000)) in
  let l0 := mkUILocals STATE_UNLOCK true 9000 in
  let r1 := UIManagerTask_iteration l0 w0 in
  let r2 := UIManagerTask_iteration (fst r1) (snd r1) in
  uiSettled (snd r2) /\ currentState (statusOf (snd r2)) = STATE_RECORDING.
Proof.
  intros w0 l0 r1 r2.
  destruct ui_on_track as [Hstart Hpass].
  assert (H0 : uiOnTrack w0).
  { apply (Hstart STATE_RECORDING EVENT_BUTTON_SHORT_PRESS
             (world_in STATE_UNLOCK 9000)).
    vm_compute. reflexivity. }
  assert (F0 : locksFree w0) by (vm_compute; reflexivity).
  destruct (Hpass l0 w0 F0 H0) as (H1 & F1 & C1 & _).
  destruct (Hpass (fst r1) (snd r1) F1 H1) as (_ & _ & C2 & S2).
  split.
  - apply S2. vm_compute. reflexivity.
  - fold r2 in C2. rewrite C2. fold r1 in C1. rewrite C1.
    vm_compute. reflexivity.
Defined.

(** ** Error accounting *)

Lemma handleSystemError_free error w :
  locksFree w ->
  snd (handleSystemError error false w)
  = mkWorld
      (fw_set_systemStatus
         (set_errorCount (uint32 (errorCount (statusOf w) + 1)) (statusOf w))
         (fw w))
      (env w).
Proof.
  intro Hfree. unfold handleSystemError. rewrite !bind_run.
  rewrite (take_free stateMutex _ w Hfree). reflexivity.
Qed.

Lemma set_errorCount_twice a b s :
  set_errorCount a (set_errorCount b s) = set_errorCount a s.
Proof. reflexivity. Qed.

Lemma fw_set_systemStatus_twice a b f :
  fw_set_systemStatus a (fw_set_systemStatus b f) = fw_set_systemStatus a f.
Proof. reflexivity. Qed.

Lemma reportErrors_free errors : forall w,
  locksFree w ->
  errorCount (statusOf w) + Z.of_nat (List.length errors) < UINT32_MOD ->
  0 <= errorCount (statusOf w) ->
  snd (reportErrors errors w)
  = mkWorld
      (fw_set_systemStatus
         (set_errorCount
            (errorCount (statusOf w) + Z.of_nat (List.length errors))
            (statusOf w))
         (fw w))
      (env w).
Proof.
  induction errors as [ | error rest IH ]; intros w Hfree Hfit Hpos.
  - cbn [reportErrors ret snd List.length Z.of_nat]. rewrite Z.add_0_r.
    unfold statusOf. destruct w as [f e]. destruct f as [s]. destruct s.
    reflexivity.
  - cbn [reportErrors]. rewrite bind_run.
    rewrite (handleSystemError_free error w Hfree).
    cbn [List.length] in Hfit. rewrite Nat2Z.inj_succ in Hfit.
    assert (Hone : uint32 (errorCount (statusOf w) + 1)
                   = errorCount (statusOf w) + 1).
    { unfold uint32. apply Z.mod_small. lia. }
    rewrite Hone.
    set (w1 := mkWorld
                 (fw_set_systemStatus
                    (set_errorCount (errorCount (statusOf w) + 1)
                       (statusOf w))
                    (fw w))
                 (env w)).
    assert (Hst1 : statusOf w1
                   = set_errorCount (errorCount (statusOf w) + 1)
                       (statusOf w)) by reflexivity.
    assert (He1 : errorCount (statusOf w1) = errorCount (statusOf w) + 1)
      by reflexivity.
    rewrite IH; [ | exact Hfree | rewrite He1; lia | rewrite He1; lia ].
    rewrite He1, Hst1. cbn [List.length]. rewrite Nat2Z.inj_succ.
    rewrite set_errorCount_twice. subst w1. cbn [fw env].
    rewrite fw_set_systemStatus_twice. do 3 f_equal. lia.
Qed.

Lemma handleSystemError_record error critical :
  keeps transitionRecord (handleSystemError error critical).
Proof.
  unfold handleSystemError, xQueueSend.
  keeps_with
    ltac:(idtac;
          match goal with
          | |- keeps _ (modify_status _) =>
              apply keeps_record_modify_status; intro; cbn; auto
          | |- keeps _ (xSemaphoreTake _ _) =>
              apply keeps_status_record; auto with frame
          end).
Qed.

Lemma handleSystemError_count error critical w :
  let e := errorCount (statusOf w) in
  let e' := errorCount (statusOf (snd (handleSystemError error critical w))) in
  (e' = e \/ e' = uint32 (e + 1))
  /\ (locksGranted 1 w -> e' = uint32 (e + 1)).
Proof.
  intros e e'. subst e e'.
  unfold handleSystemError, xSemaphoreTake, xQueueSend, locksGranted, statusOf.
  destruct w as [f en]. destruct en as [tick script attempts].
  destruct script as [ | [ | ] rest ]; destruct critical;
    rewrite ?bind_run; cbn -[uint32 Z.add];
    repeat match goal with
           | |- context [if ?b then _ else _] => destruct b
           end;
    cbn -[uint32 Z.add];
    (split; [ first [ right; reflexivity | left; reflexivity ] | ]);
    intro Hg; try reflexivity;
    specialize (Hg 0%nat ltac:(lia)); cbn in Hg; discriminate.
Qed.

Lemma handleSystemError_events error critical w :
  let w' := snd (handleSystemError error critical w) in
  (critical = false -> eventsOf w' = eventsOf w)
  /\ (critical = true -> (List.length (eventsOf w) < 20)%nat ->
      exists ts,
        eventsOf w'
        = (eventsOf w
           ++ [mkSystemEventMsg EVENT_ERROR STATE_ERROR 0 1
                 (substring 0 31 error) ts])%list).
Proof.
  intro w'. subst w'. split.
  - intros ->. unfold handleSystemError.
    assert (K : keeps eventsOf
                  (got <- xSemaphoreTake stateMutex (pdMS_TO_TICKS 100) ;;
                   (if got then
                      modify_status (fun s =>
                        set_errorCount (uint32 (errorCount s + 1)) s) ;;
                      xSemaphoreGive stateMutex
                    else ret tt) ;;
                   ret tt)) by keeps_auto.
    apply K.
  - intros -> Hroom. apply Nat.ltb_lt in Hroom.
    unfold handleSystemError. rewrite !bind_run.
    match goal with
    | |- context [xQueueSend systemEventQueueH ?e 0 ?w1] =>
        set (w2 := w1); set (ev := e)
    end.
    assert (He : eventsOf w2 = eventsOf w).
    { subst w2.
      assert (K : keeps eventsOf
                    (if fst (xSemaphoreTake stateMutex (pdMS_TO_TICKS 100) w)
                     then
                       modify_status (fun s =>
                         set_errorCount (uint32 (errorCount s + 1)) s) ;;
                       xSemaphoreGive stateMutex
                     else ret tt)) by keeps_auto.
      cbn [xTaskGetTickCount snd].
      rewrite K.
      assert (K2 : keeps eventsOf
                     (xSemaphoreTake stateMutex (pdMS_TO_TICKS 100)))
        by keeps_auto.
      apply K2. }
    exists (ev_timestamp ev).
    unfold xQueueSend. rewrite !bind_run.
    cbn [get_fw fst snd systemEventQueueH q_items q_length q_store].
    fold (eventsOf w2). rewrite He, Hroom. rewrite !bind_run.
    cbn [modify_fw ret fst snd fw].
    unfold eventsOf at 1. cbn [fw]. destruct (fw w2). reflexivity.
Qed.

Lemma locksFree_granted n w : locksFree w -> locksGranted n w.
Proof.
  unfold locksFree, locksGranted. intros -> k _. destruct k; reflexivity.
Qed.

Lemma handleSystemError_lock error critical w :
  errorCount (statusOf (snd (handleSystemError error critical w)))
  = if nth 0 (lockScript (env w)) true
    then uint32 (errorCount (statusOf w) + 1)
    else errorCount (statusOf w).
Proof.
  unfold handleSystemError, xSemaphoreTake, xQueueSend, statusOf.
  destruct w as [f en]. destruct en as [tick script attempts].
  destruct script as [ | [ | ] rest ]; destruct critical;
    rewrite ?bind_run; cbn -[uint32 Z.add];
    repeat match goal with
           | |- context [if ?b then _ else _] => destruct b
           end;
    cbn -[uint32 Z.add]; reflexivity.
Qed.

(** X12: one call of [handleSystemError] adds one to [errorCount] (in
    32-bit arithmetic) when it gets the state lock within 100 ms, and loses
    the count when it does not: then [errorCount] stays as it was.  It
    never changes the transition record.  A non-critical error queues no
    event; a critical one queues, room permitting, one [EVENT_ERROR] for
    [STATE_ERROR] carrying the first 31 characters of the text, whether or
    not the error was counted. *)
Theorem handleSystemError_accounting :
  forall error critical w,
    let w' := snd (handleSystemError error critical w) in
    let e := errorCount (statusOf w) in
    let e' := errorCount (statusOf w') in
    let got := nth 0 (lockScript (env w)) true in
    e' = (if got then uint32 (e + 1) else e)
    /\ (locksGranted 1 w -> e' = uint32 (e + 1))
    /\ (got = false -> e' = e)
    /\ transitionRecord w' = transitionRecord w
    /\ (critical = false -> eventsOf w' = eventsOf w)
    /\ (critical = true -> (List.length (eventsOf w) < 20)%nat ->
        exists ts,
          eventsOf w'
          = (eventsOf w
             ++ [mkSystemEventMsg EVENT_ERROR STATE_ERROR 0 1
                   (substring 0 31 error) ts])%list).
Proof.
  intros error critical w w' e e' got. subst w' e e' got.
  destruct (handleSystemError_count error critical w) as [_ Hl].
  destruct (handleSystemError_events error critical w) as [Hn He].
  pose proof (handleSystemError_lock error critical w) as Hc.
  split; [ exact Hc | ]. split; [ exact Hl | ].
  split; [ intro Hno; rewrite Hc, Hno; reflexivity | ].
  split; [ apply handleSystemError_record | ].
  split; [ exact Hn | exact He ].
Qed.

Lemma handleSystemError_accounting_witness :
  let w :=
    snd (handleSystemError "FreeRTOS initialization failed" true
           (world_in STATE_STARTUP 0)) in
  let busy :=
    mkWorld (fw (world_in STATE_STARTUP 0)) (mkEnv 0 [false] []) in
  let w2 := snd (handleSystemError "FreeRTOS initialization failed" true busy)
  in
  (errorCount (statusOf w) = 1
   /\ map ev_targetState (eventsOf w) = [STATE_ERROR])
  /\ (errorCount (statusOf w2) = 0
      /\ map ev_targetState (eventsOf w2) = [STATE_ERROR]).
Proof.
  intros w busy w2. split.
  - destruct (handleSystemError_accounting "FreeRTOS initialization failed"
                true (world_in STATE_STARTUP 0))
      as (_ & Hl & _ & _ & _ & He).
    split.
    + apply Hl. intros k Hk. vm_compute. destruct k; reflexivity.
    + destruct He as [ts Hts].
      * reflexivity.
      * vm_compute. lia.
      * fold w in Hts. rewrite Hts. reflexivity.
  - destruct (handleSystemError_accounting "FreeRTOS initialization failed"
                true busy) as (_ & _ & Hlost & _ & _ & He).
    split.
    + fold w2 in Hlost. rewrite Hlost; reflexivity.
    + destruct He as [ts Hts].
      * reflexivity.
      * vm_compute. lia.
      * fold w2 in Hts. rewrite Hts. reflexivity.
Defined.

(** X13: non-critical errors reported with the locks free add up in
    [errorCount] and change nothing else: no event is queued, no time
    passes, the state stays.  The watchdog pass that follows restarts the
    system exactly when the total exceeds 10 or the activity stamp is older
    than 30 s. *)
Theorem errors_accumulate_to_restart :
  forall errors sm ui w,
    locksFree w ->
    0 <= errorCount (statusOf w) ->
    errorCount (statusOf w) + Z.of_nat (List.length errors) < UINT32_MOD ->
    let w' := snd (reportErrors errors w) in
    let total := errorCount (statusOf w) + Z.of_nat (List.length errors) in
    w' = mkWorld
           (fw_set_systemStatus (set_errorCount total (statusOf w)) (fw w))
           (env w)
    /\ (fst (WatchdogTask_iteration sm ui w') = Restarted
        <-> pdMS_TO_TICKS SYSTEM_WATCHDOG_MS < sinceActivity w
            \/ 10 < total).
Proof.
  intros errors sm ui w Hfree Hpos Hfit w' total. subst w' total.
  rewrite (reportErrors_free errors w Hfree Hfit Hpos).
  split; [ reflexivity | ].
  match goal with
  | |- fst (WatchdogTask_iteration sm ui ?x) = _ <-> _ => set (w' := x)
  end.
  assert (Hfree' : locksFree w') by exact Hfree.
  rewrite (WatchdogTask_iteration_granted sm ui w'
             (locksFree_granted 1 w' Hfree')).
  unfold watchdogTrips. reflexivity.
Qed.

Lemma errors_accumulate_to_restart_witness :
  let errors := repeat "Display mutex timeout" 11 in
  let w' := snd (reportErrors errors (world_in STATE_RECORDING 1000)) in
  errorCount (statusOf w') = 11
  /\ fst (WatchdogTask_iteration 1024 1024 w') = Restarted.
Proof.
  intros errors w'.
  destruct (errors_accumulate_to_restart errors 1024 1024
              (world_in STATE_RECORDING 1000)) as [Hw Hr].
  - reflexivity.
  - vm_compute. discriminate.
  - vm_compute. reflexivity.
  - fold w' in Hw, Hr. split.
    + rewrite Hw. reflexivity.
    + apply Hr. right. vm_compute. reflexivity.
Defined.

(** ** The watchdog timer *)

(** What the callback of the watchdog timer leaves when it gets the lock:
    the stamp is the tick count, nothing else in the status record and in
    the environment but the lock script changes. *)
Lemma systemWatchdogCallback_stamps w :
  nth 0 (lockScript (env w)) true = true ->
  lastActivityTime (statusOf (snd (systemWatchdogCallback w)))
  = tickCount (env w).
Proof.
  intro Hlock. unfold systemWatchdogCallback. rewrite bind_run.
  destruct (take_effect stateMutex 0 w) as (Hgot & Hfw & _ & Htick).
  rewrite Hlock in Hgot, Htick. rewrite Hgot. rewrite !bind_run.
  unfold statusOf.
  cbn [xTaskGetTickCount modify_status modify_fw xSemaphoreGive ret fst snd
       fw env fw_set_systemStatus systemStatus set_lastActivityTime
       lastActivityTime].
  exact Htick.
Qed.

(** X14: the callback of the watchdog timer counts as activity.  A callback
    that gets the lock stamps the tick count as the last activity.  A
    watchdog pass that reads the tick count up to 30000 ticks later
    (without wrap-around) and gets the lock does not restart the system,
    provided it finds at most 10 errors and a stamp that is the callback's
    or a later one, not later than the tick count the pass read.  What the
    other tasks did between the callback and the pass, and during the pass,
    is otherwise arbitrary: the timer alone keeps the stall check quiet. *)
Theorem watchdog_timer_counts_as_activity :
  forall others meanwhile sm ui w,
    let stamped := snd (systemWatchdogCallback w) in
    let atPass := others stamped in
    let found := statusOf (meanwhile atPass) in
    nth 0 (lockScript (env w)) true = true ->
    locksGranted 1 (meanwhile atPass) ->
    0 <= tickCount (env w) <= tickCount (env atPass) ->
    tickCount (env atPass)
    <= tickCount (env w) + pdMS_TO_TICKS SYSTEM_WATCHDOG_MS ->
    tickCount (env atPass) < UINT32_MOD ->
    lastActivityTime (statusOf stamped) <= lastActivityTime found
    <= tickCount (env atPass) ->
    errorCount found <= 10 ->
    lastActivityTime (statusOf stamped) = tickCount (env w)
    /\ fst (WatchdogTask_pass meanwhile sm ui atPass) = Running.
Proof.
  intros others meanwhile sm ui w stamped atPass found
    Hcb Hlock Hticks Hsoon Hfit Hstamp Herr.
  assert (Hs : lastActivityTime (statusOf stamped) = tickCount (env w))
    by (apply systemWatchdogCallback_stamps; exact Hcb).
  split; [ exact Hs | ].
  pose proof (WatchdogTask_pass_granted meanwhile sm ui atPass Hlock) as Hiff.
  destruct (fst (WatchdogTask_pass meanwhile sm ui atPass));
    [ reflexivity | ].
  exfalso. destruct (proj1 Hiff eq_refl) as [Hstall | Hmany].
  - unfold sinceActivityAt in Hstall. fold found in Hstall.
    change (pdMS_TO_TICKS SYSTEM_WATCHDOG_MS) with 30000 in *.
    unfold uint32 in Hstall. rewrite Z.mod_small in Hstall by lia. lia.
  - fold found in Hmany. lia.
Qed.

Lemma watchdog_timer_counts_as_activity_witness :
  let others :=
    fun w =>
      snd ((handleSystemError "Display mutex timeout" false ;;
            vTaskDelay 30000) w) in
  fst (WatchdogTask_pass (fun w => w) 1024 1024
         (others (snd (systemWatchdogCallback
                         (world_in STATE_RECORDING 900000)))))
  = Running.
Proof.
  intro others.
  refine (proj2 (watchdog_timer_counts_as_activity others (fun w => w)
                   1024 1024 (world_in STATE_RECORDING 900000)
                   _ _ _ _ _ _ _)).
  - reflexivity.
  - intros [ | k ] _; reflexivity.
  - vm_compute. split; discriminate.
  - vm_compute. discriminate.
  - vm_compute. reflexivity.
  - vm_compute. split; discriminate.
  - vm_compute. discriminate.
Defined.
(** ** Resynchronisation *)

Lemma LVGLTask_healthCheck_idle lastHealthCheck w :
  uint32 (tickCount (env w) - lastHealthCheck) < pdMS_TO_TICKS 5000 ->
  LVGLTask_healthCheck lastHealthCheck w = (lastHealthCheck, w).
Proof.
  intro Hearly. apply Z.leb_gt in Hearly.
  unfold LVGLTask_healthCheck. rewrite bind_run.
  cbn [xTaskGetTickCount fst snd]. rewrite Hearly. reflexivity.
Qed.

Lemma LVGLTask_healthCheck_due lastHealthCheck w :
  locksFree w ->
  pdMS_TO_TICKS 5000 <= uint32 (tickCount (env w) - lastHealthCheck) ->
  let now := tickCount (env w) in
  let st := statusOf w in
  let r := LVGLTask_healthCheck lastHealthCheck w in
  let frozen := pdMS_TO_TICKS 10000 <? uint32 (now - lastUIUpdateTime st) in
  fst r = now
  /\ statusOf (snd r)
     = (if frozen then set_forceUIRefresh true (set_uiMissedUpdates 0 st)
        else set_uiMissedUpdates 0 st)
  /\ (if frozen then
        exists pre,
          rendersOf (snd r)
          = (pre ++ [renderMsg UI_CMD_LOAD_SCREEN (currentState st)
                       "Emergency Sync" 0 true true now])%list
      else rendersOf (snd r) = rendersOf w)
  /\ eventsOf (snd r) = eventsOf w.
Proof.
  intros Hfree Hdue now st r frozen. subst now st r frozen.
  apply Z.leb_le in Hdue.
  unfold LVGLTask_healthCheck. rewrite bind_run.
  cbn [xTaskGetTickCount fst snd]. rewrite Hdue.
  rewrite bind_run. rewrite (take_free stateMutex _ w Hfree).
  cbn [fst snd]. rewrite !bind_run.
  cbn [get_status xSemaphoreGive ret fst snd]. fold (statusOf w).
  set (w1 := snd (modify_status (set_uiMissedUpdates 0) w)).
  assert (Hfree1 : locksFree w1) by exact Hfree.
  assert (Hst1 : statusOf w1 = set_uiMissedUpdates 0 (statusOf w))
    by reflexivity.
  assert (Ht1 : tickCount (env w1) = tickCount (env w)) by reflexivity.
  assert (Hq1 : rendersOf w1 = rendersOf w).
  { subst w1. unfold rendersOf. cbn. destruct (fw w); reflexivity. }
  assert (He1 : eventsOf w1 = eventsOf w).
  { subst w1. unfold eventsOf. cbn. destruct (fw w); reflexivity. }
  destruct (pdMS_TO_TICKS 10000
            <? uint32 (tickCount (env w) - lastUIUpdateTime (statusOf w))).
  - rewrite !bind_run. rewrite (take_free stateMutex _ w1 Hfree1).
    cbn [fst snd]. rewrite !bind_run.
    cbn [get_status xSemaphoreGive ret fst snd]. fold (statusOf w1).
    set (w2 := snd (modify_status (set_forceUIRefresh true) w1)).
    assert (Hst2 : statusOf w2 = set_forceUIRefresh true (statusOf w1))
      by reflexivity.
    assert (Ht2 : tickCount (env w2) = tickCount (env w)) by reflexivity.
    assert (He2 : eventsOf w2 = eventsOf w).
    { subst w2. unfold eventsOf. cbn. unfold eventsOf in He1.
      rewrite <- He1. destruct (fw w1); reflexivity. }
    split; [ reflexivity | ].
    split; [ rewrite keeps_status_sendUICommandEnhanced, Hst2, Hst1;
             reflexivity | ].
    split.
    + rewrite Hst1. cbn [currentState set_uiMissedUpdates].
      rewrite <- Ht2. apply sendUICommandEnhanced_last.
    + destruct (sendUICommandEnhanced_renders UI_CMD_LOAD_SCREEN
                  (currentState (statusOf w1)) "Emergency Sync" 0 true true
                  w2) as [_ Hfw].
      cbn zeta in Hfw. unfold eventsOf. rewrite Hfw.
      unfold eventsOf in He2. rewrite <- He2.
      destruct (fw w2); reflexivity.
  - rewrite ?bind_run. cbn [ret fst snd].
    split; [ reflexivity | ]. split; [ exact Hst1 | ].
    split; [ exact Hq1 | exact He1 ].
Qed.

(** X15: the periodic health check of [LVGLTask] does nothing until 5000
    ticks have passed since the last one.  When it is due and the locks are
    free it resets [uiMissedUpdates] to 0 and, if the UI has rendered no load
    command for more than 10000 ticks, sets [forceUIRefresh] and queues a
    forced, high-priority reload of the current state, also when the UI is
    in sync and simply had nothing to render.  It never changes the
    transition record and never queues a system event. *)
Theorem LVGLTask_healthCheck_effect :
  forall lastHealthCheck w,
    locksFree w ->
    let now := tickCount (env w) in
    let st := statusOf w in
    let r := LVGLTask_healthCheck lastHealthCheck w in
    let st' := statusOf (snd r) in
    (uint32 (now - lastHealthCheck) < pdMS_TO_TICKS 5000 ->
     r = (lastHealthCheck, w))
    /\ (pdMS_TO_TICKS 5000 <= uint32 (now - lastHealthCheck) ->
        fst r = now
        /\ uiMissedUpdates st' = 0
        /\ transitionRecord (snd r) = transitionRecord w
        /\ eventsOf (snd r) = eventsOf w
        /\ (uint32 (now - lastUIUpdateTime st) <= pdMS_TO_TICKS 10000 ->
            rendersOf (snd r) = rendersOf w
            /\ forceUIRefresh st' = forceUIRefresh st)
        /\ (pdMS_TO_TICKS 10000 < uint32 (now - lastUIUpdateTime st) ->
            forceUIRefresh st' = true
            /\ exists pre,
                 rendersOf (snd r)
                 = (pre ++ [renderMsg UI_CMD_LOAD_SCREEN (currentState st)
                              "Emergency Sync" 0 true true now])%list)).
Proof.
  intros lastHealthCheck w Hfree now st r st'. subst now st r st'.
  split; [ apply LVGLTask_healthCheck_idle | ].
  intro Hdue.
  destruct (LVGLTask_healthCheck_due lastHealthCheck w Hfree Hdue)
    as (Hnow & Hst & Hq & He).
  cbn zeta in Hnow, Hst, Hq, He.
  split; [ exact Hnow | ].
  destruct (pdMS_TO_TICKS 10000
            <? uint32 (tickCount (env w) - lastUIUpdateTime (statusOf w)))
    eqn:Hfrozen.
  - apply Z.ltb_lt in Hfrozen.
    split; [ rewrite Hst; reflexivity | ].
    split; [ unfold transitionRecord; rewrite Hst; reflexivity | ].
    split; [ exact He | ].
    split; [ intro; lia | ].
    intros _. split; [ rewrite Hst; reflexivity | exact Hq ].
  - apply Z.ltb_ge in Hfrozen.
    split; [ rewrite Hst; reflexivity | ].
    split; [ unfold transitionRecord; rewrite Hst; reflexivity | ].
    split; [ exact He | ].
    split; [ | intro; lia ].
    intros _. split; [ exact Hq | rewrite Hst; reflexivity ].
Qed.

Lemma LVGLTask_healthCheck_effect_witness :
  let w0 :=
    snd (UIManagerTask_process
           (renderMsg UI_CMD_LOAD_SCREEN STATE_UNLOCK "" 0 false true 100)
           (mkUILocals STATE_LOGIN true 0) (world_in STATE_UNLOCK 100)) in
  let w := snd (vTaskDelay 10001 w0) in
  uiSettled w
  /\ forceUIRefresh (statusOf (snd (LVGLTask_healthCheck 5000 w))) = true.
Proof.
  intros w0 w. split; [ vm_compute; split; reflexivity | ].
  destruct (LVGLTask_healthCheck_effect 5000 w) as [_ Hdue].
  - reflexivity.
  - destruct Hdue as (_ & _ & _ & _ & _ & Hfrozen).
    + vm_compute. discriminate.
    + apply Hfrozen. vm_compute. reflexivity.
Defined.

Lemma UIManagerTask_syncCheck_due l w :
  locksFree w ->
  pdMS_TO_TICKS 2000 <= uint32 (tickCount (env w) - lastSyncCheck l) ->
  let r := UIManagerTask_syncCheck l w in
  fst r = mkUILocals (lastDisplayedState l) (messageLabel l)
            (tickCount (env w))
  /\ (lastUIState (statusOf w) <> currentState (statusOf w)
      \/ forceUIRefresh (statusOf w) = true ->
      exists pre,
        rendersOf (snd r)
        = (pre ++ [renderMsg UI_CMD_LOAD_SCREEN (currentState (statusOf w))
                     "UI Sync" 0 true true (tickCount (env w))])%list).
Proof.
  intros Hfree Hdue r. subst r. apply Z.leb_le in Hdue.
  unfold UIManagerTask_syncCheck.
  rewrite bind_run. cbn [xTaskGetTickCount fst snd]. rewrite Hdue.
  rewrite bind_run. rewrite (take_free stateMutex _ w Hfree).
  cbn [fst snd]. rewrite !bind_run.
  cbn [get_status xSemaphoreGive ret fst snd]. fold (statusOf w).
  split; [ reflexivity | ].
  intro Hneed.
  assert (Hb : negb (currentState (statusOf w) =? lastUIState (statusOf w))
               || forceUIRefresh (statusOf w) = true).
  { destruct Hneed as [Hdiff | Hforce].
    - apply orb_true_iff. left. apply negb_true_iff, Z.eqb_neq.
      intro E. apply Hdiff. symmetry. exact E.
    - rewrite Hforce. apply orb_true_r. }
  rewrite Hb. apply sendUICommandEnhanced_last.
Qed.

Lemma forceUISync_free w :
  locksFree w ->
  statusOf (snd (forceUISync w)) = set_forceUIRefresh true (statusOf w)
  /\ exists pre,
       rendersOf (snd (forceUISync w))
       = (pre ++ [renderMsg UI_CMD_LOAD_SCREEN (currentState (statusOf w))
                    "Manual Sync" 0 true true (tickCount (env w))])%list.
Proof.
  intro Hfree. unfold forceUISync. rewrite bind_run.
  rewrite (take_free stateMutex _ w Hfree). cbn [fst snd].
  rewrite !bind_run. cbn [get_status xSemaphoreGive ret fst snd].
  fold (statusOf w).
  set (w1 := snd (modify_status (set_forceUIRefresh true) w)).
  assert (Ht : tickCount (env w1) = tickCount (env w)) by reflexivity.
  split.
  - rewrite keeps_status_sendUICommandEnhanced. reflexivity.
  - rewrite <- Ht. apply sendUICommandEnhanced_last.
Qed.

(** X16: the sync check of the UI manager does nothing until 2000 ticks
    have passed since the last one.  When it is due and the locks are free
    it never writes the status record; it leaves the world untouched if the
    UI has reported the current state and no refresh is pending, and
    otherwise queues a forced, high-priority reload of the current state as
    the last render command.  [forceUISync] sets [forceUIRefresh] and queues
    such a reload unconditionally. *)
Theorem ui_sync_requests :
  forall l w,
    locksFree w ->
    let now := tickCount (env w) in
    let st := statusOf w in
    let r := UIManagerTask_syncCheck l w in
    let w2 := snd (forceUISync w) in
    (uint32 (now - lastSyncCheck l) < pdMS_TO_TICKS 2000 -> r = (l, w))
    /\ (pdMS_TO_TICKS 2000 <= uint32 (now - lastSyncCheck l) ->
        fst r = mkUILocals (lastDisplayedState l) (messageLabel l) now
        /\ statusOf (snd r) = st
        /\ (uiSettled w -> snd r = w)
        /\ (lastUIState st <> currentState st \/ forceUIRefresh st = true ->
            exists pre,
              rendersOf (snd r)
              = (pre ++ [renderMsg UI_CMD_LOAD_SCREEN (currentState st)
                           "UI Sync" 0 true true now])%list))
    /\ statusOf w2 = set_forceUIRefresh true st
    /\ (exists pre,
          rendersOf w2
          = (pre ++ [renderMsg UI_CMD_LOAD_SCREEN (currentState st)
                       "Manual Sync" 0 true true now])%list).
Proof.
  intros l w Hfree now st r w2. subst now st r w2.
  split.
  { intro Hearly. apply Z.leb_gt in Hearly.
    unfold UIManagerTask_syncCheck. rewrite bind_run.
    cbn [xTaskGetTickCount fst snd]. rewrite Hearly. reflexivity. }
  split.
  { intro Hdue.
    destruct (UIManagerTask_syncCheck_due l w Hfree Hdue) as [Hl Hsend].
    destruct (UIManagerTask_syncCheck_effect l w Hfree) as (Hst & Hsame & _).
    cbn zeta in Hl, Hsend, Hst, Hsame.
    split; [ exact Hl | ]. split; [ exact Hst | ].
    split; [ exact Hsame | exact Hsend ]. }
  apply forceUISync_free. exact Hfree.
Qed.

Lemma ui_sync_requests_witness :
  let w :=
    mkWorld
      (fw_set_systemStatus
         (set_lastUIState STATE_UNLOCK
            (systemStatus (fw (world_in STATE_RECORDING 0))))
         (fw (world_in STATE_RECORDING 0)))
      (env_calm 5000) in
  let r := UIManagerTask_syncCheck (mkUILocals STATE_UNLOCK true 2500) w in
  lastSyncCheck (fst r) = 5000 /\ statusOf (snd r) = statusOf w.
Proof.
  intros w r.
  destruct (ui_sync_requests (mkUILocals STATE_UNLOCK true 2500) w)
    as (_ & Hdue & _).
  - reflexivity.
  - destruct Hdue as (Hl & Hst & _).
    + vm_compute. discriminate.
    + fold r in Hl, Hst. rewrite Hl. split; [ reflexivity | exact Hst ].
Defined.

(** ** From the app to the state machine *)

Lemma TokenMapsTo_declared token s : TokenMapsTo token s -> s < STATE_MAX.
Proof. intro H. destruct H; reflexivity. Qed.

(** What a written command leaves in the command queue. *)
Lemma gattWrite_queues i bytes w :
  writable i w ->
  bleCommandQueue (fw w) = [] ->
  let w1 := snd (gattWrite i bytes w) in
  bleCommandQueue (fw w1)
  = [mkBLECommandMsg (c_str bytes) "" (tickCount (env w))]
  /\ statusOf w1 = statusOf w
  /\ eventsOf w1 = eventsOf w
  /\ env w1 = env w.
Proof.
  intros Hw Hempty w1. subst w1.
  rewrite (gattWrite_writable i bytes w Hw).
  unfold xQueueSend. rewrite !bind_run.
  cbn [get_fw fst snd bleCommandQueueH q_items q_length q_store fw].
  unfold statusOf, eventsOf.
  destruct (fw w); cbn in *. subst. cbn. repeat split; reflexivity.
Qed.

(** A pass of the BLE manager over one queued, known command that is not
    suppressed. *)
Lemma BLEManagerTask_iteration_forwards token data ts s label w :
  bleCommandQueue (fw w) = [mkBLECommandMsg token data ts] ->
  BLEManagerTask_parse token = Some (s, label) ->
  locksFree w ->
  (s =? lastBurstState (statusOf w))
  && (tickCount (env w) <? suppressAppCmdUntil (statusOf w)) = false ->
  (List.length (eventsOf w) < 20)%nat ->
  let w' := snd (BLEManagerTask_iteration w) in
  eventsOf w'
  = (eventsOf w
     ++ [mkSystemEventMsg EVENT_APP_COMMAND s 0 0 label (tickCount (env w))])
    %list
  /\ statusOf w' = statusOf w
  /\ bleCommandQueue (fw w') = []
  /\ locksFree w'.
Proof.
  intros Hq Hparse Hfree Hopen Hroom w'. subst w'.
  apply Nat.ltb_lt in Hroom.
  unfold BLEManagerTask_iteration, xQueueReceive. rewrite !bind_run.
  cbn [get_fw fst snd bleCommandQueueH q_items q_store]. rewrite Hq.
  rewrite !bind_run. cbn [ret fst snd].
  set (w1 := snd (modify_fw (fw_set_bleCommandQueue []) w)).
  assert (Hfree1 : locksFree w1) by exact Hfree.
  assert (Hst1 : statusOf w1 = statusOf w).
  { subst w1. unfold statusOf. cbn. destruct (fw w); reflexivity. }
  assert (He1 : eventsOf w1 = eventsOf w).
  { subst w1. unfold eventsOf. cbn. destruct (fw w); reflexivity. }
  assert (Hq1 : bleCommandQueue (fw w1) = []).
  { subst w1. cbn. destruct (fw w); reflexivity. }
  assert (Ht1 : tickCount (env w1) = tickCount (env w)) by reflexivity.
  rewrite bind_run.
  rewrite (BLEManagerTask_process_known token data ts s label w1 Hparse).
  assert (Hsup : isAppCmdSuppressed s w1 = (false, w1)).
  { unfold isAppCmdSuppressed. rewrite bind_run.
    rewrite (take_free stateMutex _ w1 Hfree1). cbn [fst snd].
    rewrite !bind_run.
    cbn [xTaskGetTickCount get_status xSemaphoreGive ret fst snd].
    fold (statusOf w1). rewrite Hst1, Ht1, Hopen. reflexivity. }
  rewrite Hsup. cbn [fst snd].
  unfold xQueueSend. rewrite !bind_run.
  cbn [get_fw fst snd systemEventQueueH q_items q_length q_store].
  fold (eventsOf w1). rewrite He1, Hroom. rewrite !bind_run.
  cbn [modify_fw ret fst snd vTaskDelay elapse modify_env fw env].
  rewrite Ht1. split; [ | split; [ | split ] ].
  - unfold eventsOf at 1. cbn [fw]. destruct (fw w1); reflexivity.
  - rewrite <- Hst1. unfold statusOf. cbn [fw].
    destruct (fw w1); reflexivity.
  - rewrite <- Hq1. cbn [fw]. destruct (fw w1); reflexivity.
  - exact Hfree.
Qed.

Lemma app_command_path i bytes s w :
  writable i w ->
  TokenMapsTo (c_str bytes) s ->
  locksFree w ->
  bleCommandQueue (fw w) = [] ->
  eventsOf w = [] ->
  (s =? lastBurstState (statusOf w))
  && (tickCount (env w) <? suppressAppCmdUntil (statusOf w)) = false ->
  let w1 := snd (gattWrite i bytes w) in
  let w2 := snd (BLEManagerTask_iteration w1) in
  let r := SystemManagerTask_iteration w2 in
  fst r = Some true
  /\ currentState (statusOf (snd r)) = s
  /\ previousState (statusOf (snd r)) = currentState (statusOf w)
  /\ eventsOf (snd r) = []
  /\ bleCommandQueue (fw w2) = [].
Proof.
  intros Hw Hmap Hfree Hcq Heq Hopen w1 w2 r. subst w1 w2 r.
  destruct (proj1 (TokenMapsTo_parse _ _) Hmap) as [label Hparse].
  destruct (gattWrite_queues i bytes w Hw Hcq) as (Hq1 & Hst1 & He1 & Henv1).
  cbn zeta in Hq1, Hst1, He1, Henv1.
  set (w1 := snd (gattWrite i bytes w)) in *.
  assert (Hfree1 : locksFree w1) by (unfold locksFree; now rewrite Henv1).
  destruct (BLEManagerTask_iteration_forwards _ _ _ s label w1 Hq1 Hparse
              Hfree1) as (He2 & Hst2 & Hq2 & Hfree2).
  { rewrite Hst1, Henv1. exact Hopen. }
  { rewrite He1, Heq. cbn. lia. }
  cbn zeta in He2, Hst2, Hq2, Hfree2.
  set (w2 := snd (BLEManagerTask_iteration w1)) in *.
  rewrite He1, Heq in He2. cbn [app] in He2.
  destruct (SystemManagerTask_iteration_event _ [] w2 He2
              (locksFree_granted 2 w2 Hfree2)) as (Hok & Hc & Hp & _ & He).
  { cbn [ev_targetState]. apply (TokenMapsTo_declared _ _ Hmap). }
  cbn zeta in Hok, Hc, Hp, He. cbn [ev_targetState] in Hc.
  split; [ exact Hok | ]. split; [ exact Hc | ].
  split; [ rewrite Hp, Hst2, Hst1; reflexivity | ].
  split; [ exact He | exact Hq2 ].
Qed.

(** X17: a command token written by the app to any writable characteristic
    reaches the state machine.  With the locks free, both queues empty and
    no suppression window open for the target state, the write, one pass of
    the BLE manager and one pass of the system manager leave the machine in
    the state the token stands for, whatever state it was in before, with
    both queues empty again. *)
Theorem app_command_reaches_state :
  forall i bytes s w,
    writable i w ->
    TokenMapsTo (c_str bytes) s ->
    locksFree w ->
    bleCommandQueue (fw w) = [] ->
    eventsOf w = [] ->
    (s =? lastBurstState (statusOf w))
    && (tickCount (env w) <? suppressAppCmdUntil (statusOf w)) = false ->
    let w1 := snd (gattWrite i bytes w) in
    let w2 := snd (BLEManagerTask_iteration w1) in
    let r := SystemManagerTask_iteration w2 in
    fst r = Some true
    /\ currentState (statusOf (snd r)) = s
    /\ previousState (statusOf (snd r)) = currentState (statusOf w)
    /\ eventsOf (snd r) = []
    /\ bleCommandQueue (fw w2) = [].
Proof.
  intros i bytes s w Hw Hmap Hfree Hcq Heq Hopen w1 w2 r. subst w1 w2 r.
  destruct (app_command_path i bytes s w Hw Hmap Hfree Hcq Heq Hopen)
    as (Hok & Hc & Hp & He & Hq).
  split; [ exact Hok | ]. split; [ exact Hc | ].
  split; [ exact Hp | ]. split; [ exact He | exact Hq ].
Qed.

Lemma app_command_reaches_state_witness :
  let w := world_in STATE_LOGO 7000 in
  let w1 := snd (gattWrite 1 "Login:alice" w) in
  let w2 := snd (BLEManagerTask_iteration w1) in
  currentState (statusOf (snd (SystemManagerTask_iteration w2)))
  = STATE_LOGIN.
Proof.
  intros w w1 w2.
  destruct (app_command_reaches_state 1 "Login:alice" STATE_LOGIN w)
    as (_ & Hc & _).
  - eexists. eexists. vm_compute. repeat split; reflexivity.
  - apply (maps_Login ":alice").
  - reflexivity.
  - reflexivity.
  - reflexivity.
  - reflexivity.
  - exact Hc.
Defined.

(** ** Connection events *)

Lemma connected_bit_set x :
  Z.land (Z.lor x BLE_CONNECTED) BLE_CONNECTED = BLE_CONNECTED.
Proof.
  apply Z.bits_inj'. intros n Hn.
  rewrite Z.land_spec, Z.lor_spec.
  destruct (Z.testbit BLE_CONNECTED n).
  - rewrite orb_true_r. reflexivity.
  - apply andb_false_r.
Qed.

Lemma connected_bit_cleared x :
  Z.land (Z.land x (Z.lnot BLE_CONNECTED)) BLE_CONNECTED = 0.
Proof.
  rewrite <- Z.land_assoc.
  change (Z.land (Z.lnot BLE_CONNECTED) BLE_CONNECTED) with 0.
  apply Z.land_0_r.
Qed.

Lemma onConnect_effect w :
  (List.length (eventsOf w) < 20)%nat ->
  let w' := snd (SystemBLEServerCallbacks_onConnect w) in
  eventsOf w'
  = (eventsOf w
     ++ [mkSystemEventMsg EVENT_BLE_CONNECTED STATE_LOGIN 0 0 "BLE_CONNECT"
           (tickCount (env w))])%list
  /\ systemEvents (fw w') = Z.lor (systemEvents (fw w)) BLE_CONNECTED
  /\ healthOf w'
     = set_indicationFailureCount 0
         (set_connectionStable false
            (set_connectionTime (tickCount (env w))
               (set_ble_isConnected true (healthOf w))))
  /\ statusOf w' = statusOf w
  /\ env w' = env w.
Proof.
  intros Hroom w'. subst w'. apply Nat.ltb_lt in Hroom.
  unfold SystemBLEServerCallbacks_onConnect, xQueueSend.
  rewrite !bind_run.
  cbn [xEventGroupSetBits xTaskGetTickCount modify_health modify_fw get_fw
       fst snd fw env systemEventQueueH q_items q_length q_store].
  unfold eventsOf, healthOf, statusOf in *.
  destruct (fw w); cbn in *. rewrite Hroom. cbn. repeat split; reflexivity.
Qed.

Lemma onDisconnect_effect w :
  (List.length (eventsOf w) < 20)%nat ->
  let w' := snd (SystemBLEServerCallbacks_onDisconnect w) in
  eventsOf w'
  = (eventsOf w
     ++ [mkSystemEventMsg EVENT_BLE_DISCONNECTED STATE_LOGO 0 0
           "BLE_DISCONNECT" (tickCount (env w))])%list
  /\ systemEvents (fw w')
     = Z.land (systemEvents (fw w)) (Z.lnot BLE_CONNECTED)
  /\ healthOf w'
     = set_indicationFailureCount 0
         (set_connectionStable false
            (set_ble_isConnected false (healthOf w)))
  /\ statusOf w' = statusOf w
  /\ env w' = env w.
Proof.
  intros Hroom w'. subst w'. apply Nat.ltb_lt in Hroom.
  unfold SystemBLEServerCallbacks_onDisconnect, xQueueSend.
  rewrite !bind_run.
  cbn [xEventGroupClearBits xTaskGetTickCount modify_health modify_fw get_fw
       fst snd fw env systemEventQueueH q_items q_length q_store].
  unfold eventsOf, healthOf, statusOf in *.
  destruct (fw w); cbn in *. rewrite Hroom. cbn. repeat split; reflexivity.
Qed.

(** X18: a new BLE connection sets the connected bit, restarts the
    connection-health record (not stable, no failures, connection time now)
    and, with the event queue empty and the locks free, makes the next pass
    of the system manager enter Login; a disconnection clears the bit and
    makes it enter Logo.  Both happen whatever state the machine is in, a
    running recording or upload included. *)
Theorem connection_events_drive_state :
  forall w,
    locksFree w ->
    eventsOf w = [] ->
    let wc := snd (SystemBLEServerCallbacks_onConnect w) in
    let wd := snd (SystemBLEServerCallbacks_onDisconnect w) in
    (fst (isBLEConnected wc) = true
     /\ fst (isBLEConnectionStable wc) = false
     /\ healthOf wc
        = set_indicationFailureCount 0
            (set_connectionStable false
               (set_connectionTime (tickCount (env w))
                  (set_ble_isConnected true (healthOf w))))
     /\ (ble_isConnected (healthOf wc), connectionStable (healthOf wc),
         indicationFailureCount (healthOf wc), connectionTime (healthOf wc))
        = (true, false, 0, tickCount (env w))
     /\ currentState (statusOf (snd (SystemManagerTask_iteration wc)))
        = STATE_LOGIN)
    /\ (fst (isBLEConnected wd) = false
        /\ fst (isBLEConnectionStable wd) = false
        /\ healthOf wd
           = set_indicationFailureCount 0
               (set_connectionStable false
                  (set_ble_isConnected false (healthOf w)))
        /\ (ble_isConnected (healthOf wd), connectionStable (healthOf wd),
            indicationFailureCount (healthOf wd))
           = (false, false, 0)
        /\ currentState (statusOf (snd (SystemManagerTask_iteration wd)))
           = STATE_LOGO).
Proof.
  intros w Hfree Hempty wc wd. subst wc wd.
  assert (Hroom : (List.length (eventsOf w) < 20)%nat)
    by (rewrite Hempty; cbn; lia).
  split.
  - destruct (onConnect_effect w Hroom) as (He & Hbits & Hh & Hst & Henv).
    cbn zeta in He, Hbits, Hh, Hst, Henv.
    set (wc := snd (SystemBLEServerCallbacks_onConnect w)) in *.
    assert (Hcon : fst (isBLEConnected wc) = true).
    { unfold isBLEConnected. rewrite bind_run. cbn [get_fw ret fst snd].
      rewrite Hbits, connected_bit_set. reflexivity. }
    split; [ exact Hcon | ].
    split.
    { unfold isBLEConnectionStable. rewrite bind_run. rewrite Hcon.
      cbn [negb]. rewrite !bind_run.
      cbn [xTaskGetTickCount get_fw ret fst snd].
      assert (Hk : keeps healthOf isBLEConnected) by (intro; reflexivity).
      unfold healthOf in Hk, Hh. rewrite Hk, Hh. cbn [connectionStable
        set_indicationFailureCount set_connectionStable].
      apply andb_false_r. }
    split; [ exact Hh | ].
    split; [ rewrite Hh; destruct (healthOf w); reflexivity | ].
    rewrite Hempty in He. cbn [app] in He.
    assert (Hfc : locksFree wc) by (unfold locksFree; now rewrite Henv).
    destruct (SystemManagerTask_iteration_event _ [] wc He
                (locksFree_granted 2 wc Hfc)) as (_ & Hc & _).
    { reflexivity. }
    exact Hc.
  - destruct (onDisconnect_effect w Hroom) as (He & Hbits & Hh & Hst & Henv).
    cbn zeta in He, Hbits, Hh, Hst, Henv.
    set (wd := snd (SystemBLEServerCallbacks_onDisconnect w)) in *.
    assert (Hcon : fst (isBLEConnected wd) = false).
    { unfold isBLEConnected. rewrite bind_run. cbn [get_fw ret fst snd].
      rewrite Hbits, connected_bit_cleared. reflexivity. }
    split; [ exact Hcon | ].
    split.
    { unfold isBLEConnectionStable. rewrite bind_run. rewrite Hcon.
      reflexivity. }
    split; [ exact Hh | ].
    split; [ rewrite Hh; destruct (healthOf w); reflexivity | ].
    rewrite Hempty in He. cbn [app] in He.
    assert (Hfd : locksFree wd) by (unfold locksFree; now rewrite Henv).
    destruct (SystemManagerTask_iteration_event _ [] wd He
                (locksFree_granted 2 wd Hfd)) as (_ & Hc & _).
    { reflexivity. }
    exact Hc.
Qed.

Lemma connection_events_drive_state_witness :
  let w := world_in STATE_RECORDING 50000 in
  currentState
    (statusOf
       (snd (SystemManagerTask_iteration
               (snd (SystemBLEServerCallbacks_onDisconnect w)))))
  = STATE_LOGO.
Proof.
  intro w.
  destruct (connection_events_drive_state w) as [_ (_ & _ & _ & _ & H)].
  - reflexivity.
  - reflexivity.
  - exact H.
Defined.

(** ** Indications *)

Lemma uint32_add_l a b : uint32 (uint32 a + b) = uint32 (a + b).
Proof. unfold uint32. apply Zplus_mod_idemp_l. Qed.

Lemma isBLEConnectionStable_pure w : snd (isBLEConnectionStable w) = w.
Proof.
  unfold isBLEConnectionStable, isBLEConnected. rewrite !bind_run.
  cbn [get_fw ret fst snd].
  destruct (negb (negb (Z.land (systemEvents (fw w)) BLE_CONNECTED =? 0)));
    reflexivity.
Qed.

(** One attempt that goes through. *)
Lemma indicate_clear i msg w :
  indicateScript (env w) = [] ->
  let r := indicate i msg w in
  fst r = true
  /\ indications (fw (snd r)) = (indications (fw w) ++ [(i, msg)])%list
  /\ env (snd r) = env w
  /\ statusOf (snd r) = statusOf w
  /\ healthOf (snd r) = healthOf w.
Proof.
  intros Hclear r. subst r. unfold indicate. rewrite bind_run.
  cbn [modify_fw fst snd env fw]. rewrite Hclear.
  cbn [fst snd fw env]. unfold statusOf, healthOf.
  destruct (fw w); cbn. repeat split; reflexivity.
Qed.

Lemma uint32_range x : 0 <= uint32 x < UINT32_MOD.
Proof. unfold uint32. apply Z.mod_pos_bound. reflexivity. Qed.

Lemma uint32_small x : 0 <= x < UINT32_MOD -> uint32 x = x.
Proof. intro H. unfold uint32. apply Z.mod_small. exact H. Qed.

(** The retry loop when every attempt goes through: it does not stop at the
    first success. *)
Lemma indicationRetries_clear i msg mx n : forall retry sa sent w,
  indicateScript (env w) = [] ->
  0 <= tickCount (env w) < UINT32_MOD ->
  n = Z.to_nat (mx - retry) ->
  0 <= retry <= mx ->
  let r := indicationRetries i msg mx n retry sa sent w in
  snd (fst r) = (if retry <? mx then true else sent)
  /\ indications (fw (snd r))
     = (indications (fw w) ++ repeat (i, msg) n)%list
  /\ tickCount (env (snd r))
     = uint32 (tickCount (env w) + 50 * (mx - retry)
               + 150 * Z.max 0 (mx - 1 - retry))
  /\ lockScript (env (snd r)) = lockScript (env w)
  /\ indicateScript (env (snd r)) = []
  /\ statusOf (snd r) = statusOf w
  /\ healthOf (snd r) = healthOf w.
Proof.
  induction n as [ | n IH ]; intros retry sa sent w Hclear Ht Hn Hr r;
    subst r.
  - assert (Hend : retry = mx) by lia. subst retry.
    cbn [indicationRetries ret fst snd repeat]. rewrite Z.ltb_irrefl.
    rewrite app_nil_r. replace (mx - mx) with 0 by lia.
    replace (mx - 1 - mx) with (-1) by lia.
    change (Z.max 0 (-1)) with 0. rewrite !Z.mul_0_r, !Z.add_0_r.
    rewrite (uint32_small _ Ht).
    repeat split; try reflexivity. exact Hclear.
  - assert (Hlt : retry < mx) by lia.
    cbn [indicationRetries]. rewrite (proj2 (Z.ltb_lt _ _) Hlt).
    rewrite bind_run.
    destruct (indicate_clear i msg w Hclear) as (Hok & Hind & Henv & Hst & Hh).
    cbn zeta in Hok, Hind, Henv, Hst, Hh.
    rewrite Hok. set (w1 := snd (indicate i msg w)) in *.
    rewrite !bind_run.
    set (w2 := snd (vTaskDelay (pdMS_TO_TICKS 50) w1)).
    set (w3 := snd ((if retry <? mx - 1
                     then vTaskDelay (pdMS_TO_TICKS 150) else ret tt) w2)).
    assert (Hfw3 : fw w3 = fw w1).
    { subst w3 w2. destruct (retry <? mx - 1); reflexivity. }
    assert (Hls3 : lockScript (env w3) = lockScript (env w)).
    { subst w3 w2. rewrite <- Henv.
      destruct (retry <? mx - 1); reflexivity. }
    assert (His3 : indicateScript (env w3) = []).
    { subst w3 w2. rewrite <- Hclear, <- Henv.
      destruct (retry <? mx - 1); reflexivity. }
    assert (Ht3 : tickCount (env w3)
                  = uint32 (tickCount (env w) + 50
                            + (if retry <? mx - 1 then 150 else 0))).
    { subst w3 w2. rewrite <- Henv.
      destruct (retry <? mx - 1).
      - cbn [vTaskDelay elapse modify_env snd env tickCount
             env_set_tickCount].
        change (pdMS_TO_TICKS 50) with 50.
        change (pdMS_TO_TICKS 150) with 150.
        apply uint32_add_l.
      - cbn [vTaskDelay elapse modify_env ret snd env tickCount
             env_set_tickCount].
        change (pdMS_TO_TICKS 50) with 50. rewrite Z.add_0_r.
        reflexivity. }
    assert (Hrange3 : 0 <= tickCount (env w3) < UINT32_MOD).
    { rewrite Ht3. apply uint32_range. }
    destruct (IH (retry + 1) (sa + 1) true w3 His3 Hrange3 ltac:(lia)
                ltac:(lia)) as (Hs & Hi & Htk & Hl & Hc & Hs' & Hh').
    cbn zeta in Hs, Hi, Htk, Hl, Hc, Hs', Hh'.
    split. { rewrite Hs. destruct (retry + 1 <? mx); reflexivity. }
    split. { rewrite Hi, Hfw3, Hind. rewrite <- app_assoc. reflexivity. }
    split.
    { rewrite Htk, Ht3, <- Z.add_assoc, uint32_add_l. f_equal.
      destruct (retry <? mx - 1) eqn:Hmore.
      - apply Z.ltb_lt in Hmore. lia.
      - apply Z.ltb_ge in Hmore. lia. }
    split; [ rewrite Hl; exact Hls3 | ].
    split; [ exact Hc | ].
    unfold statusOf, healthOf in *. rewrite Hs', Hh', Hfw3.
    split; [ exact Hst | exact Hh ].
Qed.

(** One call that reaches the retry loop, in calm conditions. *)
Lemma sendBLEButtonIndication_calm state i d w :
  calm w ->
  0 <= tickCount (env w) < UINT32_MOD ->
  findIndicationChar state (bleCharacteristics (fw w)) 0 = Some (i, d) ->
  currentState (statusOf w) = state ->
  let w0 := snd (vTaskDelay (pdMS_TO_TICKS 20) w) in
  let mx := retriesFor (fst (isBLEConnectionStable w0)) in
  let w' := snd (sendBLEButtonIndication state w) in
  indications (fw w')
  = (indications (fw w) ++ repeat (i, indicationMessage d) (Z.to_nat mx))
    %list
  /\ tickCount (env w') = uint32 (tickCount (env w) + 20 + retryTicks mx)
  /\ healthOf w' = healthAfter (tickCount (env w')) true (healthOf w)
  /\ statusOf w' = statusOf w
  /\ calm w'.
Proof.
  intros [Hfree Hclear] Ht Hfind Hcur w0 mx w'. subst w'.
  unfold sendBLEButtonIndication. rewrite bind_run. fold w0.
  assert (Hfw0 : fw w0 = fw w) by reflexivity.
  assert (Hfree0 : locksFree w0) by exact Hfree.
  assert (Hclear0 : indicateScript (env w0) = []) by exact Hclear.
  assert (Ht0 : tickCount (env w0) = uint32 (tickCount (env w) + 20))
    by reflexivity.
  rewrite bind_run. rewrite (take_free bleMutex _ w0 Hfree0).
  cbn [fst snd]. rewrite bind_run. rewrite isBLEConnectionStable_pure.
  rewrite bind_run. cbn [get_fw fst snd]. rewrite Hfw0, Hfind.
  rewrite !bind_run. rewrite (take_free stateMutex _ w0 Hfree0).
  cbn [fst snd]. rewrite !bind_run.
  cbn [get_status xSemaphoreGive ret fst snd]. rewrite Hfw0.
  fold (statusOf w). rewrite Hcur, Z.eqb_refl. cbn [negb].
  rewrite !bind_run.
  assert (Hmx : (if negb (fst (isBLEConnectionStable w0)) then 5 else 3)
                = mx).
  { subst mx. unfold retriesFor.
    destruct (fst (isBLEConnectionStable w0)); reflexivity. }
  rewrite Hmx.
  assert (Hpos : 0 < mx).
  { subst mx. unfold retriesFor.
    destruct (fst (isBLEConnectionStable w0)); reflexivity. }
  assert (Hrange0 : 0 <= tickCount (env w0) < UINT32_MOD).
  { rewrite Ht0. apply uint32_range. }
  destruct (indicationRetries_clear i (indicationMessage d) mx
              (Z.to_nat mx) 0 0 false w0 Hclear0 Hrange0)
    as (Hsent & Hind & Htk & Hls & His & Hst & Hh).
  { f_equal. lia. }
  { lia. }
  cbn zeta in Hsent, Hind, Htk, Hls, His, Hst, Hh.
  rewrite (proj2 (Z.ltb_lt 0 mx) Hpos) in Hsent. rewrite Hsent.
  set (w1 := snd (indicationRetries i (indicationMessage d) mx
                    (Z.to_nat mx) 0 0 false w0)) in *.
  unfold updateBLEConnectionHealth. rewrite !bind_run.
  cbn [xTaskGetTickCount modify_health modify_fw xSemaphoreGive ret fst snd
       fw env].
  assert (Htick : tickCount (env w1)
                  = uint32 (tickCount (env w) + 20 + retryTicks mx)).
  { rewrite Htk, Ht0, <- Z.add_assoc, uint32_add_l. f_equal.
    unfold retryTicks. lia. }
  split.
  { rewrite <- Hfw0, <- Hind. destruct (fw w1); reflexivity. }
  split; [ exact Htick | ].
  split.
  { unfold healthOf in *. cbn [fw]. rewrite <- Hfw0, <- Hh.
    destruct (fw w1); reflexivity. }
  split.
  { unfold statusOf in *. cbn [fw]. rewrite <- Hfw0, <- Hst.
    destruct (fw w1); reflexivity. }
  split.
  - unfold locksFree. cbn [env]. rewrite Hls. exact Hfree0.
  - cbn [env]. exact His.
Qed.

(** X19: the retry loop of [sendBLEButtonIndication] does not stop at the
    first success.  In calm conditions (locks free, every attempt going
    through) one call for the current state delivers the indication of the
    state's characteristic 3 times on a stable connection and 5 times
    otherwise, takes 20 ticks plus 50 per attempt plus 150 between attempts,
    and then records one success in the health record: stable, no failures,
    one more in [totalIndicationsSent].  The status record is not touched. *)
Theorem every_attempt_is_delivered :
  forall state i d w,
    calm w ->
    0 <= tickCount (env w) < UINT32_MOD ->
    findIndicationChar state (bleCharacteristics (fw w)) 0 = Some (i, d) ->
    currentState (statusOf w) = state ->
    let stable :=
      fst (isBLEConnectionStable (snd (vTaskDelay (pdMS_TO_TICKS 20) w))) in
    let copies := if stable then 3%nat else 5%nat in
    let w' := snd (sendBLEButtonIndication state w) in
    indications (fw w')
    = (indications (fw w) ++ repeat (i, indicationMessage d) copies)%list
    /\ tickCount (env w')
       = uint32 (tickCount (env w) + 20 + 50 * Z.of_nat copies
                 + 150 * (Z.of_nat copies - 1))
    /\ connectionStable (healthOf w') = true
    /\ indicationFailureCount (healthOf w') = 0
    /\ totalIndicationsSent (healthOf w')
       = uint32 (totalIndicationsSent (healthOf w) + 1)
    /\ statusOf w' = statusOf w.
Proof.
  intros state i d w Hcalm Ht Hfind Hcur stable copies w'.
  subst stable copies w'.
  destruct (sendBLEButtonIndication_calm state i d w Hcalm Ht Hfind Hcur)
    as (Hind & Htick & Hh & Hst & _).
  cbn zeta in Hind, Htick, Hh, Hst.
  unfold retriesFor, retryTicks in *.
  destruct (fst (isBLEConnectionStable
                   (snd (vTaskDelay (pdMS_TO_TICKS 20) w))));
    (split; [ exact Hind | ]);
    (split; [ rewrite Htick; f_equal; lia | ]);
    rewrite Hh; repeat split; try reflexivity; exact Hst.
Qed.

Lemma every_attempt_is_delivered_witness :
  let w := world_in STATE_UNLOCK 1000 in
  indications (fw (snd (sendBLEButtonIndication STATE_UNLOCK w)))
  = repeat (0%nat, "Unlock (Button)") 5.
Proof.
  intro w.
  destruct (every_attempt_is_delivered STATE_UNLOCK 0%nat
              (mkBLECharDef SERVICE1 "19b10001-e8f2-537e-4f6c-d104768a1214"
                 PROPERTY_INDICATE STATE_UNLOCK "Unlock (Button)"
                 (Some (mkBLECharacteristic ""))) w) as [H _].
  - split; reflexivity.
  - vm_compute. split; [ discriminate | reflexivity ].
  - reflexivity.
  - reflexivity.
  - rewrite H. reflexivity.
Defined.

Lemma sendBLEButtonIndication_skips state w :
  currentState (statusOf w) <> state
  \/ findIndicationChar state (bleCharacteristics (fw w)) 0 = None ->
  fw (snd (sendBLEButtonIndication state w)) = fw w.
Proof.
  intro Hskip. unfold sendBLEButtonIndication. rewrite bind_run.
  set (w0 := snd (vTaskDelay (pdMS_TO_TICKS 20) w)).
  assert (Hfw0 : fw w0 = fw w) by reflexivity.
  rewrite bind_run.
  pose proof (keeps_fw_take bleMutex (pdMS_TO_TICKS 200) w0) as Hfw1.
  destruct (xSemaphoreTake bleMutex (pdMS_TO_TICKS 200) w0) as [got w1].
  cbn [fst snd] in *. rewrite Hfw0 in Hfw1.
  destruct got; [ | exact Hfw1 ].
  rewrite bind_run. rewrite isBLEConnectionStable_pure.
  rewrite bind_run. cbn [get_fw fst snd]. rewrite Hfw1.
  destruct (findIndicationChar state (bleCharacteristics (fw w)) 0)
    as [ [i d] | ] eqn:Hfind.
  - destruct Hskip as [Hstale | Hnone]; [ | discriminate ].
    rewrite !bind_run.
    pose proof (keeps_fw_take stateMutex (pdMS_TO_TICKS 10) w1) as Hfw2.
    destruct (xSemaphoreTake stateMutex (pdMS_TO_TICKS 10) w1) as [g w2].
    cbn [fst snd] in *. rewrite Hfw1 in Hfw2.
    destruct g; [ | exact Hfw2 ].
    rewrite !bind_run. cbn [get_status xSemaphoreGive ret fst snd].
    rewrite Hfw2. fold (statusOf w).
    apply Z.eqb_neq in Hstale. rewrite Hstale. exact Hfw2.
  - rewrite !bind_run. exact Hfw1.
Qed.

Lemma findIndicationChar_sound state table : forall k i d,
  findIndicationChar state table k = Some (i, d) ->
  associatedState d = state
  /\ has_property d PROPERTY_INDICATE = true
  /\ indicationMessage d <> ""
  /\ In d table.
Proof.
  induction table as [ | e rest IH ]; intros k i d Hfind.
  - discriminate.
  - cbn [findIndicationChar] in Hfind.
    destruct ((associatedState e =? state)
              && has_property e PROPERTY_INDICATE
              && (match characteristic e with
                  | Some _ => true
                  | None => false
                  end)
              && negb (String.eqb (indicationMessage e) "")) eqn:Hc.
    + injection Hfind as _ ->.
      apply andb_true_iff in Hc. destruct Hc as [Hc Hmsg].
      apply andb_true_iff in Hc. destruct Hc as [Hc _].
      apply andb_true_iff in Hc. destruct Hc as [Hs Hp].
      apply Z.eqb_eq in Hs. apply negb_true_iff, String.eqb_neq in Hmsg.
      repeat split; try assumption. left. reflexivity.
    + destruct (IH _ _ _ Hfind) as (H1 & H2 & H3 & H4).
      repeat split; try assumption. right. exact H4.
Qed.

Lemma findIndicationChar_boot state :
  findIndicationChar state (bleCharacteristics firmware_init) 0 <> None
  <-> state = STATE_UNLOCK \/ state = STATE_RECORDING
      \/ state = STATE_UPLOADING.
Proof.
  split.
  - intro Hsome.
    destruct (findIndicationChar state (bleCharacteristics firmware_init) 0)
      as [ [i d] | ] eqn:Hfind; [ | contradiction ].
    destruct (findIndicationChar_sound _ _ _ _ _ Hfind)
      as (Hs & Hp & _ & Hin).
    cbn in Hin.
    repeat (destruct Hin as [<- | Hin];
            [ first [ discriminate Hp
                    | cbn in Hs; subst state; auto ] | ]).
    contradiction.
  - intros [ -> | [ -> | -> ] ]; vm_compute; discriminate.
Qed.

(** X20: [sendBLEButtonIndication] leaves the whole firmware state as it
    was, sending nothing and recording neither success nor failure, when the
    state it is called for is no longer the current one or has no
    indication characteristic, whatever the locks do.  In the table set up
    at boot only Unlock, Recording and Uploading have one. *)
Theorem indication_skipped :
  forall state w,
    (currentState (statusOf w) <> state
     \/ findIndicationChar state (bleCharacteristics (fw w)) 0 = None ->
     fw (snd (sendBLEButtonIndication state w)) = fw w)
    /\ (findIndicationChar state (bleCharacteristics firmware_init) 0 <> None
        <-> state = STATE_UNLOCK \/ state = STATE_RECORDING
            \/ state = STATE_UPLOADING).
Proof.
  intros state w. split.
  - apply sendBLEButtonIndication_skips.
  - apply findIndicationChar_boot.
Qed.

Lemma indication_skipped_witness :
  let w := world_in STATE_LOGO 1000 in
  fw (snd (sendBLEButtonIndication STATE_UPLOADING w)) = fw w.
Proof.
  intro w. destruct (indication_skipped STATE_UPLOADING w) as [H _].
  apply H. left. vm_compute. discriminate.
Defined.

(** ** Bursts *)

Lemma entryShape_set_value i v table :
  map entryShape (set_characteristic_value i v table) = map entryShape table.
Proof.
  unfold set_characteristic_value.
  destruct (nth_error table i) as [ d | ] eqn:Hd; [ | reflexivity ].
  destruct (characteristic d) as [ chr | ] eqn:Hc; [ | reflexivity ].
  destruct (nth_error_split table i Hd) as (l1 & l2 & Ht & Hlen).
  subst table. rewrite <- Hlen.
  rewrite firstn_app, Nat.sub_diag, firstn_all, firstn_O, app_nil_r.
  replace (skipn (S (List.length l1)) (l1 ++ d :: l2)) with l2.
  - rewrite !map_app. cbn [map]. f_equal. f_equal.
    unfold entryShape. cbn. rewrite Hc. reflexivity.
  - rewrite skipn_app. rewrite (skipn_all2 l1) by lia.
    replace (S (List.length l1) - List.length l1)%nat with 1%nat by lia.
    reflexivity.
Qed.

Lemma findIndicationChar_shape state : forall t1 t2 k,
  map entryShape t1 = map entryShape t2 ->
  option_map (fun p => (fst p, indicationMessage (snd p)))
    (findIndicationChar state t1 k)
  = option_map (fun p => (fst p, indicationMessage (snd p)))
      (findIndicationChar state t2 k).
Proof.
  induction t1 as [ | d1 r1 IH ]; intros [ | d2 r2 ] k Hmap;
    try discriminate; [ reflexivity | ].
  cbn [map] in Hmap.
  assert (Hhead : entryShape d1 = entryShape d2) by congruence.
  assert (Htail : map entryShape r1 = map entryShape r2) by congruence.
  unfold entryShape in Hhead.
  assert (Hs : associatedState d1 = associatedState d2) by congruence.
  assert (Hp : properties d1 = properties d2) by congruence.
  assert (Hm : indicationMessage d1 = indicationMessage d2) by congruence.
  assert (Hc : match characteristic d1 with Some _ => true | None => false end
               = match characteristic d2 with
                 | Some _ => true
                 | None => false
                 end) by congruence.
  cbn [findIndicationChar]. unfold has_property.
  rewrite Hs, Hp, Hm, Hc.
  match goal with
  | |- context [if ?b then _ else _] => destruct b
  end.
  - cbn. rewrite Hm. reflexivity.
  - apply IH. exact Htail.
Qed.

Lemma keeps_shape_indicate i msg : keeps tableShape (indicate i msg).
Proof.
  intro w. unfold indicate. rewrite bind_run.
  set (w1 := snd (modify_fw
                    (fun f =>
                       fw_set_bleCharacteristics
                         (set_characteristic_value i msg
                            (bleCharacteristics f)) f) w)).
  assert (H1 : tableShape w1 = tableShape w).
  { subst w1. unfold tableShape. cbn [modify_fw snd fw].
    replace (bleCharacteristics
               (fw_set_bleCharacteristics
                  (set_characteristic_value i msg (bleCharacteristics (fw w)))
                  (fw w)))
      with (set_characteristic_value i msg (bleCharacteristics (fw w)))
      by (destruct (fw w); reflexivity).
    apply entryShape_set_value. }
  rewrite <- H1. unfold tableShape.
  destruct (indicateScript (env w1)) as [ | [ | ] rest ]; cbn [snd fw];
    destruct (fw w1); reflexivity.
Qed.

Lemma keeps_shape_indicationRetries i msg mx n : forall retry sa sent,
  keeps tableShape (indicationRetries i msg mx n retry sa sent).
Proof.
  induction n as [ | n IH ]; intros retry sa sent; cbn [indicationRetries].
  - apply keeps_ret.
  - destruct (retry <? mx); [ | apply keeps_ret ].
    apply keeps_bind; [ apply keeps_shape_indicate | intros [ | ] ].
    + repeat (apply keeps_bind; [ | intro ]); try apply IH;
        try (destruct (retry <? mx - 1)); keeps_auto.
    + repeat (apply keeps_bind; [ | intro ]); try apply IH;
        try (destruct (retry <? mx - 1)); keeps_auto.
Qed.

Lemma keeps_shape_sendIndication state :
  keeps tableShape (sendBLEButtonIndication state).
Proof.
  unfold sendBLEButtonIndication, isBLEConnectionStable, isBLEConnected,
    updateBLEConnectionHealth.
  keeps_with ltac:(apply keeps_shape_indicationRetries).
Qed.

Lemma indicationOf_shape state w1 w2 :
  tableShape w1 = tableShape w2 ->
  indicationOf state w1 = indicationOf state w2.
Proof. intro H. apply findIndicationChar_shape. exact H. Qed.

Lemma indicationOf_found state i msg w :
  indicationOf state w = Some (i, msg) ->
  exists d,
    findIndicationChar state (bleCharacteristics (fw w)) 0 = Some (i, d)
    /\ indicationMessage d = msg.
Proof.
  unfold indicationOf.
  destruct (findIndicationChar state (bleCharacteristics (fw w)) 0)
    as [ [j d] | ]; [ | discriminate ].
  cbn. intro H. injection H as -> <-. exists d. split; reflexivity.
Qed.

(** One call in calm conditions, ready to be followed by the next. *)
Lemma sendBLEButtonIndication_step state i msg w :
  calm w ->
  0 <= tickCount (env w) < UINT32_MOD ->
  indicationOf state w = Some (i, msg) ->
  currentState (statusOf w) = state ->
  let w' := snd (sendBLEButtonIndication state w) in
  exists copies,
    (copies = 3 \/ copies = 5)
    /\ indications (fw w')
       = (indications (fw w) ++ repeat (i, msg) (Z.to_nat copies))%list
    /\ tickCount (env w')
       = uint32 (tickCount (env w) + 20 + retryTicks copies)
    /\ statusOf w' = statusOf w
    /\ calm w'
    /\ indicationOf state w' = Some (i, msg).
Proof.
  intros Hcalm Ht Hof Hcur w'. subst w'.
  destruct (indicationOf_found state i msg w Hof) as (d & Hfind & Hmsg).
  destruct (sendBLEButtonIndication_calm state i d w Hcalm Ht Hfind Hcur)
    as (Hind & Htick & _ & Hst & Hcalm').
  cbn zeta in Hind, Htick, Hst, Hcalm'. rewrite Hmsg in Hind.
  exists (retriesFor
            (fst (isBLEConnectionStable
                    (snd (vTaskDelay (pdMS_TO_TICKS 20) w))))).
  split.
  { unfold retriesFor. destruct (fst (isBLEConnectionStable _)); auto. }
  split; [ exact Hind | ]. split; [ exact Htick | ].
  split; [ exact Hst | ]. split; [ exact Hcalm' | ].
  rewrite <- Hof. apply indicationOf_shape. apply keeps_shape_sendIndication.
Qed.

(** The loop of a burst in calm conditions. *)
Lemma burst_from_calm state i msg repeats spacing n : forall k w,
  calm w ->
  0 <= tickCount (env w) < UINT32_MOD ->
  indicationOf state w = Some (i, msg) ->
  currentState (statusOf w) = state ->
  n = Z.to_nat (repeats - k) ->
  0 <= k <= repeats ->
  let w' := snd (burst_from state repeats spacing n k w) in
  let gap := pdMS_TO_TICKS spacing * Z.max 0 (Z.of_nat n - 1) in
  exists copies elapsed,
    indications (fw w') = (indications (fw w) ++ repeat (i, msg) copies)%list
    /\ (3 * n <= copies <= 5 * n)%nat
    /\ tickCount (env w') = uint32 (tickCount (env w) + elapsed)
    /\ 470 * Z.of_nat n + gap <= elapsed <= 870 * Z.of_nat n + gap
    /\ statusOf w' = statusOf w
    /\ calm w'.
Proof.
  induction n as [ | n IH ]; intros k w Hcalm Ht Hof Hcur Hn Hk w' gap;
    subst w' gap.
  - exists 0%nat, 0. cbn [burst_from ret snd repeat].
    rewrite app_nil_r, Z.add_0_r, (uint32_small _ Ht).
    change (Z.max 0 (Z.of_nat 0 - 1)) with 0. rewrite Z.mul_0_r.
    repeat split; try reflexivity; try lia; apply Hcalm.
  - assert (Hlt : k < repeats) by lia.
    cbn [burst_from]. rewrite (proj2 (Z.ltb_lt _ _) Hlt).
    rewrite bind_run.
    destruct (sendBLEButtonIndication_step state i msg w Hcalm Ht Hof Hcur)
      as (c1 & Hc1 & Hind1 & Ht1 & Hst1 & Hcalm1 & Hof1).
    cbn zeta in Hind1, Ht1, Hst1, Hcalm1, Hof1.
    set (w1 := snd (sendBLEButtonIndication state w)) in *.
    rewrite bind_run.
    set (w2 := snd ((if k <? repeats - 1
                     then vTaskDelay (pdMS_TO_TICKS spacing) else ret tt)
                      w1)).
    assert (Hfw2 : fw w2 = fw w1).
    { subst w2. destruct (k <? repeats - 1); reflexivity. }
    assert (Hcalm2 : calm w2).
    { subst w2. destruct (k <? repeats - 1); exact Hcalm1. }
    assert (Ht2 : tickCount (env w2)
                  = uint32 (tickCount (env w) + 20 + retryTicks c1
                            + (if k <? repeats - 1
                               then pdMS_TO_TICKS spacing else 0))).
    { subst w2. destruct (k <? repeats - 1).
      - cbn [vTaskDelay elapse modify_env snd env tickCount
             env_set_tickCount].
        rewrite Ht1. apply uint32_add_l.
      - cbn [ret snd]. rewrite Ht1, Z.add_0_r. reflexivity. }
    assert (Hrange2 : 0 <= tickCount (env w2) < UINT32_MOD).
    { rewrite Ht2. apply uint32_range. }
    assert (Hof2 : indicationOf state w2 = Some (i, msg)).
    { unfold indicationOf. rewrite Hfw2. exact Hof1. }
    assert (Hcur2 : currentState (statusOf w2) = state).
    { unfold statusOf. rewrite Hfw2. fold (statusOf w1).
      rewrite Hst1. exact Hcur. }
    destruct (IH (k + 1) w2 Hcalm2 Hrange2 Hof2 Hcur2 ltac:(lia) ltac:(lia))
      as (c & e & Hind & Hc & Htk & He & Hst & Hcalm').
    cbn zeta in Hind, Hc, Htk, He, Hst, Hcalm'.
    assert (Hsp : 0 <= pdMS_TO_TICKS spacing).
    { unfold pdMS_TO_TICKS. apply uint32_range. }
    exists (Z.to_nat c1 + c)%nat,
      (20 + retryTicks c1
       + (if k <? repeats - 1 then pdMS_TO_TICKS spacing else 0) + e).
    split.
    { rewrite Hind, Hfw2, Hind1, <- app_assoc, repeat_app. reflexivity. }
    split.
    { destruct Hc1 as [-> | ->]; cbn; lia. }
    split.
    { rewrite Htk, Ht2, uint32_add_l. f_equal. lia. }
    split.
    { assert (Hr : retryTicks c1 = 450 \/ retryTicks c1 = 850)
        by (destruct Hc1 as [-> | ->]; auto).
      rewrite Nat2Z.inj_succ.
      destruct (k <? repeats - 1) eqn:Hmore.
      - apply Z.ltb_lt in Hmore.
        assert (Hn1 : 1 <= Z.of_nat n) by lia.
        replace (Z.max 0 (Z.succ (Z.of_nat n) - 1)) with
          (1 + Z.max 0 (Z.of_nat n - 1)) by lia.
        nia.
      - apply Z.ltb_ge in Hmore.
        assert (Hn0 : Z.of_nat n = 0) by lia.
        assert (Hm0 : Z.max 0 (Z.of_nat n - 1) = 0) by lia.
        assert (Hm1 : Z.max 0 (Z.succ (Z.of_nat n) - 1) = 0) by lia.
        rewrite Hm0 in He. rewrite Hm1. rewrite Hn0 in *. lia. }
    split; [ | exact Hcalm' ].
    rewrite Hst. unfold statusOf. rewrite Hfw2. exact Hst1.
Qed.

Lemma pdMS_TO_TICKS_small x : 0 <= x <= 4000000 -> pdMS_TO_TICKS x = x.
Proof.
  intro H. unfold pdMS_TO_TICKS, configTICK_RATE_HZ.
  rewrite (uint32_small (x * 1000)) by (unfold UINT32_MOD; lia).
  rewrite Z.div_mul by lia. apply uint32_small. unfold UINT32_MOD. lia.
Qed.

Lemma burst_calm state i msg repeats spacing w :
  calm w ->
  indicationOf state w = Some (i, msg) ->
  currentState (statusOf w) = state ->
  1 <= repeats <= 1000 ->
  0 <= spacing <= 1000 ->
  0 <= tickCount (env w) ->
  tickCount (env w) + 2000000 < UINT32_MOD ->
  let w' := snd (sendBLEButtonIndicationBurst state repeats spacing true w) in
  let now := tickCount (env w) in
  let gap := spacing * (repeats - 1) in
  suppressionOf w' = (state, now + gap + 120)
  /\ now + 470 * repeats + gap <= tickCount (env w')
     <= now + 870 * repeats + gap
  /\ (exists copies,
        (3 * Z.to_nat repeats <= copies <= 5 * Z.to_nat repeats)%nat
        /\ indications (fw w')
           = (indications (fw w) ++ repeat (i, msg) copies)%list)
  /\ bleBurstActive (statusOf w') = false
  /\ lockScript (env w') = [].
Proof.
  intros Hcalm Hof Hcur Hrep Hsp Ht0 Ht1 w' now gap. subst w' now gap.
  destruct Hcalm as [Hfree Hclear].
  set (deadline := uint32 (tickCount (env w)
                           + pdMS_TO_TICKS
                               (burstSuppressionMs repeats spacing))).
  assert (Hdead : deadline
                  = tickCount (env w) + spacing * (repeats - 1) + 120).
  { subst deadline. unfold burstSuppressionMs.
    rewrite (proj2 (Z.ltb_lt 0 repeats)) by lia.
    assert (Hw : 0 <= (repeats - 1) * spacing + 120 <= 4000000) by nia.
    rewrite (uint32_small ((repeats - 1) * spacing + 120))
      by (unfold UINT32_MOD; lia).
    rewrite (pdMS_TO_TICKS_small _ Hw).
    rewrite uint32_small by (unfold UINT32_MOD in *; nia). lia. }
  set (w2 := mkWorld
               (fw_set_systemStatus
                  (set_suppressAppCmdUntil deadline
                     (set_lastBurstState state
                        (set_bleBurstActive true (statusOf w))))
                  (fw w))
               (env w)).
  set (w3 := snd (burst_from state repeats spacing (Z.to_nat repeats) 0 w2)).
  assert (Henv2 : env w2 = env w) by reflexivity.
  assert (Hcalm2 : calm w2) by (split; [ exact Hfree | exact Hclear ]).
  assert (Hst2 : statusOf w2
                 = set_suppressAppCmdUntil deadline
                     (set_lastBurstState state
                        (set_bleBurstActive true (statusOf w)))).
  { subst w2. unfold statusOf. cbn. destruct (fw w); reflexivity. }
  assert (Hind2 : indications (fw w2) = indications (fw w)).
  { subst w2. cbn. destruct (fw w); reflexivity. }
  assert (Hof2 : indicationOf state w2 = Some (i, msg)).
  { rewrite <- Hof. apply indicationOf_shape. subst w2.
    unfold tableShape. cbn. destruct (fw w); reflexivity. }
  assert (Hcur2 : currentState (statusOf w2) = state)
    by (rewrite Hst2; exact Hcur).
  assert (Hrange2 : 0 <= tickCount (env w2) < UINT32_MOD)
    by (rewrite Henv2; lia).
  destruct (burst_from_calm state i msg repeats spacing (Z.to_nat repeats)
              0 w2 Hcalm2 Hrange2 Hof2 Hcur2)
    as (copies & elapsed & Hind & Hcopies & Htk & Hel & Hst3 & Hcalm3).
  { f_equal. lia. }
  { lia. }
  cbn zeta in Hind, Hcopies, Htk, Hel, Hst3, Hcalm3.
  fold w3 in Hind, Htk, Hst3, Hcalm3.
  assert (Hrun : snd (sendBLEButtonIndicationBurst state repeats spacing true
                        w)
                 = mkWorld
                     (fw_set_systemStatus
                        (set_bleBurstActive false (statusOf w3)) (fw w3))
                     (env w3)).
  { unfold sendBLEButtonIndicationBurst, startAppCmdSuppression.
    rewrite bind_run. rewrite (take_free stateMutex _ w Hfree).
    cbn [fst snd]. rewrite bind_run.
    set (w1 := snd ((modify_status (set_bleBurstActive true) ;;
                     xSemaphoreGive stateMutex) w)).
    assert (Hfree1 : locksFree w1) by exact Hfree.
    rewrite bind_run. cbv iota.
    rewrite (bind_run (xSemaphoreTake stateMutex (pdMS_TO_TICKS 50))).
    rewrite (take_free stateMutex _ w1 Hfree1). cbn [fst snd].
    assert (H2 : snd ((now <- xTaskGetTickCount ;;
                       modify_status
                         (fun s =>
                            set_suppressAppCmdUntil
                              (uint32
                                 (now
                                  + pdMS_TO_TICKS
                                      (burstSuppressionMs repeats spacing)))
                              (set_lastBurstState state s)) ;;
                       xSemaphoreGive stateMutex) w1) = w2).
    { subst w1 w2. unfold statusOf. cbn. destruct (fw w); reflexivity. }
    rewrite H2. rewrite bind_run. fold w3. rewrite bind_run.
    rewrite (take_free stateMutex _ w3 (proj1 Hcalm3)). reflexivity. }
  rewrite Hrun.
  rewrite (pdMS_TO_TICKS_small spacing) in Hel by lia.
  rewrite Z2Nat.id in Hel by lia.
  replace (Z.max 0 (repeats - 1)) with (repeats - 1) in Hel by lia.
  rewrite Henv2 in Htk.
  rewrite uint32_small in Htk by (unfold UINT32_MOD in *; nia).
  unfold suppressionOf. cbn [env].
  assert (Hst4 : statusOf
                   (mkWorld
                      (fw_set_systemStatus
                         (set_bleBurstActive false (statusOf w3)) (fw w3))
                      (env w3))
                 = set_bleBurstActive false (statusOf w3)).
  { unfold statusOf. cbn. destruct (fw w3); reflexivity. }
  rewrite Hst4, Hst3, Hst2.
  split; [ cbn; rewrite Hdead; reflexivity | ].
  split; [ rewrite Htk; lia | ].
  split.
  { exists copies. split; [ exact Hcopies | ].
    rewrite <- Hind2, <- Hind. cbn [fw]. destruct (fw w3); reflexivity. }
  split; [ reflexivity | exact (proj1 Hcalm3) ].
Qed.

(** X21: a burst asked to suppress, run in calm conditions for the current
    state, outlasts its own suppression window.  The window closes
    [(repeats - 1) * spacing + 120] ticks after the start, while every call
    of the burst takes at least 470 ticks (20, then 3 or 5 attempts), so the
    burst returns at least [470 * repeats + spacing * (repeats - 1)] ticks
    after the start, having delivered between 3 and 5 indications per
    call: by then a command for the same state is let through again. *)
Theorem burst_outlasts_suppression :
  forall state i msg repeats spacing w,
    calm w ->
    indicationOf state w = Some (i, msg) ->
    currentState (statusOf w) = state ->
    1 <= repeats <= 1000 ->
    0 <= spacing <= 1000 ->
    0 <= tickCount (env w) ->
    tickCount (env w) + 2000000 < UINT32_MOD ->
    let w' :=
      snd (sendBLEButtonIndicationBurst state repeats spacing true w) in
    let now := tickCount (env w) in
    let gap := spacing * (repeats - 1) in
    suppressionOf w' = (state, now + gap + 120)
    /\ now + 470 * repeats + gap <= tickCount (env w')
       <= now + 870 * repeats + gap
    /\ (exists copies,
          (3 * Z.to_nat repeats <= copies <= 5 * Z.to_nat repeats)%nat
          /\ indications (fw w')
             = (indications (fw w) ++ repeat (i, msg) copies)%list)
    /\ bleBurstActive (statusOf w') = false
    /\ fst (isAppCmdSuppressed state w') = false.
Proof.
  intros state i msg repeats spacing w Hcalm Hof Hcur Hrep Hsp Ht0 Ht1
    w' now gap.
  subst w' now gap.
  destruct (burst_calm state i msg repeats spacing w Hcalm Hof Hcur Hrep Hsp
              Ht0 Ht1) as (Hsup & Htick & Hcopies & Hflag & Hfree).
  cbn zeta in Hsup, Htick, Hcopies, Hflag, Hfree.
  split; [ exact Hsup | ]. split; [ exact Htick | ].
  split; [ exact Hcopies | ]. split; [ exact Hflag | ].
  rewrite isAppCmdSuppressed_spec, Hsup, Hfree. cbn [nth fst snd].
  rewrite Z.eqb_refl. cbn [andb]. apply Z.ltb_ge. nia.
Qed.

Lemma burst_outlasts_suppression_witness :
  let w := world_in STATE_RECORDING 1000 in
  let w' := snd (sendBLEButtonIndicationBurst STATE_RECORDING 3 30 true w) in
  suppressionOf w' = (STATE_RECORDING, 1180)
  /\ 2470 <= tickCount (env w').
Proof.
  intros w w'.
  destruct (burst_outlasts_suppression STATE_RECORDING 2%nat
              "Record (Button)" 3 30 w) as (Hsup & Htick & _).
  - split; reflexivity.
  - reflexivity.
  - reflexivity.
  - lia.
  - lia.
  - vm_compute. discriminate.
  - vm_compute. reflexivity.
  - fold w' in Hsup, Htick. split; [ exact Hsup | ].
    change (tickCount (env w)) with 1000 in Htick. lia.
Defined.

(** ** The web app against the firmware *)

Lemma getCharacteristic_layout service uuid : forall t1 t2 k,
  map entryLayout t1 = map entryLayout t2 ->
  getCharacteristic service uuid t1 k = getCharacteristic service uuid t2 k.
Proof.
  induction t1 as [ | d1 r1 IH ]; intros [ | d2 r2 ] k Hmap;
    try discriminate; [ reflexivity | ].
  cbn [map] in Hmap.
  assert (Hhead : entryLayout d1 = entryLayout d2) by congruence.
  assert (Htail : map entryLayout r1 = map entryLayout r2) by congruence.
  unfold entryLayout in Hhead.
  assert (Hs : serviceUUID d1 = serviceUUID d2) by congruence.
  assert (Hu : charUUID d1 = charUUID d2) by congruence.
  cbn [getCharacteristic]. rewrite Hs, Hu.
  destruct (String.eqb (serviceUUID d2) service
            && String.eqb (charUUID d2) uuid); [ reflexivity | ].
  apply IH. exact Htail.
Qed.

(** An entry of a table with the boot layout. *)
Lemma bootLayout_entry w i d0 :
  bootLayout w ->
  nth_error (bleCharacteristics firmware_init) i = Some d0 ->
  exists d,
    nth_error (bleCharacteristics (fw w)) i = Some d
    /\ entryLayout d = entryLayout d0.
Proof.
  intros Hboot Hd0. unfold bootLayout in Hboot.
  pose proof (map_nth_error entryLayout i _ Hd0) as Hm.
  rewrite <- Hboot in Hm.
  rewrite nth_error_map in Hm.
  destruct (nth_error (bleCharacteristics (fw w)) i) as [ d | ];
    [ | discriminate ].
  exists d. split; [ reflexivity | ]. cbn in Hm. congruence.
Qed.

Lemma entryLayout_fields d d0 :
  entryLayout d = entryLayout d0 ->
  properties d = properties d0
  /\ associatedState d = associatedState d0
  /\ (characteristic d0 <> None -> characteristic d <> None).
Proof.
  unfold entryLayout, entryShape. intro H.
  assert (Hp : properties d = properties d0) by congruence.
  assert (Hs : associatedState d = associatedState d0) by congruence.
  assert (Hc : match characteristic d with Some _ => true | None => false end
               = match characteristic d0 with
                 | Some _ => true
                 | None => false
                 end) by congruence.
  split; [ exact Hp | ]. split; [ exact Hs | ].
  intros H0 H1. rewrite H1 in Hc.
  destruct (characteristic d0); [ discriminate | contradiction ].
Qed.

(** A write button whose characteristic the firmware offers for writing. *)
Lemma sendCommand_path service uuid command i d0 s w :
  bootLayout w ->
  getCharacteristic service uuid (bleCharacteristics firmware_init) 0
  = Some i ->
  nth_error (bleCharacteristics firmware_init) i = Some d0 ->
  has_property d0 PROPERTY_WRITE = true ->
  characteristic d0 <> None ->
  TokenMapsTo (c_str command) s ->
  locksFree w ->
  bleCommandQueue (fw w) = [] ->
  eventsOf w = [] ->
  suppressAppCmdUntil (statusOf w) <= tickCount (env w) ->
  let r1 := WebApp.sendCommand service uuid command w in
  let w2 := snd (BLEManagerTask_iteration (snd r1)) in
  fst r1 = true
  /\ currentState (statusOf (snd (SystemManagerTask_iteration w2))) = s.
Proof.
  intros Hboot Hget Hd0 Hprop Hchr Hmap Hfree Hcq Heq Hsup r1 w2.
  subst r1 w2.
  destruct (bootLayout_entry w i d0 Hboot Hd0) as (d & Hd & Hlay).
  destruct (entryLayout_fields d d0 Hlay) as (Hp & _ & Hc).
  assert (Hw : writable i w).
  { destruct (characteristic d) as [ chr | ] eqn:Echr.
    - exists d, chr. split; [ exact Hd | ]. split; [ | exact Echr ].
      unfold has_property in *. rewrite Hp. exact Hprop.
    - exfalso. apply (Hc Hchr). reflexivity. }
  assert (Hrun : WebApp.sendCommand service uuid command w
                 = (gattWrite i command ;; ret true) w).
  { unfold WebApp.sendCommand. rewrite bind_run. cbn [get_fw fst snd].
    rewrite (getCharacteristic_layout service uuid _ _ 0%nat Hboot).
    rewrite Hget, Hd. unfold has_property in *. rewrite Hp, Hprop.
    reflexivity. }
  rewrite Hrun. rewrite bind_run. cbn [ret fst snd].
  split; [ reflexivity | ].
  destruct (app_command_path i command s w Hw Hmap Hfree Hcq Heq)
    as (_ & Hcur & _).
  { apply andb_false_iff. right. apply Z.ltb_ge. exact Hsup. }
  exact Hcur.
Qed.

(** X22: every write button of the web app except [Send Sleep] drives the
    firmware into the state its name stands for.  On a table with the boot
    layout, with the locks free, the queues empty and no suppression window
    open, the click, one pass of the BLE manager and one pass of the system
    manager end in Unlock, Recording, Uploading, Login or Logo for the
    buttons Unlock, Record, Upload, Login and Logout.  [Send Sleep] writes
    to a characteristic the firmware offers for reading only: the write
    fails and nothing changes.  No button sends [Setup]. *)
Theorem app_buttons_drive_firmware :
  forall c w,
    In c WebApp.COMMANDS ->
    WebApp.canWrite c = true ->
    bootLayout w ->
    locksFree w ->
    bleCommandQueue (fw w) = [] ->
    eventsOf w = [] ->
    suppressAppCmdUntil (statusOf w) <= tickCount (env w) ->
    let r1 :=
      WebApp.sendCommand (WebApp.serviceUUID c) (WebApp.uuid c)
        (WebApp.name c) w in
    let w2 := snd (BLEManagerTask_iteration (snd r1)) in
    let reached :=
      currentState (statusOf (snd (SystemManagerTask_iteration w2))) in
    (WebApp.name c = "Sleep" /\ fst r1 = false /\ fw (snd r1) = fw w)
    \/ (fst r1 = true
        /\ TokenMapsTo (WebApp.name c) reached
        /\ reached <> STATE_SETUP).
Proof.
  intros c w Hin Hcw Hboot Hfree Hcq Heq Hsup r1 w2 reached.
  subst r1 w2 reached.
  cbn [WebApp.COMMANDS In] in Hin.
  repeat (destruct Hin as [ <- | Hin ]; [ try discriminate Hcw | ]);
    try contradiction;
    cbn [WebApp.serviceUUID WebApp.uuid WebApp.name].
  - right.
    destruct (sendCommand_path SERVICE1
                "19b10002-e8f2-537e-4f6c-d104768a1214" "Unlock" 1%nat
                _ STATE_UNLOCK w Hboot eq_refl eq_refl eq_refl
                ltac:(discriminate) maps_Unlock Hfree Hcq Heq Hsup)
      as [Hok Hs].
    cbn zeta in Hok, Hs. rewrite Hs.
    split; [ exact Hok | ]. split; [ constructor | discriminate ].
  - right.
    destruct (sendCommand_path SERVICE1
                "19b10004-e8f2-537e-4f6c-d104768a1214" "Record" 3%nat
                _ STATE_RECORDING w Hboot eq_refl eq_refl eq_refl
                ltac:(discriminate) maps_Record Hfree Hcq Heq Hsup)
      as [Hok Hs].
    cbn zeta in Hok, Hs. rewrite Hs.
    split; [ exact Hok | ]. split; [ constructor | discriminate ].
  - right.
    destruct (sendCommand_path SERVICE2
                "19b20001-e8f2-537e-4f6c-d104768a1214" "Upload" 5%nat
                _ STATE_UPLOADING w Hboot eq_refl eq_refl eq_refl
                ltac:(discriminate) maps_Upload Hfree Hcq Heq Hsup)
      as [Hok Hs].
    cbn zeta in Hok, Hs. rewrite Hs.
    split; [ exact Hok | ]. split; [ constructor | discriminate ].
  - right.
    destruct (sendCommand_path SERVICE2
                "19b20003-e8f2-537e-4f6c-d104768a1214" "Login" 7%nat
                _ STATE_LOGIN w Hboot eq_refl eq_refl eq_refl
                ltac:(discriminate) (maps_Login "") Hfree Hcq Heq Hsup)
      as [Hok Hs].
    cbn zeta in Hok, Hs. rewrite Hs.
    split; [ exact Hok | ].
    split; [ exact (maps_Login "") | discriminate ].
  - right.
    destruct (sendCommand_path SERVICE2
                "19b20004-e8f2-537e-4f6c-d104768a1214" "Logout" 8%nat
                _ STATE_LOGO w Hboot eq_refl eq_refl eq_refl
                ltac:(discriminate) maps_Logout Hfree Hcq Heq Hsup)
      as [Hok Hs].
    cbn zeta in Hok, Hs. rewrite Hs.
    split; [ exact Hok | ]. split; [ constructor | discriminate ].
  - left. split; [ reflexivity | ].
    destruct (bootLayout_entry w 9%nat _ Hboot eq_refl) as (d & Hd & Hlay).
    destruct (entryLayout_fields d _ Hlay) as (Hp & _ & _).
    unfold WebApp.sendCommand. rewrite bind_run. cbn [get_fw fst snd].
    rewrite (getCharacteristic_layout SERVICE2
               "19b20005-e8f2-537e-4f6c-d104768a1214" _ _ 0%nat Hboot).
    change (getCharacteristic SERVICE2
              "19b20005-e8f2-537e-4f6c-d104768a1214"
              (bleCharacteristics firmware_init) 0) with (Some 9%nat).
    cbv beta iota. rewrite Hd. unfold has_property. rewrite Hp.
    split; reflexivity.
Qed.

Lemma app_buttons_drive_firmware_witness :
  let c :=
    WebApp.mkCommand SERVICE1 "19b10004-e8f2-537e-4f6c-d104768a1214"
      "Record" false true false false in
  let w := world_in STATE_UNLOCK 4000 in
  let r1 :=
    WebApp.sendCommand (WebApp.serviceUUID c) (WebApp.uuid c)
      (WebApp.name c) w in
  let w2 := snd (BLEManagerTask_iteration (snd r1)) in
  currentState (statusOf (snd (SystemManagerTask_iteration w2)))
  <> STATE_SETUP.
Proof.
  intros c w r1 w2.
  destruct (app_buttons_drive_firmware c w)
    as [ (Hname & _) | (_ & _ & Hno) ].
  - cbn. tauto.
  - reflexivity.
  - reflexivity.
  - reflexivity.
  - reflexivity.
  - reflexivity.
  - vm_compute. discriminate.
  - discriminate Hname.
  - exact Hno.
Defined.

Ltac try_commands l :=
  let l' := eval cbv [WebApp.COMMANDS] in l in
  match l' with
  | ?c :: ?rest =>
      first
        [ exists c; split; [ cbn; tauto | split; reflexivity ]
        | try_commands rest ]
  end.

(** X23: the web app's command table against the firmware's characteristic
    table.  Every entry of the app names a characteristic the firmware has,
    under the same service; the app subscribes exactly where the firmware
    indicates, and there the app's name is the text the firmware sends;
    apart from [Sleep], which the app offers for writing and the firmware
    for reading only, the read and write flags agree, and the name of every
    write entry is a token the gateway maps to the state associated with
    the characteristic it is written to.  The only characteristic of the
    firmware without an entry in the app is the one for Setup. *)
Theorem app_table_matches_firmware :
  let table := bleCharacteristics firmware_init in
  (forall c,
      In c WebApp.COMMANDS ->
      exists i d,
        getCharacteristic (WebApp.serviceUUID c) (WebApp.uuid c) table 0
        = Some i
        /\ nth_error table i = Some d
        /\ WebApp.canIndicate c = has_property d PROPERTY_INDICATE
        /\ (WebApp.canIndicate c = true ->
            indicationMessage d = WebApp.name c)
        /\ (WebApp.name c <> "Sleep" ->
            WebApp.canWrite c = has_property d PROPERTY_WRITE
            /\ WebApp.canRead c = has_property d PROPERTY_READ
            /\ (WebApp.canWrite c = true ->
                TokenMapsTo (WebApp.name c) (associatedState d)))
        /\ (WebApp.name c = "Sleep" ->
            WebApp.canWrite c = true
            /\ has_property d PROPERTY_WRITE = false
            /\ BLEManagerTask_parse (WebApp.name c) = None))
  /\ (forall d,
        In d table ->
        associatedState d = STATE_SETUP
        \/ exists c,
             In c WebApp.COMMANDS
             /\ WebApp.serviceUUID c = serviceUUID d
             /\ WebApp.uuid c = charUUID d).
Proof.
  intro table. subst table. split.
  - intros c Hin. cbn [WebApp.COMMANDS In] in Hin.
    repeat (destruct Hin as [ <- | Hin ]; [ | ]); try contradiction;
      (eexists; eexists;
       split; [ vm_compute; reflexivity | ];
       split; [ vm_compute; reflexivity | ];
       split; [ reflexivity | ];
       split; [ intro H; first [ discriminate H | reflexivity ] | ];
       split;
       [ intro Hn;
         first
           [ exfalso; apply Hn; reflexivity
           | split; [ reflexivity | ];
             split; [ reflexivity | ];
             intro H;
             first [ discriminate H | constructor | exact (maps_Login "") ] ]
       | intro Hn;
         first [ discriminate Hn | repeat split; reflexivity ] ]).
  - intros d Hin. cbn in Hin.
    repeat (destruct Hin as [ <- | Hin ]; [ | ]); try contradiction;
      first [ left; reflexivity | right; try_commands WebApp.COMMANDS ].
Qed.

(** ** Button reactions *)



(** ** The legacy sketch *)

Lemma legacy_indicateAll t :
  Legacy.indicateAll t Legacy.bleCommands 0
  = match t with
    | Legacy.CMD_UNLOCK => [(0%nat, "")]
    | Legacy.CMD_START_RECORD => [(2%nat, "")]
    | Legacy.CMD_UPLOAD => [(4%nat, "")]
    | _ => []
    end.
Proof. destruct t; reflexivity. Qed.

Lemma legacy_indicateAll_pass s cmd rest :
  Legacy.commandQueue s = cmd :: rest ->
  Legacy.sketchState (Legacy.BLECommandTask s) = Legacy.type cmd
  /\ Legacy.commandQueue (Legacy.BLECommandTask s) = rest.
Proof.
  intro Hq. unfold Legacy.BLECommandTask. rewrite Hq. split; reflexivity.
Qed.

(** X25: the command task of the legacy sketch.  One pass takes the oldest
    command off the queue and makes its type the current state, whatever the
    state was; for Unlock, Record and Upload it sends one indication with an
    empty value on the button characteristic of that command (positions 0, 2
    and 4 of the table), for every other command none.  A token written by
    the app therefore puts the sketch into the state that stands for the one
    the dual-core gateway maps the token to, and a disconnection into
    Logout. *)
Theorem legacy_command_task :
  (forall cmd rest s,
      Legacy.commandQueue s = cmd :: rest ->
      let s' := Legacy.BLECommandTask s in
      Legacy.sketchState s' = Legacy.type cmd
      /\ Legacy.commandQueue s' = rest
      /\ Legacy.indicated s'
         = (Legacy.indicated s
            ++ match Legacy.type cmd with
               | Legacy.CMD_UNLOCK => [(0%nat, "")]
               | Legacy.CMD_START_RECORD => [(2%nat, "")]
               | Legacy.CMD_UPLOAD => [(4%nat, "")]
               | _ => []
               end)%list)
  /\ (forall bytes cmd s,
        Legacy.commandQueue s = [] ->
        Legacy.onWrite bytes = Some cmd ->
        exists state,
          Legacy.stateOf
            (Legacy.sketchState
               (Legacy.BLECommandTask (Legacy.queueCommand cmd s)))
          = Some state
          /\ TokenMapsTo (c_str bytes) state)
  /\ (forall s,
        Legacy.commandQueue s = [] ->
        Legacy.sketchState (Legacy.BLECommandTask (Legacy.onDisconnect s))
        = Legacy.CMD_LOGOUT).
Proof.
  split; [ | split ].
  - intros cmd rest s Hq s'. subst s'. unfold Legacy.BLECommandTask.
    rewrite Hq. cbn [Legacy.sketchState Legacy.commandQueue Legacy.indicated].
    rewrite legacy_indicateAll. repeat split; reflexivity.
  - intros bytes cmd s Hq Hw.
    pose proof (legacy_onWrite_rules bytes) as Hrules. rewrite Hw in Hrules.
    destruct Hrules as (state & Hstate & Hmap & _).
    exists state. split; [ | exact Hmap ].
    unfold Legacy.queueCommand, Legacy.BLECommandTask. rewrite Hq.
    cbn. exact Hstate.
  - intros s Hq.
    unfold Legacy.onDisconnect, Legacy.queueCommand, Legacy.BLECommandTask.
    rewrite Hq. reflexivity.
Qed.

Lemma legacy_command_task_witness :
  let s := Legacy.mkSketch Legacy.CMD_LOGOUT [] [] [] in
  exists cmd,
    Legacy.onWrite "Record" = Some cmd
    /\ Legacy.indicated (Legacy.BLECommandTask (Legacy.queueCommand cmd s))
       = [(2%nat, "")].
Proof.
  intro s. exists (Legacy.mkCommand Legacy.CMD_START_RECORD "Record").
  split; [ reflexivity | ].
  destruct legacy_command_task as [Hpass _].
  destruct (Hpass (Legacy.mkCommand Legacy.CMD_START_RECORD "Record") []
              (Legacy.queueCommand
                 (Legacy.mkCommand Legacy.CMD_START_RECORD "Record") s))
    as (_ & _ & Hind).
  - reflexivity.
  - rewrite Hind. reflexivity.
Defined.

Lemma legacy_queueCommand_room cmd s :
  (List.length (Legacy.commandQueue s) < 10)%nat ->
  Legacy.queueCommand cmd s
  = Legacy.mkSketch (Legacy.sketchState s) (Legacy.commandQueue s ++ [cmd])
      (Legacy.indicated s) (Legacy.oled s).
Proof.
  intro Hroom. unfold Legacy.queueCommand.
  apply Nat.ltb_lt in Hroom. rewrite Hroom. reflexivity.
Qed.

(** One pass of the legacy button task while the button was down at the
    pass before. *)
Lemma legacy_ButtonTask_down curr now l s :
  (List.length (Legacy.commandQueue s) < 10)%nat ->
  Legacy.last l = LOW ->
  let r := Legacy.ButtonTask curr now l s in
  let s' := snd (fst r) in
  let long := 2000 <=? uint32 (now - Legacy.pressStart l) in
  Legacy.sketchState s' = Legacy.sketchState s
  /\ Legacy.pressStart (fst (fst r)) = Legacy.pressStart l
  /\ Legacy.last (fst (fst r)) = curr
  /\ Legacy.commandQueue s'
     = (Legacy.commandQueue s
        ++ match curr, long, Legacy.sketchState s with
           | false, true, Legacy.CMD_LOGIN =>
               [Legacy.mkCommand Legacy.CMD_UNLOCK ""]
           | false, true, Legacy.CMD_START_RECORD =>
               [Legacy.mkCommand Legacy.CMD_UPLOAD ""]
           | true, false, Legacy.CMD_UNLOCK =>
               [Legacy.mkCommand Legacy.CMD_START_RECORD ""]
           | _, _, _ => []
           end)%list.
Proof.
  intros Hroom Hlast r s' long. subst r s' long.
  unfold Legacy.ButtonTask. rewrite Hlast.
  change (Bool.eqb LOW HIGH) with false. change (Bool.eqb LOW LOW) with true.
  cbn [andb].
  destruct curr.
  - change (Bool.eqb true LOW) with false.
    change (Bool.eqb true HIGH) with true. cbv iota.
    rewrite Z.ltb_antisym.
    destruct (2000 <=? uint32 (now - Legacy.pressStart l));
      destruct (Legacy.sketchState s) eqn:Est; cbn [negb andb
        Legacy.CommandType_eqb fst snd Legacy.sketchState
        Legacy.commandQueue Legacy.pressStart Legacy.last];
      rewrite ?(legacy_queueCommand_room _ s Hroom);
      cbn [Legacy.sketchState Legacy.commandQueue];
      rewrite ?app_nil_r; rewrite ?Est; repeat split; reflexivity.
  - change (Bool.eqb false LOW) with true. cbv iota zeta.
    destruct (2000 <=? uint32 (now - Legacy.pressStart l));
      destruct (Legacy.sketchState s) eqn:Est;
      cbn [negb andb orb Legacy.CommandType_eqb];
      repeat match goal with
             | |- context [if ?b then _ else _] =>
                 lazymatch b with
                 | context [Legacy.sketchState] => fail
                 | _ => destruct b
                 end
             end;
      cbn [negb andb orb Legacy.CommandType_eqb fst snd Legacy.sketchState
           Legacy.commandQueue Legacy.pressStart Legacy.last];
      rewrite ?Est; cbn [Legacy.CommandType_eqb];
      try match goal with
          | |- context [Legacy.queueCommand ?c ?x] =>
              rewrite (legacy_queueCommand_room c x)
                by (cbn [Legacy.commandQueue]; exact Hroom)
          end;
      cbn [fst snd Legacy.sketchState Legacy.commandQueue Legacy.pressStart
           Legacy.last];
      rewrite ?app_nil_r; rewrite ?Est; repeat split; reflexivity.
Qed.

(** X26: the button task of the legacy sketch against the dual-core
    firmware.  While the button has been down, a pass with room in the
    queue sends at most one command: on a hold of 2000 ms or more the one
    the dual-core firmware picks for a long press in the corresponding
    state, on a release before 2000 ms the one it picks for a short press,
    except that the legacy sketch has no reaction to a short press while
    recording; the state itself is left to the command task.  Once a hold in
    Login has sent Unlock and the command task has run, no later pass of the
    same press sends anything: the machine stays unlocked with an empty
    queue.  The countdown is behind: between 2000 and 2499 ms the pass that
    sends Unlock still prints that unlocking is one second away. *)
Theorem legacy_button_task :
  forall curr now l s,
    (List.length (Legacy.commandQueue s) < 10)%nat ->
    Legacy.last l = LOW ->
    let r := Legacy.ButtonTask curr now l s in
    let s' := snd (fst r) in
    let elapsed := uint32 (now - Legacy.pressStart l) in
    (exists sent,
        Legacy.commandQueue s' = (Legacy.commandQueue s ++ sent)%list
        /\ Legacy.sketchState s' = Legacy.sketchState s
        /\ forall state,
             Legacy.stateOf (Legacy.sketchState s) = Some state ->
             map (fun c => Legacy.stateOf (Legacy.type c)) sent
             = match
                 HardwareTask_choice (2000 <=? elapsed) state
               with
               | Some (_, target, _) =>
                   if Bool.eqb curr LOW then
                     if 2000 <=? elapsed then [Some target] else []
                   else if (2000 <=? elapsed) || (state =? STATE_RECORDING)
                        then [] else [Some target]
               | None => []
               end)
    /\ (Legacy.commandQueue s = [] ->
        Legacy.sketchState s = Legacy.CMD_LOGIN ->
        curr = LOW ->
        2000 <= elapsed ->
        forall curr2 now2,
          2000 <= uint32 (now2 - Legacy.pressStart l) ->
          let s2 := Legacy.BLECommandTask s' in
          let s3 :=
            snd (fst (Legacy.ButtonTask curr2 now2 (fst (fst r)) s2)) in
          Legacy.sketchState s3 = Legacy.CMD_UNLOCK
          /\ Legacy.commandQueue s3 = [])
    /\ (Legacy.sketchState s = Legacy.CMD_LOGIN ->
        curr = LOW ->
        Legacy.countdownStarted l = true ->
        2000 <= elapsed < 2500 ->
        Legacy.oled s' = (Legacy.oled s ++ [Legacy.UnlockIn 1])%list
        /\ Legacy.commandQueue s'
           = (Legacy.commandQueue s
              ++ [Legacy.mkCommand Legacy.CMD_UNLOCK ""])%list).
Proof.
  intros curr now l s Hroom Hlast r s' elapsed. subst r s' elapsed.
  destruct (legacy_ButtonTask_down curr now l s Hroom Hlast)
    as (Hst & Hps & Hl & Hq).
  cbn zeta in Hst, Hps, Hl, Hq.
  split; [ | split ].
  - eexists. split; [ exact Hq | ]. split; [ exact Hst | ].
    intros state Hstate.
    destruct curr;
      destruct (2000 <=? uint32 (now - Legacy.pressStart l));
      destruct (Legacy.sketchState s); cbn in Hstate;
      try discriminate Hstate; injection Hstate as <-; reflexivity.
  - intros Hempty Hlogin -> Hlong curr2 now2 Hlong2 s2 s3. subst s2 s3.
    apply Z.leb_le in Hlong, Hlong2.
    rewrite Hlong, Hlogin, Hempty in Hq. cbn [app] in Hq.
    set (s1 := snd (fst (Legacy.ButtonTask LOW now l s))) in *.
    set (l1 := fst (fst (Legacy.ButtonTask LOW now l s))) in *.
    destruct (legacy_indicateAll_pass s1
                (Legacy.mkCommand Legacy.CMD_UNLOCK "") [] Hq)
      as (Hs2 & Hq2).
    set (s2 := Legacy.BLECommandTask s1) in *.
    destruct (legacy_ButtonTask_down curr2 now2 l1 s2)
      as (Hst3 & _ & _ & Hq3).
    { rewrite Hq2. cbn. lia. }
    { exact Hl. }
    cbn zeta in Hst3, Hq3. rewrite Hps in Hq3.
    rewrite Hlong2, Hs2, Hq2 in Hq3. rewrite Hst3, Hs2.
    split; [ reflexivity | ].
    rewrite Hq3. destruct curr2; reflexivity.
  - intros Hlogin -> Hstarted [Hlo Hhi].
    split.
    + unfold Legacy.ButtonTask. rewrite Hlast, Hlogin, Hstarted.
      change (Bool.eqb LOW HIGH) with false.
      change (Bool.eqb LOW LOW) with true. cbn [andb]. cbv iota zeta.
      cbn [Legacy.CommandType_eqb orb andb negb].
      rewrite Bool.andb_false_r.
      assert (Hsecs : uint32 (uint32 (now - Legacy.pressStart l) - 500)
                      / 1000 = 1).
      { rewrite (uint32_small (uint32 (now - Legacy.pressStart l) - 500))
          by (unfold UINT32_MOD; lia).
        symmetry. apply Z.div_unique with
          (r := uint32 (now - Legacy.pressStart l) - 1500); lia. }
      cbn [Legacy.sketchState]. rewrite Hsecs.
      change (0 <? 2 - 1) with true. cbv iota.
      rewrite (proj2 (Z.leb_le _ _) Hlo).
      cbn [Legacy.CommandType_eqb Legacy.sketchState]. cbv iota.
      cbn [fst snd].
      rewrite legacy_queueCommand_room by (cbn [Legacy.commandQueue];
                                           exact Hroom).
      reflexivity.
    + rewrite Hq, Hlogin. rewrite (proj2 (Z.leb_le _ _) Hlo). reflexivity.
Qed.

Lemma legacy_button_task_witness :
  let l := Legacy.mkButtonStatics 0 true LOW in
  let s := Legacy.mkSketch Legacy.CMD_LOGIN [] [] [] in
  let s' := snd (fst (Legacy.ButtonTask LOW 2100 l s)) in
  Legacy.oled s' = [Legacy.UnlockIn 1]
  /\ Legacy.commandQueue s' = [Legacy.mkCommand Legacy.CMD_UNLOCK ""].
Proof.
  intros l s s'.
  destruct (legacy_button_task LOW 2100 l s) as (_ & _ & Hquirk).
  - cbn. lia.
  - reflexivity.
  - apply Hquirk.
    + reflexivity.
    + reflexivity.
    + reflexivity.
    + vm_compute. split; [ discriminate | reflexivity ].
Defined.

(** ** The buzzer *)

(** The beep loop from index [i] on. *)
Lemma playBuzzer_from_effect duration count n : forall i w,
  0 <= duration <= 4000000 ->
  0 <= tickCount (env w) < UINT32_MOD ->
  n = Z.to_nat (count - i) ->
  0 <= i <= count ->
  let w' := snd (playBuzzer_from duration count n i w) in
  fw w'
  = fw_set_gpio
      (gpio (fw w)
       ++ List.concat (repeat [(BUZZER_PIN, HIGH); (BUZZER_PIN, LOW)] n))
      (fw w)
  /\ env w'
     = env_set_tickCount
         (uint32 (tickCount (env w)
                  + duration * (count - i + Z.max 0 (count - i - 1))))
         (env w).
Proof.
  induction n as [ | n IH ]; intros i w Hd Ht Hn Hi w'; subst w'.
  - assert (Hend : i = count) by lia. subst i.
    cbn [playBuzzer_from ret snd repeat List.concat]. rewrite app_nil_r.
    replace (count - count + Z.max 0 (count - count - 1)) with 0 by lia.
    rewrite Z.mul_0_r, Z.add_0_r, (uint32_small _ Ht).
    split; [ destruct (fw w); reflexivity
           | destruct (env w); reflexivity ].
  - assert (Hlt : i < count) by lia.
    cbn [playBuzzer_from]. rewrite (proj2 (Z.ltb_lt _ _) Hlt).
    rewrite !bind_run.
    cbn [digitalWrite vTaskDelay elapse modify_fw modify_env fst snd fw env].
    rewrite (pdMS_TO_TICKS_small duration Hd).
    match goal with
    | |- context [playBuzzer_from duration count n (i + 1) ?x] =>
        set (w3 := x)
    end.
    assert (Hfw3 : fw w3
                   = fw_set_gpio
                       (gpio (fw w)
                        ++ [(BUZZER_PIN, HIGH); (BUZZER_PIN, LOW)])
                       (fw w)).
    { subst w3. destruct (i <? count - 1); cbn [ret snd fw];
        destruct (fw w); cbn; rewrite <- app_assoc; reflexivity. }
    assert (Henv3 : env w3
                    = env_set_tickCount
                        (uint32 (tickCount (env w) + duration
                                 + (if i <? count - 1 then duration else 0)))
                        (env w)).
    { subst w3. destruct (i <? count - 1); cbn [ret snd env].
      - destruct (env w); cbn. rewrite uint32_add_l. reflexivity.
      - destruct (env w); cbn. rewrite Z.add_0_r. reflexivity. }
    assert (Ht3 : 0 <= tickCount (env w3) < UINT32_MOD).
    { rewrite Henv3. destruct (env w); cbn. apply uint32_range. }
    destruct (IH (i + 1) w3 Hd Ht3 ltac:(lia) ltac:(lia)) as [Hfw Henv].
    cbn zeta in Hfw, Henv.
    split.
    + rewrite Hfw, Hfw3. cbn [repeat List.concat].
      destruct (fw w); cbn. rewrite <- app_assoc. reflexivity.
    + rewrite Henv, Henv3. unfold env_set_tickCount.
      cbn [tickCount lockScript indicateScript]. f_equal.
      rewrite uint32_add_l. f_equal.
      destruct (i <? count - 1) eqn:Hmore.
      * apply Z.ltb_lt in Hmore.
        replace (Z.max 0 (count - (i + 1) - 1)) with (count - i - 2) by lia.
        replace (Z.max 0 (count - i - 1)) with (count - i - 1) by lia.
        ring.
      * apply Z.ltb_ge in Hmore.
        replace (Z.max 0 (count - (i + 1) - 1)) with 0 by lia.
        replace (Z.max 0 (count - i - 1)) with 0 by lia.
        replace (count - (i + 1)) with 0 by lia.
        replace (count - i) with 1 by lia. ring.
Qed.

Lemma playBuzzer_effect duration count w :
  0 <= duration <= 4000000 ->
  0 <= count ->
  0 <= tickCount (env w) < UINT32_MOD ->
  let w' := snd (playBuzzer duration count w) in
  fw w' = fw_set_gpio (gpio (fw w) ++ beepTrace count) (fw w)
  /\ env w'
     = env_set_tickCount
         (uint32 (tickCount (env w) + beepTicks (duration, count))) (env w).
Proof.
  intros Hd Hc Ht w'. subst w'. unfold playBuzzer.
  destruct (playBuzzer_from_effect duration count (Z.to_nat count) 0 w Hd Ht)
    as [Hfw Henv].
  { f_equal. lia. }
  { lia. }
  cbn zeta in Hfw, Henv. split; [ exact Hfw | ].
  rewrite Henv. unfold env_set_tickCount. f_equal. f_equal.
  unfold beepTicks. cbn [fst snd].
  destruct (0 <? count) eqn:Hpos.
  - apply Z.ltb_lt in Hpos.
    replace (Z.max 0 (count - 0 - 1)) with (count - 1) by lia. ring.
  - apply Z.ltb_ge in Hpos. assert (count = 0) by lia. subst count.
    change (0 - 0 + Z.max 0 (0 - 0 - 1)) with 0. ring.
Qed.

(** ** How long a transition takes *)

Lemma sendUICommandEnhanced_room cmd state message duration fr hp w :
  (List.length (rendersOf w) < 15)%nat ->
  let w' := snd (sendUICommandEnhanced cmd state message duration fr hp w) in
  env w' = env w
  /\ List.length (rendersOf w') = S (List.length (rendersOf w)).
Proof.
  intros Hroom w'. subst w'.
  destruct (sendUICommandEnhanced_renders cmd state message duration fr hp w)
    as [Hq _].
  cbn zeta in Hq. split.
  - apply Nat.ltb_lt in Hroom.
    unfold sendUICommandEnhanced, xQueueSend. rewrite !bind_run.
    cbn [xTaskGetTickCount get_fw fst snd uiRenderQueueH q_items q_length
         q_store].
    unfold rendersOf in Hroom. rewrite Hroom. reflexivity.
  - rewrite Hq.
    replace (15 <=? List.length (rendersOf w))%nat with false
      by (symmetry; apply Nat.leb_gt; exact Hroom).
    rewrite length_app. cbn. lia.
Qed.

Lemma keeps_env_updateLEDs state : keeps env (updateLEDs state).
Proof. unfold updateLEDs. keeps_auto. Qed.

Lemma keeps_renders_updateLEDs state : keeps rendersOf (updateLEDs state).
Proof. unfold updateLEDs. keeps_auto. Qed.

Lemma executeStateExit_room state w :
  (List.length (rendersOf w) < 15)%nat ->
  let w' := snd (executeStateExit state w) in
  env w' = env w
  /\ (List.length (rendersOf w') <= S (List.length (rendersOf w)))%nat.
Proof.
  intros Hroom w'. subst w'. unfold executeStateExit, sendUICommand.
  destruct (state =? STATE_LOGO).
  { split; [ reflexivity | ].
    unfold rendersOf. cbn. destruct (fw w); cbn. lia. }
  destruct ((state =? STATE_RECORDING) || (state =? STATE_UPLOADING)).
  { destruct (sendUICommandEnhanced_room UI_CMD_STOP_ANIMATION state "" 0
                false false w Hroom) as [He Hl].
    cbn zeta in He, Hl. split; [ exact He | rewrite Hl; lia ]. }
  destruct (state =? STATE_LOGIN).
  { split; [ reflexivity | ].
    unfold rendersOf. cbn. destruct (fw w); cbn. lia. }
  split; [ reflexivity | cbn; lia ].
Qed.

(** A status write or a timer operation in between. *)
Lemma env_renders_modify g w :
  (forall f, uiRenderQueue (g f) = uiRenderQueue f) ->
  env (snd (modify_fw g w)) = env w
  /\ rendersOf (snd (modify_fw g w)) = rendersOf w.
Proof. intro H. split; [ reflexivity | apply H ]. Qed.

Lemma bind_pair {A B C} (a : M A) (b : M B) (k : M C) w :
  (a ;; b ;; k) w = k (snd ((a ;; b) w)).
Proof. reflexivity. Qed.

Lemma bind_pair_dep {A B C} (a : M A) (b : A -> M B) (k : M C) w :
  (x <- a ;; b x ;; k) w = k (snd ((x <- a ;; b x) w)).
Proof. reflexivity. Qed.

Lemma showMessage_room message duration isError w :
  (List.length (rendersOf w) < 15)%nat ->
  let w' := snd (showMessage message duration isError w) in
  env w' = env w
  /\ List.length (rendersOf w') = S (List.length (rendersOf w)).
Proof.
  intro Hroom. unfold showMessage, sendUICommand.
  apply sendUICommandEnhanced_room. exact Hroom.
Qed.

(** A flag written under the state lock. *)
Lemma flag_write_free g n w :
  locksFree w ->
  let w' :=
    snd ((got <- xSemaphoreTake stateMutex n ;;
          (if got then modify_status g ;; xSemaphoreGive stateMutex
           else ret tt)) w) in
  env w' = env w /\ rendersOf w' = rendersOf w.
Proof.
  intros Hfree w'. subst w'. rewrite bind_run.
  rewrite (take_free stateMutex n w Hfree). cbn [fst snd].
  split; [ reflexivity | ].
  unfold rendersOf. cbn. destruct (fw w); reflexivity.
Qed.

Lemma timer_start_quiet t w :
  env (snd (xTimerStart t w)) = env w
  /\ rendersOf (snd (xTimerStart t w)) = rendersOf w.
Proof.
  split; [ reflexivity | ].
  unfold rendersOf. destruct t; cbn; destruct (fw w); reflexivity.
Qed.

Lemma executeStateEntry_latency state w :
  locksFree w ->
  (List.length (rendersOf w) < 15)%nat ->
  0 <= tickCount (env w) < UINT32_MOD ->
  let w' := snd (executeStateEntry state w) in
  env w'
  = env_set_tickCount
      (uint32 (tickCount (env w) + beepTicks (entryBeeps state))) (env w)
  /\ (List.length (rendersOf w') <= S (List.length (rendersOf w)))%nat.
Proof.
  intros Hfree Hroom Ht w'. subst w'.
  assert (Hbuzz : forall d c,
             0 <= d <= 4000000 -> 0 <= c ->
             let w1 := snd ((playBuzzer d c ;; updateLEDs state) w) in
             env w1
             = env_set_tickCount
                 (uint32 (tickCount (env w) + beepTicks (d, c))) (env w)
             /\ rendersOf w1 = rendersOf w
             /\ locksFree w1).
  { intros d c Hd Hc w1. subst w1. rewrite bind_run.
    destruct (playBuzzer_effect d c w Hd Hc Ht) as [Hfw Henv].
    cbn zeta in Hfw, Henv.
    rewrite keeps_env_updateLEDs, keeps_renders_updateLEDs.
    split; [ exact Henv | ].
    split.
    - unfold rendersOf. rewrite Hfw. destruct (fw w); reflexivity.
    - unfold locksFree. rewrite keeps_env_updateLEDs, Henv. exact Hfree. }
  unfold executeStateEntry, entryBeeps.
  destruct (state =? STATE_LOGO).
  { destruct (Hbuzz 100 1 ltac:(lia) ltac:(lia)) as (He & Hq & Hf).
    cbn zeta in He, Hq, Hf. rewrite bind_pair.
    set (w1 := snd ((playBuzzer 100 1 ;; updateLEDs state) w)) in *.
    rewrite bind_pair_dep.
    destruct (flag_write_free (set_isLogoAlt false) (pdMS_TO_TICKS 50) w1 Hf)
      as [He2 Hq2].
    cbn zeta in He2, Hq2.
    destruct (timer_start_quiet logoSwitchTimerH
                (snd ((got <- xSemaphoreTake stateMutex (pdMS_TO_TICKS 50) ;;
                       (if got then
                          modify_status (set_isLogoAlt false) ;;
                          xSemaphoreGive stateMutex
                        else ret tt)) w1))) as [He3 Hq3].
    rewrite He3, He2, Hq3, Hq2, Hq. split; [ exact He | lia ]. }
  destruct (state =? STATE_SETUP).
  { destruct (Hbuzz 200 2 ltac:(lia) ltac:(lia)) as (He & Hq & Hf).
    cbn zeta in He, Hq, Hf. rewrite bind_pair.
    set (w1 := snd ((playBuzzer 200 2 ;; updateLEDs state) w)) in *.
    destruct (showMessage_room "Device Ready" 2000 false w1) as [He2 Hl2].
    { rewrite Hq. exact Hroom. }
    cbn zeta in He2, Hl2. rewrite He2, Hl2, Hq.
    split; [ exact He | lia ]. }
  destruct (state =? STATE_LOGIN).
  { destruct (Hbuzz 150 1 ltac:(lia) ltac:(lia)) as (He & Hq & Hf).
    cbn zeta in He, Hq, Hf. rewrite bind_pair.
    set (w1 := snd ((playBuzzer 150 1 ;; updateLEDs state) w)) in *.
    rewrite bind_run.
    destruct (showMessage_room "Hold button for 2 sec" 3000 false w1)
      as [He2 Hl2].
    { rewrite Hq. exact Hroom. }
    cbn zeta in He2, Hl2.
    set (w2 := snd (showMessage "Hold button for 2 sec" 3000 false w1)) in *.
    assert (Hf2 : locksFree w2) by (unfold locksFree; rewrite He2; exact Hf).
    rewrite bind_pair_dep.
    destruct (flag_write_free (set_isLoginFirstScreen true)
                (pdMS_TO_TICKS 50) w2 Hf2) as [He3 Hq3].
    cbn zeta in He3, Hq3.
    destruct (timer_start_quiet loginScreenTimerH
                (snd ((got <- xSemaphoreTake stateMutex (pdMS_TO_TICKS 50) ;;
                       (if got then
                          modify_status (set_isLoginFirstScreen true) ;;
                          xSemaphoreGive stateMutex
                        else ret tt)) w2))) as [He4 Hq4].
    unfold xTimerReset. rewrite He4, He3, He2, Hq4, Hq3, Hl2, Hq.
    split; [ exact He | lia ]. }
  destruct (state =? STATE_UNLOCK).
  { destruct (Hbuzz 300 1 ltac:(lia) ltac:(lia)) as (He & Hq & Hf).
    cbn zeta in He, Hq, Hf. rewrite bind_pair.
    set (w1 := snd ((playBuzzer 300 1 ;; updateLEDs state) w)) in *.
    destruct (showMessage_room "Press once to Record" 2000 false w1)
      as [He2 Hl2].
    { rewrite Hq. exact Hroom. }
    cbn zeta in He2, Hl2. rewrite He2, Hl2, Hq.
    split; [ exact He | lia ]. }
  destruct (state =? STATE_RECORDING).
  { destruct (Hbuzz 100 1 ltac:(lia) ltac:(lia)) as (He & Hq & Hf).
    cbn zeta in He, Hq, Hf. rewrite bind_pair.
    set (w1 := snd ((playBuzzer 100 1 ;; updateLEDs state) w)) in *.
    destruct (sendUICommandEnhanced_room UI_CMD_START_ANIMATION state "" 0
                false false w1) as [He2 Hl2].
    { rewrite Hq. exact Hroom. }
    cbn zeta in He2, Hl2. unfold sendUICommand. rewrite He2, Hl2, Hq.
    split; [ exact He | lia ]. }
  destruct (state =? STATE_UPLOADING).
  { destruct (Hbuzz 100 1 ltac:(lia) ltac:(lia)) as (He & Hq & Hf).
    cbn zeta in He, Hq, Hf. rewrite bind_pair.
    set (w1 := snd ((playBuzzer 100 1 ;; updateLEDs state) w)) in *.
    rewrite bind_run.
    destruct (sendUICommandEnhanced_room UI_CMD_START_ANIMATION state "" 0
                false false w1) as [He2 Hl2].
    { rewrite Hq. exact Hroom. }
    cbn zeta in He2, Hl2. unfold sendUICommand.
    set (w2 := snd (sendUICommandEnhanced UI_CMD_START_ANIMATION state "" 0
                      false false w1)) in *.
    assert (Hf2 : locksFree w2) by (unfold locksFree; rewrite He2; exact Hf).
    destruct (flag_write_free (set_isRecordingHoldToUpload false)
                (pdMS_TO_TICKS 50) w2 Hf2) as [He3 Hq3].
    cbn zeta in He3, Hq3. rewrite He3, He2, Hq3, Hl2, Hq.
    split; [ exact He | lia ]. }
  destruct (state =? STATE_ERROR).
  { destruct (Hbuzz 100 3 ltac:(lia) ltac:(lia)) as (He & Hq & Hf).
    cbn zeta in He, Hq, Hf. rewrite bind_pair.
    set (w1 := snd ((playBuzzer 100 3 ;; updateLEDs state) w)) in *.
    destruct (showMessage_room "System Error" 5000 true w1) as [He2 Hl2].
    { rewrite Hq. exact Hroom. }
    cbn zeta in He2, Hl2. rewrite He2, Hl2, Hq.
    split; [ exact He | lia ]. }
  cbn [ret snd]. change (beepTicks (0, 0)) with 0.
  rewrite Z.add_0_r, (uint32_small _ Ht).
  split; [ destruct (env w); reflexivity | lia ].
Qed.

Lemma transition_latency_lemma newState trigger w :
  locksFree w ->
  (List.length (rendersOf w) + 3 <= 15)%nat ->
  newState < STATE_MAX ->
  0 <= tickCount (env w) < UINT32_MOD ->
  let r := transitionToState newState trigger w in
  fst r = true
  /\ env (snd r)
     = env_set_tickCount
         (uint32 (tickCount (env w) + beepTicks (entryBeeps newState)))
         (env w)
  /\ (List.length (rendersOf (snd r)) <= List.length (rendersOf w) + 3)%nat.
Proof.
  intros Hfree Hroom Hmax Ht r. subst r.
  rewrite transitionToState_unfold. rewrite bind_run.
  rewrite (take_free stateMutex _ w Hfree). cbn [fst snd].
  rewrite bind_run. cbn [get_status fst snd]. cbv zeta.
  rewrite (enum_as_int_declared _ Hmax). fold (statusOf w).
  rewrite bind_run.
  destruct (executeStateExit_room (currentState (statusOf w)) w) as [He1 Hl1].
  { lia. }
  cbn zeta in He1, Hl1.
  set (w1 := snd (executeStateExit (currentState (statusOf w)) w)) in *.
  rewrite bind_run. cbn [xTaskGetTickCount fst snd].
  rewrite bind_run.
  set (w2 := snd (modify_status
                    (recordTransition (currentState (statusOf w)) newState
                       (tickCount (env w1))) w1)).
  assert (He2 : env w2 = env w) by exact He1.
  assert (Hq2 : rendersOf w2 = rendersOf w1).
  { subst w2. unfold rendersOf. cbn. destruct (fw w1); reflexivity. }
  rewrite bind_run.
  set (w3 := snd ((if isCriticalTransition (currentState (statusOf w))
                        newState
                   then modify_status (set_forceUIRefresh true)
                   else ret tt) w2)).
  assert (He3 : env w3 = env w).
  { subst w3. destruct (isCriticalTransition _ _); exact He2. }
  assert (Hq3 : rendersOf w3 = rendersOf w1).
  { subst w3. rewrite <- Hq2.
    destruct (isCriticalTransition _ _); [ | reflexivity ].
    unfold rendersOf. cbn. destruct (fw w2); reflexivity. }
  destruct (transitionTail_effects newState
              (isCriticalTransition (currentState (statusOf w)) newState) w3)
    as (_ & _ & _ & _ & Hok).
  split; [ exact Hok | ].
  unfold transitionTail. rewrite bind_run.
  cbn [xSemaphoreGive ret fst snd]. rewrite bind_run.
  destruct (executeStateEntry_latency newState w3) as [He4 Hl4].
  { unfold locksFree. rewrite He3. exact Hfree. }
  { rewrite Hq3. lia. }
  { rewrite He3. exact Ht. }
  cbn zeta in He4, Hl4. rewrite He3 in He4.
  set (w4 := snd (executeStateEntry newState w3)) in *.
  rewrite bind_run.
  destruct (sendUICommandEnhanced_room UI_CMD_LOAD_SCREEN newState "" 0
              (isCriticalTransition (currentState (statusOf w)) newState)
              true w4) as [He5 Hl5].
  { rewrite Hq3 in Hl4. lia. }
  cbn zeta in He5, Hl5.
  set (w5 := snd (sendUICommandEnhanced UI_CMD_LOAD_SCREEN newState "" 0
                    (isCriticalTransition (currentState (statusOf w))
                       newState) true w4)) in *.
  rewrite bind_run. cbn [get_status fst snd]. rewrite bind_run.
  cbn [ret snd].
  assert (Hfinal : forall w6,
             w6 = snd ((if 0 <? stateTimeoutMs (systemStatus (fw w5))
                        then
                          xTimerChangePeriod stateTimeoutTimerH
                            (pdMS_TO_TICKS
                               (stateTimeoutMs (systemStatus (fw w5)))) ;;
                          xTimerReset stateTimeoutTimerH
                        else xTimerStop stateTimeoutTimerH) w5) ->
             env w6 = env w5 /\ rendersOf w6 = rendersOf w5).
  { intros w6 ->.
    destruct (0 <? stateTimeoutMs (systemStatus (fw w5))).
    - split; [ reflexivity | ].
      unfold rendersOf. cbn. destruct (fw w5); reflexivity.
    - split; [ reflexivity | ].
      unfold rendersOf. cbn. destruct (fw w5); reflexivity. }
  destruct (Hfinal _ eq_refl) as [He6 Hq6].
  rewrite He6, Hq6, He5, Hl5.
  split; [ exact He4 | ].
  rewrite Hq3 in Hl4. lia.
Qed.

(** X27: how long a transition takes.  With the locks free and room for
    three more commands in the render queue, a transition to a declared
    state succeeds and keeps the calling task busy for exactly the beeps of
    the entry actions: 100 ticks for Logo, Recording and Uploading, 150 for
    Login, 300 for Unlock, 500 for Error, 600 for Setup and none for the
    other states.  The request to load the new screen is queued only after
    the beeps, and at most three render commands are added. *)
Theorem transition_latency :
  forall newState trigger w,
    locksFree w ->
    (List.length (rendersOf w) + 3 <= 15)%nat ->
    newState < STATE_MAX ->
    0 <= tickCount (env w) < UINT32_MOD ->
    let r := transitionToState newState trigger w in
    let busy := beepTicks (entryBeeps newState) in
    fst r = true
    /\ tickCount (env (snd r)) = uint32 (tickCount (env w) + busy)
    /\ locksFree (snd r)
    /\ (List.length (rendersOf (snd r)) <= List.length (rendersOf w) + 3)%nat
    /\ 0 <= busy <= 600
    /\ (busy = 600 <-> newState = STATE_SETUP).
Proof.
  intros newState trigger w Hfree Hroom Hmax Ht r busy. subst r busy.
  destruct (transition_latency_lemma newState trigger w Hfree Hroom Hmax Ht)
    as (Hok & Henv & Hlen).
  cbn zeta in Hok, Henv, Hlen.
  split; [ exact Hok | ].
  split; [ rewrite Henv; reflexivity | ].
  split; [ unfold locksFree; rewrite Henv; exact Hfree | ].
  split; [ exact Hlen | ].
  unfold entryBeeps.
  destruct (newState =? STATE_LOGO) eqn:E1;
    [ apply Z.eqb_eq in E1; subst; cbn; split; [ lia | split; discriminate ]
    | ].
  destruct (newState =? STATE_SETUP) eqn:E2;
    [ apply Z.eqb_eq in E2; subst; cbn; split; [ lia | split; reflexivity ]
    | ].
  apply Z.eqb_neq in E2.
  repeat match goal with
         | |- context [if ?b then _ else _] => destruct b
         end;
    cbn; (split; [ lia | split; [ discriminate | contradiction ] ]).
Qed.

Lemma transition_latency_witness :
  tickCount
    (env (snd (transitionToState STATE_SETUP EVENT_APP_COMMAND
                 (world_in STATE_LOGO 1000))))
  = 1600.
Proof.
  destruct (transition_latency STATE_SETUP EVENT_APP_COMMAND
              (world_in STATE_LOGO 1000)) as (_ & Htick & _).
  - reflexivity.
  - cbn. lia.
  - reflexivity.
  - vm_compute. split; [ discriminate | reflexivity ].
  - rewrite Htick. reflexivity.
Defined.

(** ** LEDs *)

Lemma levelOf_app pin g wr :
  levelOf pin (g ++ [wr])
  = if fst wr =? pin then snd wr else levelOf pin g.
Proof. unfold levelOf. rewrite fold_left_app. reflexivity. Qed.

Lemma ledPhase_digitalWrite pin level w :
  ledPhase (snd (digitalWrite pin level w))
  = (if pin =? LED_RED_PIN then level else fst (fst (ledsOf w)),
     if pin =? LED_GREEN_PIN then level else snd (fst (ledsOf w)),
     if pin =? LED_BLUE_PIN then level else snd (ledsOf w),
     blinkState (fw w)).
Proof.
  unfold ledPhase, ledsOf, digitalWrite. cbn [modify_fw snd fst fw].
  unfold fw_set_gpio. cbn [gpio blinkState].
  rewrite !levelOf_app. reflexivity.
Qed.

Lemma keeps_ledPhase_buzzer level :
  keeps ledPhase (digitalWrite BUZZER_PIN level).
Proof. intro w. rewrite ledPhase_digitalWrite. reflexivity. Qed.

Lemma keeps_ledPhase_playBuzzer d c : keeps ledPhase (playBuzzer d c).
Proof.
  unfold playBuzzer. generalize 0 as i.
  induction (Z.to_nat c) as [ | n IH ]; intro i; cbn [playBuzzer_from].
  - apply keeps_ret.
  - destruct (i <? c); [ | apply keeps_ret ].
    repeat (apply keeps_bind; [ | intro ]);
      try apply IH; try apply keeps_ledPhase_buzzer;
      try (intro; reflexivity).
    destruct (i <? c - 1); intro; reflexivity.
Qed.

Lemma updateLEDs_phase state w :
  ledPhase (snd (updateLEDs state w)) = ledStep state (ledPhase w)
  /\ levelOf BUZZER_PIN (gpio (fw (snd (updateLEDs state w))))
     = levelOf BUZZER_PIN (gpio (fw w))
  /\ systemStatus (fw (snd (updateLEDs state w))) = systemStatus (fw w)
  /\ env (snd (updateLEDs state w)) = env w.
Proof.
  unfold updateLEDs, ledStep, stateColour, ledPhase, ledsOf.
  rewrite !bind_run. cbn [modify_fw get_fw fst snd].
  repeat match goal with
         | |- context [if state =? ?s then _ else _] =>
             destruct (state =? s)
         end;
    unfold digitalWrite; rewrite ?bind_run;
    unfold fw_set_gpio, fw_set_blinkState;
    cbn [modify_fw ret fst snd fw env blinkState gpio systemStatus];
    rewrite ?levelOf_app; cbn [fst snd];
    repeat split; reflexivity.
Qed.

Ltac keeps_phase :=
  keeps_with
    ltac:(idtac;
          match goal with
          | |- keeps _ (playBuzzer _ _) => apply keeps_ledPhase_playBuzzer
          end).

Lemma executeStateExit_phase s : keeps ledPhase (executeStateExit s).
Proof.
  unfold executeStateExit, sendUICommand, sendUICommandEnhanced, xQueueSend,
    xQueueReset, xTimerStop.
  keeps_phase.
Qed.

Lemma executeStateEntry_phase s w :
  ledPhase (snd (executeStateEntry s w))
  = match stateColour s (negb (blinkState (fw w))) with
    | Some _ => ledStep s (ledPhase w)
    | None => ledPhase w
    end.
Proof.
  assert (Hrest : forall c : M unit, keeps ledPhase c ->
            forall d n,
              ledPhase (snd ((playBuzzer d n ;; updateLEDs s ;; c) w))
              = ledStep s (ledPhase w)).
  { intros c Hc d n. rewrite bind_run, bind_run, Hc.
    rewrite (proj1 (updateLEDs_phase s _)).
    rewrite keeps_ledPhase_playBuzzer. reflexivity. }
  unfold executeStateEntry, stateColour.
  repeat match goal with
         | |- context [if s =? ?x then _ else _] =>
             destruct (s =? x) eqn:?
         end;
    try (apply Hrest; unfold showMessage, sendUICommand,
           sendUICommandEnhanced, xQueueSend, xQueueReset, xTimerReset,
           xTimerStart; keeps_phase).
  reflexivity.
Qed.

Lemma transitionTail_phase newState critical w :
  ledPhase (snd (transitionTail newState critical w))
  = ledPhase (snd (executeStateEntry newState w)).
Proof.
  unfold transitionTail. rewrite bind_run. cbn [xSemaphoreGive ret fst snd].
  rewrite bind_run.
  match goal with
  | |- ledPhase (snd (?c ?w2)) = _ =>
      assert (K : keeps ledPhase c)
        by (unfold sendUICommandEnhanced, xQueueSend, xQueueReset,
              xTimerChangePeriod, xTimerReset, xTimerStart, xTimerStop;
            keeps_auto);
      rewrite (K w2)
  end.
  reflexivity.
Qed.

Lemma transitionToState_phase newState trigger w :
  let r := transitionToState newState trigger w in
  ledPhase (snd r)
  = if fst r
    then match stateColour newState (negb (blinkState (fw w))) with
         | Some _ => ledStep newState (ledPhase w)
         | None => ledPhase w
         end
    else ledPhase w.
Proof.
  intro r. subst r.
  destruct (fst (transitionToState newState trigger w)) eqn:Hok.
  - revert Hok. rewrite transitionToState_unfold. rewrite !bind_run.
    pose proof (keeps_fw_take stateMutex (pdMS_TO_TICKS 100) w) as Hfw.
    destruct (xSemaphoreTake stateMutex (pdMS_TO_TICKS 100) w) as [got w1].
    cbn [fst snd] in *.
    destruct got; [ | discriminate ].
    rewrite bind_run. cbn [get_status fst snd].
    rewrite Hfw. fold (statusOf w). cbv zeta.
    destruct (STATE_MAX <=? enum_as_int newState); [ discriminate | ].
    intros _. rewrite bind_run.
    pose proof (executeStateExit_phase (currentState (statusOf w)) w1) as Hx.
    set (w2 := snd (executeStateExit (currentState (statusOf w)) w1)) in *.
    rewrite bind_run. cbn [xTaskGetTickCount fst snd].
    rewrite bind_run.
    set (w3 := snd (modify_status
                      (recordTransition (currentState (statusOf w)) newState
                         (tickCount (env w2))) w2)).
    rewrite bind_run. rewrite transitionTail_phase.
    rewrite executeStateEntry_phase.
    set (w4 := snd ((if isCriticalTransition (currentState (statusOf w))
                          newState
                     then modify_status (set_forceUIRefresh true)
                     else ret tt) w3)).
    assert (H4 : ledPhase w4 = ledPhase w).
    { transitivity (ledPhase w2).
      - subst w4 w3.
        destruct (isCriticalTransition (currentState (statusOf w)) newState);
          reflexivity.
      - rewrite Hx. unfold ledPhase, ledsOf. rewrite Hfw. reflexivity. }
    assert (Hb : blinkState (fw w4) = blinkState (fw w))
      by exact (f_equal snd H4).
    rewrite H4, Hb. reflexivity.
  - pose proof (transitionToState_false newState trigger w Hok) as Hfw.
    unfold ledPhase, ledsOf. rewrite Hfw. reflexivity.
Qed.

Lemma HardwareTask_leds_phase lastLEDUpdate w :
  let r := HardwareTask_leds lastLEDUpdate w in
  let due :=
    pdMS_TO_TICKS 500 <=? uint32 (tickCount (env w) - lastLEDUpdate) in
  let got := nth 0 (lockScript (env w)) true in
  fst r = (if due && got then tickCount (env w) else lastLEDUpdate)
  /\ ledPhase (snd r)
     = (if due && got then ledStep (currentState (statusOf w)) (ledPhase w)
        else ledPhase w)
  /\ systemStatus (fw (snd r)) = systemStatus (fw w).
Proof.
  intros r due got. subst r due got.
  unfold HardwareTask_leds. rewrite bind_run.
  cbn [xTaskGetTickCount fst snd].
  destruct (pdMS_TO_TICKS 500 <=? uint32 (tickCount (env w) - lastLEDUpdate));
    [ | repeat split; reflexivity ].
  cbn [andb]. rewrite bind_run. unfold xSemaphoreTake.
  destruct (lockScript (env w)) as [ | granted rest ]; cbn [nth fst snd].
  - rewrite !bind_run. cbn [get_status xSemaphoreGive ret fst snd].
    destruct (updateLEDs_phase (currentState (systemStatus (fw w))) w)
      as (Hp & _ & Hs & _).
    repeat split; assumption.
  - destruct granted.
    + rewrite !bind_run. cbn [get_status xSemaphoreGive ret fst snd fw].
      match goal with
      | |- context [updateLEDs ?s ?w1] =>
          destruct (updateLEDs_phase s w1) as (Hp & _ & Hs & _)
      end.
      repeat split; assumption.
    + repeat split; reflexivity.
Qed.

(** X28: the LEDs follow the state.  One call of [updateLEDs] flips the
    blink phase whatever the state is, drives the three LED pins to the
    colour of the state (off for Logo, white for Setup, red for Login, green
    for Unlock, blinking red for Recording, blinking blue for Uploading,
    blinking red and blue in phase for Error) and leaves them alone for the
    other states; it never drives the buzzer pin.  A successful transition
    into a state with a colour shows that colour at once and flips the
    phase, any other call of [transitionToState] leaves both as they were.
    The LED block of the hardware task updates only when 500 ticks have
    passed since its last update and the lock is granted; otherwise the
    LEDs, the phase and its time stamp stay, so a refused lock is retried on
    the next pass. *)
Theorem leds_follow_state :
  forall w,
    (forall state,
        let w' := snd (updateLEDs state w) in
        blinkState (fw w') = negb (blinkState (fw w))
        /\ ledsOf w'
           = match stateColour state (negb (blinkState (fw w))) with
             | Some colour => colour
             | None => ledsOf w
             end
        /\ levelOf BUZZER_PIN (gpio (fw w'))
           = levelOf BUZZER_PIN (gpio (fw w)))
    /\ (forall newState trigger,
           let r := transitionToState newState trigger w in
           ledPhase (snd r)
           = if fst r
             then match stateColour newState (negb (blinkState (fw w))) with
                  | Some colour => (colour, negb (blinkState (fw w)))
                  | None => ledPhase w
                  end
             else ledPhase w)
    /\ (forall lastLEDUpdate,
           let r := HardwareTask_leds lastLEDUpdate w in
           let due :=
             pdMS_TO_TICKS 500
             <=? uint32 (tickCount (env w) - lastLEDUpdate) in
           let got := nth 0 (lockScript (env w)) true in
           fst r = (if due && got then tickCount (env w) else lastLEDUpdate)
           /\ ledPhase (snd r)
              = (if due && got
                 then ledPhase
                        (snd (updateLEDs (currentState (statusOf w)) w))
                 else ledPhase w)).
Proof.
  intro w. split; [ | split ].
  - intros state w'. subst w'.
    destruct (updateLEDs_phase state w) as (Hp & Hb & _).
    unfold ledStep, ledPhase in Hp. cbn [fst snd] in Hp.
    split; [ exact (f_equal snd Hp) | ].
    split; [ exact (f_equal fst Hp) | exact Hb ].
  - intros newState trigger r. subst r.
    rewrite (transitionToState_phase newState trigger w). cbv zeta.
    destruct (fst (transitionToState newState trigger w)); [ | reflexivity ].
    unfold ledStep. cbn [fst snd ledPhase].
    destruct (stateColour newState (negb (blinkState (fw w))));
      reflexivity.
  - intros lastLEDUpdate r due got. subst r due got.
    destruct (HardwareTask_leds_phase lastLEDUpdate w) as (Hs & Hp & _).
    cbv zeta in Hs, Hp. split; [ exact Hs | ].
    rewrite Hp. rewrite (proj1 (updateLEDs_phase _ w)). reflexivity.
Qed.

Lemma leds_follow_state_witness :
  ledsOf
    (snd (HardwareTask_leds 0
            (snd (transitionToState STATE_RECORDING EVENT_BUTTON_SHORT_PRESS
                    (world_in STATE_UNLOCK 1000)))))
  = (LOW, LOW, LOW)
  /\ ledsOf
       (snd (transitionToState STATE_RECORDING EVENT_BUTTON_SHORT_PRESS
               (world_in STATE_UNLOCK 1000)))
     = (HIGH, LOW, LOW).
Proof.
  destruct (leds_follow_state (world_in STATE_UNLOCK 1000))
    as (_ & Htr & _).
  specialize (Htr STATE_RECORDING EVENT_BUTTON_SHORT_PRESS).
  cbv zeta in Htr.
  destruct (leds_follow_state
              (snd (transitionToState STATE_RECORDING
                      EVENT_BUTTON_SHORT_PRESS
                      (world_in STATE_UNLOCK 1000))))
    as (_ & _ & Hled).
  specialize (Hled 0). cbv zeta in Hled. destruct Hled as [_ Hled].
  split.
  - apply (f_equal fst) in Hled. cbn [ledPhase fst] in Hled.
    rewrite Hled. vm_compute. reflexivity.
  - apply (f_equal fst) in Htr. cbn [ledPhase fst] in Htr.
    rewrite Htr. vm_compute. reflexivity.
Defined.
